(** * mog-backend: plan lifecycle and background generation pipeline

    A shallow embedding of the parts of [server.js] (second, current copy of
    the server in the file) that normalise a vision-provider analysis,
    resolve tiers, check identity, generate and repair training plans,
    drive the day/week state machine and feed the background image queue.

    JavaScript data is modelled as the code has it: provider payloads are
    schema-free JSON values, whose numbers are IEEE doubles seen as
    rationals extended with NaN and the two infinities (the code only
    compares and clamps them); the numbers the code adds and multiplies, the
    mog points and the user's score, are binary64 floating-point numbers;
    objects are finite maps from property names to values, and the
    in-process [Map]s are finite maps. *)

From Stdlib Require Import QArith ZArith Ascii String List Bool Lia Lqa SpecFloat.
From stdpp Require Import gmap strings list fin_maps pretty.

Set Warnings "-register-all".
Local Open Scope string_scope.

(** ** JavaScript values *)

Module JS.

(** A double: every finite double is a rational, so quantifying over [Fin q]
    covers every finite double; [-0] and [+0] are both [Fin 0]. *)
Inductive number := NaN | NegInf | Fin (q : Q) | PosInf.

(** What [JSON.parse] can return, plus [undefined] for an absent property. *)
Inductive value :=
| VUndefined
| VNull
| VBool (b : bool)
| VNum (n : number)
| VStr (s : string)
| VArr (xs : list value)
| VObj (fields : gmap string value).

(** [x >= y] on numbers: false as soon as one side is NaN. *)
Definition num_ge (x y : number) : bool :=
  match x, y with
  | NaN, _ | _, NaN => false
  | PosInf, _ => true
  | _, NegInf => true
  | NegInf, _ => false
  | _, PosInf => false
  | Fin a, Fin b => Qle_bool b a
  end.

(** [Math.min(a, b)] and [Math.max(a, b)] on numbers. *)
Definition math_min (a b : number) : number :=
  match a, b with
  | NaN, _ | _, NaN => NaN
  | NegInf, _ | _, NegInf => NegInf
  | PosInf, x | x, PosInf => x
  | Fin p, Fin q => if Qle_bool p q then Fin p else Fin q
  end.

Definition math_max (a b : number) : number :=
  match a, b with
  | NaN, _ | _, NaN => NaN
  | PosInf, _ | _, PosInf => PosInf
  | NegInf, x | x, NegInf => x
  | Fin p, Fin q => if Qle_bool q p then Fin p else Fin q
  end.

(** ToBoolean. *)
Definition truthy (v : value) : bool :=
  match v with
  | VUndefined | VNull => false
  | VBool b => b
  | VNum NaN => false
  | VNum (Fin q) => negb (Qeq_bool q 0)
  | VNum _ => true
  | VStr s => negb (String.eqb s "")
  | VArr _ | VObj _ => true
  end.

(** [a || b] and [a ?? b]. *)
Definition orElse (a b : value) : value := if truthy a then a else b.

Definition nullish (v : value) : bool :=
  match v with VUndefined | VNull => true | _ => false end.

Definition coalesce (a b : value) : value := if nullish a then b else a.

(** [v.k] for the property names the server reads (none of them lives on a
    prototype): a [TypeError] ([None]) on [null] and [undefined], the own
    property of an object, [undefined] on everything else. *)
Definition get (v : value) (k : string) : option value :=
  match v with
  | VUndefined | VNull => None
  | VObj fields => Some (default VUndefined (fields !! k))
  | _ => Some VUndefined
  end.

(** [v?.k]. *)
Definition get_opt (v : value) (k : string) : value :=
  match v with
  | VObj fields => default VUndefined (fields !! k)
  | _ => VUndefined
  end.

(** [a === b] restricted to a boolean right-hand side, as in
    [analysis.isValidPhysique === false]. *)
Definition strict_eq_bool (v : value) (b : bool) : bool :=
  match v with VBool b' => Bool.eqb b' b | _ => false end.

Section Coercion.

(** The two runtime conversions the embedding leaves open: StringToNumber
    and the string a JSON array or object converts to (ToPrimitive). *)
Variable StringToNumber : string -> number.
Variable ToPrimitive : value -> string.

Definition ToNumber (v : value) : number :=
  match v with
  | VUndefined => NaN
  | VNull => Fin 0
  | VBool b => Fin (if b then 1 else 0)
  | VNum n => n
  | VStr s => StringToNumber s
  | VArr _ | VObj _ => StringToNumber (ToPrimitive v)
  end.

(** [v >= m] with a number on the right: the left side is converted. *)
Definition ge (v : value) (m : number) : bool := num_ge (ToNumber v) m.

End Coercion.

End JS.

Import JS.

(** ** Tier system (TIERS, getTierFromScore) *)

Record Tier := { name : string; minScore : Q; type : string }.

Definition TIERS : list Tier :=
  [ {| name := "Final Boss Mogger"; minScore := 97; type := "mythic" |};
    {| name := "Mogger"; minScore := 93; type := "legendary" |};
    {| name := "Gigachad"; minScore := 88; type := "epic" |};
    {| name := "Chad"; minScore := 78; type := "rare" |};
    {| name := "Chadlite"; minScore := 68; type := "uncommon" |};
    {| name := "High-Tier Normie"; minScore := 55; type := "common" |};
    {| name := "Normie"; minScore := 45; type := "common" |};
    {| name := "Low-Tier Normie"; minScore := 35; type := "common" |};
    {| name := "Gym Bro"; minScore := 0; type := "starter" |} ].

Section Tiers.

Variable StringToNumber : string -> number.
Variable ToPrimitive : value -> string.

(** The [for (const tier of TIERS)] loop with its early return, over any
    table, and the fall-through [return 'Gym Bro']. *)
Fixpoint scanTiers (tiers : list Tier) (score : value) : string :=
  match tiers with
  | [] => "Gym Bro"
  | tier :: rest =>
      if JS.ge StringToNumber ToPrimitive score (Fin (minScore tier))
      then name tier
      else scanTiers rest score
  end.

Definition getTierFromScore (score : value) : string := scanTiers TIERS score.

End Tiers.

(** ** Analysis Normalizer (analyzePhysiqueWithAI, from the provider's reply on) *)

Module Normalizer.

Record MuscleBreakdown := {
  chest : value;
  shoulders : value;
  back : value;
  arms : value;
  legs : value;
  core : value;
  leanness : value }.

Record NormalizedAnalysis := {
  isValidPhysique : bool;
  mogScore : number;
  tier : string;
  muscleBreakdown : MuscleBreakdown;
  notVisible : value;
  weakPoints : value;
  strongPoints : value;
  symmetry : value;
  overallAssessment : value;
  improvementTips : value;
  scanSteps : value;
  aiPowered : bool }.

(** What came back from the vision provider. *)
Inductive VisionReply :=
| HttpNotOk                    (* !response.ok *)
| NoContent                    (* data.choices?.[0]?.message?.content is falsy *)
| Unparsable                   (* JSON.parse throws *)
| Parsed (analysis : value).

Inductive AnalysisResult :=
| Simulated                    (* return simulatePhysiqueAnalysis(onboardingData) *)
| Invalid (errorMessage : value)
| Normalized (n : NormalizedAnalysis).

Section Normalize.

Variable StringToNumber : string -> number.
Variable ToPrimitive : value -> string.

(** The object literal [normalizedAnalysis]; [None] is the [TypeError] of a
    property read on [null]. *)
Definition normalizedAnalysis (analysis : value) : option NormalizedAnalysis :=
  raw ← get analysis "mogScore";
  mb ← get analysis "muscleBreakdown";
  nv ← get analysis "notVisible";
  weak ← get analysis "weakPoints";
  strong ← get analysis "strongPoints";
  sym ← get analysis "symmetry";
  overall ← get analysis "overallAssessment";
  tips ← get analysis "improvementTips";
  steps ← get analysis "scanSteps";
  Some {|
    isValidPhysique := true;
    mogScore :=
      math_max (Fin 0)
        (math_min (Fin 100)
           (ToNumber StringToNumber ToPrimitive (JS.orElse raw (VNum (Fin 50)))));
    tier :=
      getTierFromScore StringToNumber ToPrimitive (JS.orElse raw (VNum (Fin 50)));
    muscleBreakdown := {|
      chest := coalesce (get_opt mb "chest") VNull;
      shoulders := coalesce (get_opt mb "shoulders") VNull;
      back := coalesce (get_opt mb "back") VNull;
      arms := coalesce (get_opt mb "arms") VNull;
      legs := coalesce (get_opt mb "legs") VNull;
      core := coalesce (get_opt mb "core") VNull;
      leanness := coalesce (get_opt mb "leanness") VNull |};
    notVisible := JS.orElse nv (VArr []);
    weakPoints := JS.orElse weak (VArr []);
    strongPoints := JS.orElse strong (VArr []);
    symmetry := JS.orElse sym (VNum (Fin 70));
    overallAssessment := JS.orElse overall (VStr "Analysis complete.");
    improvementTips := JS.orElse tips (VArr []);
    scanSteps := JS.orElse steps (VArr []);
    aiPowered := true |}.

Definition analyzePhysiqueWithAI (reply : VisionReply) : AnalysisResult :=
  match reply with
  | HttpNotOk | NoContent | Unparsable => Simulated
  | Parsed analysis =>
      match get analysis "isValidPhysique" with
      | None => Simulated      (* the parse [try] reads analysis.mogScore *)
      | Some valid =>
          if strict_eq_bool valid false
          then Invalid
                 (JS.orElse (get_opt analysis "errorMessage")
                    (VStr "Please upload a clear photo of your physique for accurate analysis."))
          else match normalizedAnalysis analysis with
               | Some n => Normalized n
               | None => Simulated
               end
      end
  end.

End Normalize.

(** The bounds the data model asks of a numeric field. *)
Definition in_0_100 (n : number) : Prop :=
  match n with Fin q => (0 <= q /\ q <= 100)%Q | _ => False end.

(** A field that may hold a number or something else (null for a muscle
    group that was not visible): bounded when it is a number. *)
Definition numeric_in_0_100 (v : value) : Prop :=
  match v with VNum n => in_0_100 n | _ => True end.

Definition muscles (m : MuscleBreakdown) : list value :=
  [chest m; shoulders m; back m; arms m; legs m; core m; leanness m].

End Normalizer.

(** Position of a label in the tier table, counted from the bottom: 9 for the
    first row, 1 for the last, 0 for a label that is not in the table. *)
Fixpoint levelIn (tiers : list Tier) (label : string) : nat :=
  match tiers with
  | [] => 0
  | t :: rest =>
      if String.eqb (name t) label then S (length rest) else levelIn rest label
  end.

Definition tierLevel (label : string) : nat := levelIn TIERS label.

(** The number of rows the loop of [getTierFromScore] skips. *)
Fixpoint scanIndex (tiers : list Tier) (score : number) : nat :=
  match tiers with
  | [] => 0
  | t :: rest =>
      if num_ge score (Fin (minScore t)) then 0 else S (scanIndex rest score)
  end.

(** [tierFor] of the specification: the resolver on a finite number. *)
Definition tierFor (score : Q) : string :=
  scanTiers (fun _ => NaN) (fun _ => "") TIERS (VNum (Fin score)).

(** ** Identity Consistency Checker (verifyUserIdentity and the scan gate) *)

Module Identity.

(** What the identity provider did with the request. *)
Inductive IdentityReply :=
| CallThrows                   (* the request rejects, or has no choices[0].message *)
| ReplyUnparsable              (* JSON.parse throws on the content *)
| Reply (result : value).

Record IdentityCheck := {
  isSamePerson : value;
  confidence : value;
  reason : value;
  error : bool                 (* the object carries an [error] message *) }.

Definition skipped : IdentityCheck :=
  {| isSamePerson := VBool true; confidence := VUndefined;
     reason := VUndefined; error := false |}.

Definition failedOpen : IdentityCheck :=
  {| isSamePerson := VBool true; confidence := VUndefined;
     reason := VUndefined; error := true |}.

(** [photo.startsWith('data:')] throws on a value that is not a string. *)
Definition startsWith (photo : value) : option unit :=
  match photo with VStr _ => Some () | _ => None end.

(** The body of the [try]; [None] is any exception raised in it. *)
Definition compareWithProvider
    (newFrontPhoto previousFrontPhoto : value) (reply : IdentityReply)
  : option IdentityCheck :=
  _ ← startsWith newFrontPhoto;
  _ ← startsWith previousFrontPhoto;
  match reply with
  | CallThrows | ReplyUnparsable => None
  | Reply result =>
      same ← get result "isSamePerson";
      conf ← get result "confidence";
      why ← get result "reason";
      Some {| isSamePerson := same; confidence := conf; reason := why;
              error := false |}
  end.

(** [apiConfigured] is [OPENAI_API_KEY && openai]. *)
Definition verifyUserIdentity (apiConfigured : bool)
    (newFrontPhoto previousFrontPhoto : value) (reply : IdentityReply)
  : IdentityCheck :=
  if negb apiConfigured then skipped
  else if negb (truthy newFrontPhoto) || negb (truthy previousFrontPhoto)
  then skipped
  else match compareWithProvider newFrontPhoto previousFrontPhoto reply with
       | Some check => check
       | None => failedOpen
       end.

(** The stored scan the gate looks at. *)
Record Scan := { frontPhotoUrl : value }.

Inductive Gate :=
| DifferentUser (why : value) (confidence : value)   (* 400, differentUser: true *)
| Proceed.

(** The identity block of [POST /api/scan/analyze]; [previousScan] is the
    user's most recent scan, if any. *)
Definition identityGate (apiConfigured : bool) (userId frontPhoto : value)
    (previousScan : option Scan) (reply : IdentityReply) : Gate :=
  if truthy userId then
    match previousScan with
    | Some prev =>
        if truthy (frontPhotoUrl prev) then
          let identityCheck :=
            verifyUserIdentity apiConfigured frontPhoto (frontPhotoUrl prev) reply in
          if negb (truthy (isSamePerson identityCheck))
          then DifferentUser
                 (JS.orElse (reason identityCheck)
                    (VStr "Please upload photos of yourself for accurate progress tracking."))
                 (confidence identityCheck)
          else Proceed
        else Proceed
    | None => Proceed
    end
  else Proceed.

(** The provider's explicit verdict that the subject differs. *)
Definition saysDifferent (reply : IdentityReply) : Prop :=
  exists result, reply = Reply result /\ get result "isSamePerson" = Some (VBool false).

End Identity.

(** ** Training plans: documents and the Plan Generator

    Plans are typed here by the shape the generator prompts ask for. A string
    or number property that is absent (or otherwise falsy) is the empty
    string or 0, which is how [||] reads it; an array property is [None] when
    absent, since an empty array is truthy. *)

Module Plan.

(** [s || d] on a string and [n || d] on a number. *)
Definition orS (s d : string) : string := if String.eqb s "" then d else s.
Definition orZ (n d : Z) : Z := if Z.eqb n 0 then d else n.
Definition orQ (n d : Q) : Q := if Qeq_bool n 0 then d else n.

Module Step.
Record t := {
  stepNumber : Z;
  title : string;
  description : string;
  duration : Z }.
End Step.

Module Exercise.
Record t := {
  id : string;
  name : string;
  sets : string;
  note : string;
  badge : string;
  badgeColor : string;
  borderColor : string;
  completed : bool;
  steps : option (list Step.t) }.
End Exercise.

Module Day.
Record t := {
  day : Z;
  title : string;
  description : string;
  type : string;
  typeColor : string;
  secondaryType : string;
  status : string;
  duration : string;
  caloriesBurn : Z;
  targetMuscles : option (list string);
  exercises : option (list Exercise.t);
  completed : bool;
  completedAt : option Z }.
End Day.

(** The JSON the plan provider is asked for. *)
Record RawPlan := {
  raw_mission : string;
  raw_expectedGain : Q;
  raw_targets : option (list (string * Q));
  raw_days : option (list Day.t) }.

(** What [generateAITrainingPlan] returns. *)
Record TrainingPlan := {
  weekId : string;
  startDate : option Z;
  endDate : option Z;
  generatedAt : Z;
  mission : string;
  expectedGain : Q;
  targets : option (list (string * Q));
  days : list Day.t }.

(** A provider call of the generator. [BadJson] stands for a content that
    [JSON.parse] refuses or whose shape makes the mapping code throw. *)
Inductive PlanReply :=
| CallFails
| EmptyContent
| BadJson
| PlanJson (plan : RawPlan).

Inductive Generated (A : Type) :=
| Throws
| Returns (a : A).
Arguments Throws {A}.
Arguments Returns {A} a.

Definition defaultSteps : list Step.t :=
  [ {| Step.stepNumber := 1; Step.title := "Set 1 - Warm Up";
       Step.description := "Start light and focus on form"; Step.duration := 60 |};
    {| Step.stepNumber := 2; Step.title := "Set 2 - Build Up";
       Step.description := "Increase weight, maintain control"; Step.duration := 60 |};
    {| Step.stepNumber := 3; Step.title := "Set 3 - Working Set";
       Step.description := "Push yourself, feel the burn"; Step.duration := 60 |};
    {| Step.stepNumber := 4; Step.title := "Set 4 - Final Set";
       Step.description := "Give it everything you have!"; Step.duration := 60 |} ].

(** [`prefix${i + 1}`] for an array index [i]. *)
Definition numbered (prefix : string) (i : nat) : string :=
  prefix +:+ pretty (S i).

(** The [steps:] entry of the repair pass:
    [(ex.steps && ex.steps.length >= 3) ? ex.steps.map(...) : defaultSteps.slice(0, 4)]. *)
Definition repairSteps (steps : option (list Step.t)) : list Step.t :=
  match steps with
  | Some l =>
      if (3 <=? length l)%nat then
        imap (fun stepIndex step =>
                {| Step.stepNumber := Z.of_nat (S stepIndex);
                   Step.title := orS (Step.title step) (numbered "Set " stepIndex);
                   Step.description :=
                     orS (Step.description step) "Complete this set with good form";
                   Step.duration := Z.max 60 (orZ (Step.duration step) 60) |}) l
      else take 4 defaultSteps
  | None => take 4 defaultSteps
  end.

(** The exercise literal shared by [generateAITrainingPlan] and
    [generateNextWeekPlan]. *)
Definition formatExercise (index exIndex : nat) (ex : Exercise.t) : Exercise.t :=
  {| Exercise.id :=
       orS (Exercise.id ex) (numbered (numbered "ex-" index +:+ "-") exIndex);
     Exercise.name := orS (Exercise.name ex) (numbered "Exercise " exIndex);
     Exercise.sets := orS (Exercise.sets ex) "4 x 10";
     Exercise.note := orS (Exercise.note ex) "Focus on proper form";
     Exercise.badge := Exercise.badge ex;
     Exercise.badgeColor := Exercise.badgeColor ex;
     Exercise.borderColor := orS (Exercise.borderColor ex) "#3A2A4A";
     Exercise.completed := false;
     Exercise.steps := Some (repairSteps (Exercise.steps ex)) |}.

Definition formatDay (index : nat) (d : Day.t) : Day.t :=
  {| Day.day := Z.of_nat (S index);
     Day.title := orS (Day.title d) (numbered "Training Day " index);
     Day.description := Day.description d;
     Day.type := orS (Day.type d) "Strength";
     Day.typeColor := orS (Day.typeColor d) "#4A7CFF";
     Day.secondaryType := "";
     Day.status := if Nat.eqb index 0 then "today" else "upcoming";
     Day.duration := orS (Day.duration d) "45 min";
     Day.caloriesBurn := orZ (Day.caloriesBurn d) 300;
     Day.targetMuscles := Some (default [] (Day.targetMuscles d));
     Day.exercises := Some (imap (formatExercise index) (default [] (Day.exercises d)));
     Day.completed := false;
     Day.completedAt := None |}.

(** [{ ...day, day: index + 1, status: ... }] of the fallback branch. *)
Definition renumberDay (index : nat) (d : Day.t) : Day.t :=
  {| Day.day := Z.of_nat (S index);
     Day.title := Day.title d;
     Day.description := Day.description d;
     Day.type := Day.type d;
     Day.typeColor := Day.typeColor d;
     Day.secondaryType := Day.secondaryType d;
     Day.status := if Nat.eqb index 0 then "today" else "upcoming";
     Day.duration := Day.duration d;
     Day.caloriesBurn := Day.caloriesBurn d;
     Day.targetMuscles := Day.targetMuscles d;
     Day.exercises := Day.exercises d;
     Day.completed := Day.completed d;
     Day.completedAt := Day.completedAt d |}.

Definition weekMs : Z := 7 * 24 * 60 * 60 * 1000.

(** [generateAITrainingPlan(scanData)]: [openai] says whether the client was
    initialised, [now] is the clock, [first] and [fallback] are the provider's
    answers to the call in the [try] and to the one in the [catch]. *)
Definition generateAITrainingPlan (openai : bool) (now : Z)
    (first fallback : PlanReply) : Generated TrainingPlan :=
  if negb openai then Throws
  else match first with
  | PlanJson plan =>
      Returns
        {| weekId := "week-" +:+ pretty now;
           startDate := Some now;
           endDate := Some (now + weekMs)%Z;
           generatedAt := now;
           mission := orS (raw_mission plan) "Transform your physique";
           expectedGain := orQ (raw_expectedGain plan) 1;
           targets := raw_targets plan;
           days := imap formatDay (default [] (raw_days plan)) |}
  | CallFails | EmptyContent | BadJson =>
      match fallback with
      | PlanJson fallbackPlan =>
          Returns
            {| weekId := "week-" +:+ pretty now;
               startDate := None;
               endDate := None;
               generatedAt := now;
               mission := raw_mission fallbackPlan;
               expectedGain := raw_expectedGain fallbackPlan;
               targets := raw_targets fallbackPlan;
               days := imap renumberDay (default [] (raw_days fallbackPlan)) |}
      | CallFails | EmptyContent | BadJson => Throws
      end
  end.

(** The four fixed steps of the fallback branch of [generateNextWeekPlan]. *)
Definition plainSteps : list Step.t :=
  [ {| Step.stepNumber := 1; Step.title := "Set 1";
       Step.description := "Warm up set"; Step.duration := 60 |};
    {| Step.stepNumber := 2; Step.title := "Set 2";
       Step.description := "Build up"; Step.duration := 60 |};
    {| Step.stepNumber := 3; Step.title := "Set 3";
       Step.description := "Working set"; Step.duration := 60 |};
    {| Step.stepNumber := 4; Step.title := "Set 4";
       Step.description := "Final push"; Step.duration := 60 |} ].

Definition fallbackExercise (index exIndex : nat) (ex : Exercise.t) : Exercise.t :=
  {| Exercise.id := numbered (numbered "ex-" index +:+ "-") exIndex;
     Exercise.name := orS (Exercise.name ex) (numbered "Exercise " exIndex);
     Exercise.sets := orS (Exercise.sets ex) "4 x 10";
     Exercise.note := orS (Exercise.note ex) "Focus on form";
     Exercise.badge := "";
     Exercise.badgeColor := "";
     Exercise.borderColor := "";
     Exercise.completed := false;
     Exercise.steps := Some plainSteps |}.

Definition fallbackDay (index : nat) (d : Day.t) : Day.t :=
  {| Day.day := Z.of_nat (S index);
     Day.title := orS (Day.title d) (numbered "Training Day " index);
     Day.description := "";
     Day.type := orS (Day.type d) "Strength";
     Day.typeColor := orS (Day.typeColor d) "#4A7CFF";
     Day.secondaryType := "";
     Day.status := if Nat.eqb index 0 then "today" else "upcoming";
     Day.duration := "";
     Day.caloriesBurn := 0;
     Day.targetMuscles := Some (default [] (Day.targetMuscles d));
     Day.exercises := Some (imap (fallbackExercise index) (default [] (Day.exercises d)));
     Day.completed := false;
     Day.completedAt := None |}.

(** [generateNextWeekPlan(user, currentPlan)]: the user and the current plan
    only feed the prompt, the days returned come from the provider. *)
Definition generateNextWeekPlan (openai : bool)
    (first fallback : PlanReply) : Generated (list Day.t) :=
  if negb openai then Throws
  else match first with
  | PlanJson plan => Returns (imap formatDay (default [] (raw_days plan)))
  | CallFails | EmptyContent | BadJson =>
      match fallback with
      | PlanJson fallbackPlan =>
          Returns (imap fallbackDay (default [] (raw_days fallbackPlan)))
      | CallFails | EmptyContent | BadJson => Throws
      end
  end.

(** The Exercise invariant of the data model. *)
Definition exerciseOk (ex : Exercise.t) : bool :=
  match Exercise.steps ex with
  | Some l => (3 <=? length l)%nat
  | None => false
  end.

Definition dayOk (d : Day.t) : bool :=
  forallb exerciseOk (default [] (Day.exercises d)).

Definition daysOk (ds : list Day.t) : bool := forallb dayOk ds.

(** The number of steps of every exercise, day by day. *)
Definition stepCounts (ds : list Day.t) : list (list nat) :=
  map (fun d =>
         map (fun ex => length (default [] (Exercise.steps ex)))
           (default [] (Day.exercises d))) ds.

End Plan.

(** ** Doubles

    The numbers the server computes with: binary64, every operation rounded
    to nearest, ties to even. *)

Module Double.

Definition t : Type := spec_float.

Definition prec : Z := 53.
Definition emax : Z := 1024.

Definition add : t -> t -> t := SFadd prec emax.
Definition mul : t -> t -> t := SFmul prec emax.
Definition div : t -> t -> t := SFdiv prec emax.

(** An integer as a double. *)
Definition ofZ (n : Z) : t := binary_normalize prec emax n 0 false.

(** The decimal literal [num/den] ([0.2] is [lit 2 10]): the double nearest
    to the fraction. *)
Definition lit (num den : Z) : t := div (ofZ num) (ofZ den).

Definition zero : t := S754_zero false.

(** ToBoolean on a number: [0], [-0] and [NaN] are falsy. *)
Definition truthy (x : t) : bool :=
  match x with
  | S754_zero _ | S754_nan => false
  | S754_infinity _ | S754_finite _ _ _ => true
  end.

(** [x || d]. *)
Definition orElse (x d : t) : t := if truthy x then x else d.

End Double.

(** ** Plan State Machine: documents, the store and the request handlers *)

Module Server.

Import Plan.

Module HistoryEntry.
Record t := {
  weekNumber : Z;
  dayNumber : Z;
  completedAt : Z;
  exercises : option (list Exercise.t);
  targetMuscles : list string }.
End HistoryEntry.

(** A document of the WorkoutPlan collection; [currentWeek] is 0 when the
    property is absent, which [plan.currentWeek || 1] reads as 1. *)
Module WorkoutPlan.
Record t := {
  weekId : string;
  mission : string;
  expectedGain : Q;
  targets : option (list (string * Q));
  currentWeek : Z;
  weeklyPlan : list Day.t;
  completedHistory : option (list HistoryEntry.t) }.
End WorkoutPlan.

(** [user.weeklyTrainingPlan]. *)
Module UserPlan.
Record t := {
  weekId : string;
  weekNumber : Z;
  mission : string;
  days : list Day.t;
  currentWeek : Z }.
End UserPlan.

(** A document of the User collection; [latestScan] says whether the user
    carries scan data (the data itself only feeds the provider prompt). *)
Module User.
Record t := {
  mogScore : Double.t;
  totalWorkouts : Z;
  lastWorkoutDate : option Z;
  latestScan : bool;
  weeklyTrainingPlan : option UserPlan.t }.
End User.

(** The document store and the process-wide [regeneratingPlans] map, each
    keyed by user id. [generations] is a ghost log: one entry, the user id and
    the week being left, per call of [generateNextWeekPlan]. *)
Record Store := {
  plans : gmap string WorkoutPlan.t;
  users : gmap string User.t;
  regeneratingPlans : gmap string Z;
  generations : list (string * Z) }.

Definition withPlans (f : gmap string WorkoutPlan.t -> gmap string WorkoutPlan.t)
    (db : Store) : Store :=
  {| plans := f (plans db); users := users db;
     regeneratingPlans := regeneratingPlans db; generations := generations db |}.

Definition withUsers (f : gmap string User.t -> gmap string User.t)
    (db : Store) : Store :=
  {| plans := plans db; users := f (users db);
     regeneratingPlans := regeneratingPlans db; generations := generations db |}.

Definition logGeneration (userId : string) (week : Z) (db : Store) : Store :=
  {| plans := plans db; users := users db;
     regeneratingPlans := regeneratingPlans db;
     generations := (generations db ++ [(userId, week)])%list |}.

(** The body of a [complete-day] request and what the outside world does
    during it: the clock, and the provider's answers to the calls the handler
    may make. *)
Record Request := {
  userId : string;
  dayNumber : Z;
  targetMuscles : option (list string);
  exerciseCount : Double.t }.

Record Env := {
  now : Z;
  openai : bool;
  coldFirst : PlanReply;
  coldFallback : PlanReply;
  nextFirst : PlanReply;
  nextFallback : PlanReply }.

Record Summary := {
  dayCompleted : Z;
  mogPointsEarned : Double.t;
  newMogScore : option Double.t;
  newTotalWorkouts : option Z;
  allDaysCompleted : bool;
  newWeekGenerated : bool;
  currentWeek : Z }.

Inductive Response :=
| NotFound (message : string)              (* 404 *)
| ServerError (message : string)           (* 500 *)
| Completed (summary : Summary).           (* 200 *)

(** An [async] handler: a response, or one awaited operation on the store
    followed by the code that runs once it has resolved; the continuation
    sees the store right after the operation. *)
Inductive Prog :=
| Respond (r : Response)
| Await (op : Store -> Store) (k : Store -> Prog).

(** A handler running alone. *)
Fixpoint run (p : Prog) (db : Store) : Store * Response :=
  match p with
  | Respond r => (db, r)
  | Await op k => run (k (op db)) (op db)
  end.

(** [array.findIndex(p)], [None] for -1. *)
Fixpoint findIndex {A} (p : A -> bool) (l : list A) : option nat :=
  match l with
  | [] => None
  | x :: rest => if p x then Some 0%nat else S <$> findIndex p rest
  end.

Definition setStatus (s : string) (d : Day.t) : Day.t :=
  {| Day.day := Day.day d; Day.title := Day.title d;
     Day.description := Day.description d; Day.type := Day.type d;
     Day.typeColor := Day.typeColor d; Day.secondaryType := Day.secondaryType d;
     Day.status := s;
     Day.duration := Day.duration d; Day.caloriesBurn := Day.caloriesBurn d;
     Day.targetMuscles := Day.targetMuscles d; Day.exercises := Day.exercises d;
     Day.completed := Day.completed d; Day.completedAt := Day.completedAt d |}.

(** [status = 'done'; completed = true; completedAt = new Date()]. *)
Definition markDone (now : Z) (d : Day.t) : Day.t :=
  {| Day.day := Day.day d; Day.title := Day.title d;
     Day.description := Day.description d; Day.type := Day.type d;
     Day.typeColor := Day.typeColor d; Day.secondaryType := Day.secondaryType d;
     Day.status := "done";
     Day.duration := Day.duration d; Day.caloriesBurn := Day.caloriesBurn d;
     Day.targetMuscles := Day.targetMuscles d; Day.exercises := Day.exercises d;
     Day.completed := true; Day.completedAt := Some now |}.

Definition completeExercise (ex : Exercise.t) : Exercise.t :=
  {| Exercise.id := Exercise.id ex; Exercise.name := Exercise.name ex;
     Exercise.sets := Exercise.sets ex; Exercise.note := Exercise.note ex;
     Exercise.badge := Exercise.badge ex;
     Exercise.badgeColor := Exercise.badgeColor ex;
     Exercise.borderColor := Exercise.borderColor ex;
     Exercise.completed := true;
     Exercise.steps := Exercise.steps ex |}.

(** [if (day.exercises) day.exercises = day.exercises.map(ex => ({...ex, completed: true}))]. *)
Definition completeExercises (d : Day.t) : Day.t :=
  {| Day.day := Day.day d; Day.title := Day.title d;
     Day.description := Day.description d; Day.type := Day.type d;
     Day.typeColor := Day.typeColor d; Day.secondaryType := Day.secondaryType d;
     Day.status := Day.status d;
     Day.duration := Day.duration d; Day.caloriesBurn := Day.caloriesBurn d;
     Day.targetMuscles := Day.targetMuscles d;
     Day.exercises := map completeExercise <$> Day.exercises d;
     Day.completed := Day.completed d; Day.completedAt := Day.completedAt d |}.

Definition hasDay (n : Z) (d : Day.t) : bool := Z.eqb (Day.day d) n.

(** The next day becomes [today] when it exists and is [upcoming]. *)
Definition advanceNext (dayNumber : Z) (days : list Day.t) : list Day.t :=
  match findIndex (hasDay (dayNumber + 1)) days with
  | Some nextDayIndex =>
      match days !! nextDayIndex with
      | Some next =>
          if String.eqb (Day.status next) "upcoming"
          then alter (setStatus "today") nextDayIndex days
          else days
      | None => days
      end
  | None => days
  end.

(** The history entry pushed for the completed day; [fromRequest] is the
    [targetMuscles] of the request body, which only the endpoint with the
    user id in its path consults. *)
Definition historyEntry (now week dayNumber : Z) (d : option Day.t)
    (fromRequest : option (list string)) : HistoryEntry.t :=
  {| HistoryEntry.weekNumber := orZ week 1;
     HistoryEntry.dayNumber := dayNumber;
     HistoryEntry.completedAt := now;
     HistoryEntry.exercises := d ≫= Day.exercises;
     HistoryEntry.targetMuscles :=
       match d ≫= Day.targetMuscles with
       | Some l => l
       | None => default [] fromRequest
       end |}.

(** [0.2 + count * 0.15] in double arithmetic, with [count] the first truthy
    one of the request's exerciseCount (0 when the body carries none), the
    number of exercises of the day, and 3. *)
Definition mogPoints (exerciseCount : Double.t) (d : option Day.t) : Double.t :=
  let listed := Double.ofZ (Z.of_nat (length (default [] (d ≫= Day.exercises)))) in
  let count := Double.orElse exerciseCount (Double.orElse listed (Double.ofZ 3)) in
  Double.add (Double.lit 2 10) (Double.mul count (Double.lit 15 100)).

(** [user.mogScore = (user.mogScore || 0) + mogPointsEarned], and the two
    assignments after it. *)
Definition reward (now : Z) (points : Double.t) (u : User.t) : User.t :=
  {| User.mogScore := Double.add (Double.orElse (User.mogScore u) Double.zero) points;
     User.totalWorkouts := orZ (User.totalWorkouts u) 0 + 1;
     User.lastWorkoutDate := Some now;
     User.latestScan := User.latestScan u;
     User.weeklyTrainingPlan := User.weeklyTrainingPlan u |}.

Definition setUserPlan (p : UserPlan.t) (u : User.t) : User.t :=
  {| User.mogScore := User.mogScore u;
     User.totalWorkouts := User.totalWorkouts u;
     User.lastWorkoutDate := User.lastWorkoutDate u;
     User.latestScan := User.latestScan u;
     User.weeklyTrainingPlan := Some p |}.

(** [plan.save()] after marking a day: the paths marked modified are
    [weeklyPlan] and [completedHistory]. *)
Definition saveProgress (local : WorkoutPlan.t) (stored : WorkoutPlan.t) : WorkoutPlan.t :=
  {| WorkoutPlan.weekId := WorkoutPlan.weekId stored;
     WorkoutPlan.mission := WorkoutPlan.mission stored;
     WorkoutPlan.expectedGain := WorkoutPlan.expectedGain stored;
     WorkoutPlan.targets := WorkoutPlan.targets stored;
     WorkoutPlan.currentWeek := WorkoutPlan.currentWeek stored;
     WorkoutPlan.weeklyPlan := WorkoutPlan.weeklyPlan local;
     WorkoutPlan.completedHistory := WorkoutPlan.completedHistory local |}.

(** [plan.save()] after a rollover: [currentWeek], [weeklyPlan], [weekId]. *)
Definition saveRollover (local : WorkoutPlan.t) (stored : WorkoutPlan.t) : WorkoutPlan.t :=
  {| WorkoutPlan.weekId := WorkoutPlan.weekId local;
     WorkoutPlan.mission := WorkoutPlan.mission stored;
     WorkoutPlan.expectedGain := WorkoutPlan.expectedGain stored;
     WorkoutPlan.targets := WorkoutPlan.targets stored;
     WorkoutPlan.currentWeek := WorkoutPlan.currentWeek local;
     WorkoutPlan.weeklyPlan := WorkoutPlan.weeklyPlan local;
     WorkoutPlan.completedHistory := WorkoutPlan.completedHistory stored |}.

(** The in-memory plan after the synchronous marking code of the endpoint
    with the user id in its path. *)
Definition markedPlan (now : Z) (req : Request) (dayIndex : nat)
    (plan : WorkoutPlan.t) : WorkoutPlan.t :=
  let days1 := alter (markDone now) dayIndex (WorkoutPlan.weeklyPlan plan) in
  let days2 := advanceNext (dayNumber req) days1 in
  let days3 := alter completeExercises dayIndex days2 in
  {| WorkoutPlan.weekId := WorkoutPlan.weekId plan;
     WorkoutPlan.mission := WorkoutPlan.mission plan;
     WorkoutPlan.expectedGain := WorkoutPlan.expectedGain plan;
     WorkoutPlan.targets := WorkoutPlan.targets plan;
     WorkoutPlan.currentWeek := WorkoutPlan.currentWeek plan;
     WorkoutPlan.weeklyPlan := days3;
     WorkoutPlan.completedHistory :=
       Some (default [] (WorkoutPlan.completedHistory plan) ++
             [historyEntry now (WorkoutPlan.currentWeek plan) (dayNumber req)
                (days3 !! dayIndex) (targetMuscles req)])%list |}.

(** The in-memory plan once a new week has been accepted. *)
Definition rolledPlan (now : Z) (nextWeek : list Day.t) (plan : WorkoutPlan.t)
  : WorkoutPlan.t :=
  let newWeekNumber := (orZ (WorkoutPlan.currentWeek plan) 1 + 1)%Z in
  {| WorkoutPlan.weekId :=
       "week-" +:+ pretty newWeekNumber +:+ "-" +:+ pretty now;
     WorkoutPlan.mission := WorkoutPlan.mission plan;
     WorkoutPlan.expectedGain := WorkoutPlan.expectedGain plan;
     WorkoutPlan.targets := WorkoutPlan.targets plan;
     WorkoutPlan.currentWeek := newWeekNumber;
     WorkoutPlan.weeklyPlan := nextWeek;
     WorkoutPlan.completedHistory := WorkoutPlan.completedHistory plan |}.

Definition allDone (plan : WorkoutPlan.t) : bool :=
  forallb (fun d => String.eqb (Day.status d) "done") (WorkoutPlan.weeklyPlan plan).

Definition summary (req : Request) (points : Double.t) (user : option User.t)
    (all generated : bool) (week : Z) : Response :=
  Completed
    {| dayCompleted := dayNumber req;
       mogPointsEarned := points;
       newMogScore := User.mogScore <$> user;
       newTotalWorkouts := User.totalWorkouts <$> user;
       allDaysCompleted := all;
       newWeekGenerated := generated;
       currentWeek := week |}.

(** [user.save()] writes the paths that were assigned: the reward, or the
    synced plan. *)
Definition saveReward (local stored : User.t) : User.t :=
  {| User.mogScore := User.mogScore local;
     User.totalWorkouts := User.totalWorkouts local;
     User.lastWorkoutDate := User.lastWorkoutDate local;
     User.latestScan := User.latestScan stored;
     User.weeklyTrainingPlan := User.weeklyTrainingPlan stored |}.

Definition saveUserPlan (local stored : User.t) : User.t :=
  {| User.mogScore := User.mogScore stored;
     User.totalWorkouts := User.totalWorkouts stored;
     User.lastWorkoutDate := User.lastWorkoutDate stored;
     User.latestScan := User.latestScan stored;
     User.weeklyTrainingPlan := User.weeklyTrainingPlan local |}.

(** [if (user) { ...; await user.save() }]: an await only when there is a
    user, whose assigned paths are then written. *)
Definition saveUser (uid : string) (paths : User.t -> User.t -> User.t)
    (user : option User.t) (k : Prog) : Prog :=
  match user with
  | Some u => Await (withUsers (alter (paths u) uid)) (fun _ => k)
  | None => k
  end.

(** The week-completion block of the endpoint with the user id in its path
    (the [if (allDaysCompleted)] with its [try]). *)
Definition rollover (env : Env) (req : Request) (plan : WorkoutPlan.t)
    (points : Double.t) (user : option User.t) : Prog :=
  let week := orZ (WorkoutPlan.currentWeek plan) 1 in
  if allDone plan then
    Await (logGeneration (userId req) week) (fun _ =>
    match generateNextWeekPlan (openai env) (nextFirst env) (nextFallback env) with
    | Returns ((d :: ds) as nextWeek) =>
        let plan' := rolledPlan (now env) nextWeek plan in
        Await (withPlans (alter (saveRollover plan') (userId req))) (fun _ =>
        saveUser (userId req) saveUserPlan
          (setUserPlan
             {| UserPlan.weekId := WorkoutPlan.weekId plan';
                UserPlan.weekNumber := WorkoutPlan.currentWeek plan';
                UserPlan.mission :=
                  orS (WorkoutPlan.mission plan')
                    ("Week " +:+ pretty (WorkoutPlan.currentWeek plan') +:+
                     " - Continue your transformation");
                UserPlan.days := nextWeek;
                UserPlan.currentWeek := WorkoutPlan.currentWeek plan' |} <$> user)
          (Respond (summary req points user true true
                      (WorkoutPlan.currentWeek plan'))))
    | Returns [] | Throws =>
        Respond (summary req points user true false week)
    end)
  else Respond (summary req points user false false week).

(** From [plan.weeklyPlan.findIndex] on. *)
Definition completeFound (env : Env) (req : Request) (plan : WorkoutPlan.t) : Prog :=
  match findIndex (hasDay (dayNumber req)) (WorkoutPlan.weeklyPlan plan) with
  | None => Respond (NotFound "Day not found in plan")
  | Some dayIndex =>
      let plan1 := markedPlan (now env) req dayIndex plan in
      Await (withPlans (alter (saveProgress plan1) (userId req))) (fun _ =>  (* plan.save() *)
      Await id (fun _ =>                                (* verifyPlan = findOne *)
      Await id (fun db =>                               (* User.findOne *)
        let points :=
          mogPoints (exerciseCount req) (WorkoutPlan.weeklyPlan plan1 !! dayIndex) in
        let user := reward (now env) points <$> (users db !! userId req) in
        saveUser (userId req) saveReward user (rollover env req plan1 points user))))
  end.

Definition planFromGenerated (newPlan : TrainingPlan) : WorkoutPlan.t :=
  {| WorkoutPlan.weekId := Plan.weekId newPlan;
     WorkoutPlan.mission := Plan.mission newPlan;
     WorkoutPlan.expectedGain := 1;
     WorkoutPlan.targets := Some [];
     WorkoutPlan.currentWeek := 1;
     WorkoutPlan.weeklyPlan := Plan.days newPlan;
     WorkoutPlan.completedHistory := Some [] |}.

(** The upsert of a generated plan: an existing document keeps what the
    update does not name. *)
Definition upsertGenerated (newPlan : TrainingPlan) (stored : option WorkoutPlan.t)
  : option WorkoutPlan.t :=
  Some match stored with
       | Some old =>
           {| WorkoutPlan.weekId := Plan.weekId newPlan;
              WorkoutPlan.mission := Plan.mission newPlan;
              WorkoutPlan.expectedGain := WorkoutPlan.expectedGain old;
              WorkoutPlan.targets := WorkoutPlan.targets old;
              WorkoutPlan.currentWeek := 1;
              WorkoutPlan.weeklyPlan := Plan.days newPlan;
              WorkoutPlan.completedHistory := WorkoutPlan.completedHistory old |}
       | None => planFromGenerated newPlan
       end.

Definition userPlanOfGenerated (newPlan : TrainingPlan) : UserPlan.t :=
  {| UserPlan.weekId := Plan.weekId newPlan;
     UserPlan.weekNumber := 0;
     UserPlan.mission := Plan.mission newPlan;
     UserPlan.days := Plan.days newPlan;
     UserPlan.currentWeek := 0 |}.

(** [POST /api/training/:userId/complete-day]. *)
Definition completeDay (env : Env) (req : Request) : Prog :=
  Await id (fun db =>                                   (* WorkoutPlan.findOne *)
  match plans db !! userId req with
  | Some plan => completeFound env req plan
  | None =>
      Await id (fun db =>                               (* User.findOne *)
      match users db !! userId req with
      | Some user =>
          if User.latestScan user then
            Await id (fun _ =>                          (* generateAITrainingPlan *)
            match generateAITrainingPlan (openai env) (now env)
                    (coldFirst env) (coldFallback env) with
            | Returns newPlan =>
                Await (withPlans (partial_alter (upsertGenerated newPlan) (userId req)))
                  (fun db =>
                Await (withUsers
                         (alter (saveUserPlan
                                   (setUserPlan (userPlanOfGenerated newPlan) user))
                            (userId req)))
                  (fun _ =>
                match plans db !! userId req with
                | Some plan => completeFound env req plan
                | None => Respond (ServerError "Failed to complete day")
                end))
            | Throws => Respond (ServerError "Failed to generate workout plan")
            end)
          else Respond (NotFound "No workout plan found - please complete a scan first")
      | None => Respond (NotFound "No workout plan found - please complete a scan first")
      end)
  end).

(** The in-memory plan after the marking code of the endpoint without the
    user id in its path: no advance of the next day, and the request's
    [targetMuscles] are not read. *)
Definition markedPlanLegacy (now : Z) (req : Request) (dayIndex : nat)
    (plan : WorkoutPlan.t) : WorkoutPlan.t :=
  let days1 := alter (markDone now) dayIndex (WorkoutPlan.weeklyPlan plan) in
  let days3 := alter completeExercises dayIndex days1 in
  {| WorkoutPlan.weekId := WorkoutPlan.weekId plan;
     WorkoutPlan.mission := WorkoutPlan.mission plan;
     WorkoutPlan.expectedGain := WorkoutPlan.expectedGain plan;
     WorkoutPlan.targets := WorkoutPlan.targets plan;
     WorkoutPlan.currentWeek := WorkoutPlan.currentWeek plan;
     WorkoutPlan.weeklyPlan := days3;
     WorkoutPlan.completedHistory :=
       Some (default [] (WorkoutPlan.completedHistory plan) ++
             [historyEntry now (WorkoutPlan.currentWeek plan) (dayNumber req)
                (days3 !! dayIndex) None])%list |}.

(** Its week-completion block: the new week is accepted on [if (nextWeek)],
    which any array passes. *)
Definition rolloverLegacy (env : Env) (req : Request) (plan : WorkoutPlan.t)
    (points : Double.t) (user : option User.t) : Prog :=
  if allDone plan then
    Await (logGeneration (userId req) (orZ (WorkoutPlan.currentWeek plan) 1)) (fun _ =>
    match generateNextWeekPlan (openai env) (nextFirst env) (nextFallback env) with
    | Returns nextWeek =>
        let plan' := rolledPlan (now env) nextWeek plan in
        Await (withPlans (alter (saveRollover plan') (userId req))) (fun _ =>
        saveUser (userId req) saveUserPlan
          (setUserPlan
             {| UserPlan.weekId := WorkoutPlan.weekId plan';
                UserPlan.weekNumber := 0;
                UserPlan.mission :=
                  orS (WorkoutPlan.mission plan') "Continue your transformation";
                UserPlan.days := nextWeek;
                UserPlan.currentWeek := WorkoutPlan.currentWeek plan' |} <$> user)
          (Respond (summary req points user true true
                      (orZ (WorkoutPlan.currentWeek plan') 1))))
    | Throws =>
        Respond (summary req points user true false
                   (orZ (WorkoutPlan.currentWeek plan) 1))
    end)
  else Respond (summary req points user false false
                  (orZ (WorkoutPlan.currentWeek plan) 1)).

(** The first [plan.save()] of the endpoint without the user id in its path.
    The handler changes the day and pushes the history entry in place, on
    paths of type Mixed, and never calls [markModified]: the save writes
    neither. Only [if (!plan.completedHistory) plan.completedHistory = []]
    assigns a path, so the history is written when the loaded plan had none. *)
Definition saveUnmarked (loaded local stored : WorkoutPlan.t) : WorkoutPlan.t :=
  match WorkoutPlan.completedHistory loaded with
  | Some _ => stored
  | None =>
      {| WorkoutPlan.weekId := WorkoutPlan.weekId stored;
         WorkoutPlan.mission := WorkoutPlan.mission stored;
         WorkoutPlan.expectedGain := WorkoutPlan.expectedGain stored;
         WorkoutPlan.targets := WorkoutPlan.targets stored;
         WorkoutPlan.currentWeek := WorkoutPlan.currentWeek stored;
         WorkoutPlan.weeklyPlan := WorkoutPlan.weeklyPlan stored;
         WorkoutPlan.completedHistory := WorkoutPlan.completedHistory local |}
  end.

(** [POST /api/training/complete-day] (legacy). The handler goes on with the
    plan it holds in memory, in which the day is done; the rollover assigns
    [currentWeek], [weeklyPlan] and [weekId], which its save writes. *)
Definition completeDayLegacy (env : Env) (req : Request) : Prog :=
  Await id (fun db =>                                   (* WorkoutPlan.findOne *)
  match plans db !! userId req with
  | None => Respond (NotFound "No workout plan found")
  | Some plan =>
      match findIndex (hasDay (dayNumber req)) (WorkoutPlan.weeklyPlan plan) with
      | None => Respond (NotFound "Day not found in plan")
      | Some dayIndex =>
          let plan1 := markedPlanLegacy (now env) req dayIndex plan in
          Await (withPlans (alter (saveUnmarked plan plan1) (userId req))) (fun _ =>
          Await id (fun db =>                           (* User.findOne *)
            let points :=
              mogPoints Double.zero (WorkoutPlan.weeklyPlan plan1 !! dayIndex) in
            let user := reward (now env) points <$> (users db !! userId req) in
            saveUser (userId req) saveReward user
              (rolloverLegacy env req plan1 points user)))
      end
  end).

(** *** GET /api/training/:userId/weekly: the guard and the served plan *)

(** The head of the handler: [None] answers "regenerating, please wait";
    otherwise the handler goes on with the map it is given back, from which a
    marker older than two minutes has been removed. *)
Definition passGuard (now : Z) (uid : string) (regenerating : gmap string Z)
  : option (gmap string Z) :=
  match regenerating !! uid with
  | Some startTime =>
      if (120000 <? now - startTime)%Z then Some (delete uid regenerating)
      else None
  | None => Some regenerating
  end.

(** [isPlanComplete(days)]. *)
Definition isPlanComplete (days : list Day.t) : bool :=
  (3 <=? length days)%nat &&
  forallb (fun d =>
     match Day.exercises d with
     | Some (ex :: exs) =>
         forallb (fun ex =>
            match Exercise.steps ex with
            | Some steps => (2 <=? length steps)%nat
            | None => false
            end) (ex :: exs)
     | _ => false
     end) days.

(** The exercise and the day the handler serves for a stored one. *)
Definition servedExercise (ex : Exercise.t) : Exercise.t :=
  {| Exercise.id := Exercise.id ex;
     Exercise.name := Exercise.name ex;
     Exercise.sets := Exercise.sets ex;
     Exercise.note := orS (Exercise.note ex) "Focus on proper form";
     Exercise.badge := Exercise.badge ex;
     Exercise.badgeColor := Exercise.badgeColor ex;
     Exercise.borderColor := orS (Exercise.borderColor ex) "#3A2A4A";
     Exercise.completed := Exercise.completed ex;
     Exercise.steps :=
       Some match Exercise.steps ex with
            | Some steps => if (2 <=? length steps)%nat then steps else defaultSteps
            | None => defaultSteps
            end |}.

Definition servedDay (d : Day.t) : Day.t :=
  {| Day.day := Day.day d;
     Day.title := Day.title d;
     Day.description := Day.description d;
     Day.type := orS (Day.type d) "Strength";
     Day.typeColor := orS (Day.typeColor d) "#4A7CFF";
     Day.secondaryType := Day.secondaryType d;
     Day.status := orS (Day.status d) "upcoming";
     Day.duration := orS (Day.duration d) "45 min";
     Day.caloriesBurn := orZ (Day.caloriesBurn d) 300;
     Day.targetMuscles := Some (default [] (Day.targetMuscles d));
     Day.exercises := Some (map servedExercise (default [] (Day.exercises d)));
     Day.completed := false;
     Day.completedAt := Day.completedAt d |}.

Definition servedDays (plan : WorkoutPlan.t) : list Day.t :=
  map servedDay (WorkoutPlan.weeklyPlan plan).

(** *** Reading a store *)

Definition storedDays (db : Store) (uid : string) : option (list Day.t) :=
  WorkoutPlan.weeklyPlan <$> plans db !! uid.

Definition storedStatuses (db : Store) (uid : string) : option (list string) :=
  map Day.status <$> storedDays db uid.

Definition storedWeek (db : Store) (uid : string) : option Z :=
  WorkoutPlan.currentWeek <$> plans db !! uid.

Definition storedHistory (db : Store) (uid : string) : list HistoryEntry.t :=
  default [] (plans db !! uid ≫= WorkoutPlan.completedHistory).


(** The body of a 200 answer. *)
Definition completed (r : Response) : option Summary :=
  match r with Completed s => Some s | _ => None end.

End Server.

(** ** Background Asset Queue (exercise images)

    Time is a clock in milliseconds carried by the state. An awaited provider
    call moves the clock by the latency the provider takes, a
    [setTimeout(resolve, d)] by [d]. Every provider call is recorded with the
    instants it started and ended. *)

Module Assets.

Record Image := { id : string; url : string; phase : string }.

(** What one call of the image provider does: after [latency] ms it answers
    with an image URL, answers without one, or the request throws. *)
Inductive Outcome :=
| Url (latency : N) (u : string)
| NoUrl (latency : N)
| Fails (latency : N).

Definition latencyOf (o : Outcome) : N :=
  match o with Url l _ | NoUrl l | Fails l => l end.

Record Call := { exercise : string; started : Z; ended : Z }.

Record State := {
  clock : Z;
  aiImageCache : gmap string (list Image);
  backgroundImageQueue : list (string * string);      (* exerciseName, exerciseId *)
  isProcessingBackgroundQueue : bool;
  calls : list Call }.

(** [toLowerCase()] and [trim()] on ASCII text. *)
Definition lowerAscii (c : ascii) : ascii :=
  let n := nat_of_ascii c in
  if (65 <=? n)%nat && (n <=? 90)%nat then ascii_of_nat (n + 32) else c.

Fixpoint toLowerCase (s : string) : string :=
  match s with
  | EmptyString => EmptyString
  | String c rest => String (lowerAscii c) (toLowerCase rest)
  end.

Fixpoint trimStart (s : string) : string :=
  match s with
  | EmptyString => EmptyString
  | String c rest => if Ascii.is_space c then trimStart rest else s
  end.

Definition trim (s : string) : string :=
  String.rev (trimStart (String.rev (trimStart s))).

(** [exerciseName.toLowerCase().trim()]. *)
Definition cacheKey (exerciseName : string) : string :=
  trim (toLowerCase exerciseName).

Definition setClock (t : Z) (st : State) : State :=
  {| clock := t; aiImageCache := aiImageCache st;
     backgroundImageQueue := backgroundImageQueue st;
     isProcessingBackgroundQueue := isProcessingBackgroundQueue st;
     calls := calls st |}.

Definition setQueue (q : list (string * string)) (st : State) : State :=
  {| clock := clock st; aiImageCache := aiImageCache st;
     backgroundImageQueue := q;
     isProcessingBackgroundQueue := isProcessingBackgroundQueue st;
     calls := calls st |}.

Definition setProcessing (b : bool) (st : State) : State :=
  {| clock := clock st; aiImageCache := aiImageCache st;
     backgroundImageQueue := backgroundImageQueue st;
     isProcessingBackgroundQueue := b;
     calls := calls st |}.

Definition cacheSet (key : string) (images : list Image) (st : State) : State :=
  {| clock := clock st; aiImageCache := <[key := images]> (aiImageCache st);
     backgroundImageQueue := backgroundImageQueue st;
     isProcessingBackgroundQueue := isProcessingBackgroundQueue st;
     calls := calls st |}.

(** [await new Promise(resolve => setTimeout(resolve, d))]. *)
Definition wait (d : Z) (st : State) : State := setClock (clock st + d) st.

Section Provider.

(** [apiKey] is [OPENAI_API_KEY]; [provider n] is what the image provider does
    with the [n]-th call made since the server started. *)
Variable apiKey : bool.
Variable provider : nat -> Outcome.

(** [await fetch(...)] with [await response.json()]. *)
Definition providerCall (exerciseName : string) (st : State) : State * Outcome :=
  let o := provider (length (calls st)) in
  let done := (clock st + Z.of_N (latencyOf o))%Z in
  ({| clock := done; aiImageCache := aiImageCache st;
      backgroundImageQueue := backgroundImageQueue st;
      isProcessingBackgroundQueue := isProcessingBackgroundQueue st;
      calls := (calls st ++
                [{| exercise := exerciseName; started := clock st; ended := done |}])%list |},
   o).

Definition phases : list string := ["start"; "middle"; "end"].

(** The [for] loop of [generateAIImagesForExercise] from phase [i] on:
    [None] is [return null]. The wait between images is 20 s. *)
Fixpoint generatePhases (exerciseName exerciseId : string) (i : nat)
    (todo : list string) (images : list Image) (st : State)
  : State * option (list Image) :=
  match todo with
  | [] => (st, Some images)
  | phaseId :: rest =>
      let '(st1, o) := providerCall exerciseName st in
      match o with
      | Url _ u =>
          let images' :=
            (images ++ [{| id := exerciseId +:+ "-" +:+ pretty (S i);
                           url := u; phase := phaseId |}])%list in
          let st2 := if (i <? length phases - 1)%nat then wait 20000 st1 else st1 in
          generatePhases exerciseName exerciseId (S i) rest images' st2
      | NoUrl _ | Fails _ => (st1, None)
      end
  end.

Definition generateAIImagesForExercise (exerciseName exerciseId : string)
    (st : State) : State * option (list Image) :=
  if negb apiKey then (st, None)
  else match aiImageCache st !! cacheKey exerciseName with
  | Some cached => (st, Some cached)
  | None =>
      match generatePhases exerciseName exerciseId 0 phases [] st with
      | (st', Some images) =>
          if (length images =? 3)%nat
          then (cacheSet (cacheKey exerciseName) images st', Some images)
          else (st', None)
      | (st', None) => (st', None)
      end
  end.

(** The [while] loop of [processBackgroundQueue] over the queue it finds,
    with no request arriving while it runs. The wait between exercises is
    30 s, taken only while something is left in the queue. *)
Fixpoint drain (queue : list (string * string)) (st : State) : State :=
  match queue with
  | [] => st
  | (exerciseName, exerciseId) :: rest =>
      let st0 := setQueue rest st in
      match aiImageCache st0 !! cacheKey exerciseName with
      | Some _ => drain rest st0
      | None =>
          let st1 := fst (generateAIImagesForExercise exerciseName exerciseId st0) in
          let st2 := match rest with [] => st1 | _ :: _ => wait 30000 st1 end in
          drain rest st2
      end
  end.

Definition processBackgroundQueue (st : State) : State :=
  if isProcessingBackgroundQueue st then st
  else match backgroundImageQueue st with
  | [] => st
  | queue => setProcessing false (drain queue (setProcessing true st))
  end.

Inductive ImageResponse :=
| NameRequired                             (* 400 *)
| AiCached (images : list Image)           (* source: 'ai-cached' *)
| Stock.                                   (* source: 'stock' *)

(** [POST /api/workout/generate-exercise-image], followed by the background
    processing it may start, run to its end. *)
Definition generateExerciseImage (exerciseName exerciseId : string) (st : State)
  : State * ImageResponse :=
  if String.eqb exerciseName "" then (st, NameRequired)
  else match aiImageCache st !! cacheKey exerciseName with
  | Some images => (st, AiCached images)
  | None =>
      let alreadyQueued :=
        existsb (fun q => String.eqb (cacheKey (fst q)) (cacheKey exerciseName))
          (backgroundImageQueue st) in
      if apiKey && negb alreadyQueued
      then (processBackgroundQueue
              (setQueue (backgroundImageQueue st ++ [(exerciseName, exerciseId)])%list st),
            Stock)
      else (st, Stock)
  end.

(** The loop of [generateExerciseImagesForBackground] (the start-up job):
    the 15 s wait sits inside the [try], after the call, so a call that
    throws is followed by the next phase at once. *)
Fixpoint backgroundPhases (exerciseId exerciseName : string) (i : nat)
    (todo : list string) (images : list Image) (st : State)
  : State * list Image :=
  match todo with
  | [] => (st, images)
  | phaseId :: rest =>
      let '(st1, o) := providerCall exerciseName st in
      let pause := fun s => if (i <? length phases - 1)%nat then wait 15000 s else s in
      match o with
      | Url _ u =>
          backgroundPhases exerciseId exerciseName (S i) rest
            (images ++ [{| id := exerciseId +:+ "-" +:+ pretty (S i);
                           url := u; phase := phaseId |}])%list
            (pause st1)
      | NoUrl _ => backgroundPhases exerciseId exerciseName (S i) rest images (pause st1)
      | Fails _ => backgroundPhases exerciseId exerciseName (S i) rest images st1
      end
  end.

Definition generateExerciseImagesForBackground (exerciseId exerciseName : string)
    (st : State) : State * option (list Image) :=
  if negb apiKey then (st, None)
  else let '(st', images) := backgroundPhases exerciseId exerciseName 0 phases [] st in
       (st', Some images).

End Provider.

(** Any two provider calls of a log are at least [gap] ms apart, measured
    from the end of the earlier one to the start of the later one. *)
Definition spaced (gap : Z) (log : list Call) : Prop :=
  forall (i j : nat) (c1 c2 : Call),
    (i < j)%nat -> log !! i = Some c1 -> log !! j = Some c2 ->
    (ended c1 + gap <= started c2)%Z.

(** The same, for calls that name the same exercise up to normalisation. *)
Definition spacedPerExercise (gap : Z) (log : list Call) : Prop :=
  forall (i j : nat) (c1 c2 : Call),
    (i < j)%nat -> log !! i = Some c1 -> log !! j = Some c2 ->
    cacheKey (exercise c1) = cacheKey (exercise c2) ->
    (ended c1 + gap <= started c2)%Z.



(** A server that has just started. *)
Definition fresh : State :=
  {| clock := 0; aiImageCache := ∅; backgroundImageQueue := [];
     isProcessingBackgroundQueue := false; calls := [] |}.

End Assets.

(** ** Concrete inputs used below *)

Module Examples.

(** A runtime in which no string converts to a number; the inputs below hold
    no string where a number is expected, so any other runtime agrees. *)
Definition noStringToNumber : string -> number := fun _ => NaN.
Definition noToPrimitive : value -> string := fun _ => "".

(** An accepted analysis whose chest score and symmetry overshoot. *)
Definition overshooting_analysis : value :=
  VObj (list_to_map
    [("isValidPhysique", VBool true);
     ("mogScore", VNum (Fin 82));
     ("tier", VStr "Final Boss Mogger");
     ("muscleBreakdown", VObj (list_to_map [("chest", VNum (Fin 150))]));
     ("symmetry", VNum (Fin 250))]).

(** An accepted analysis that reports a score of zero. *)
Definition zero_score_analysis : value :=
  VObj (list_to_map [("mogScore", VNum (Fin 0)); ("tier", VStr "Gym Bro")]).

(** A reply of the identity provider that gives a confidence and a reason
    but no verdict. *)
Definition reply_without_verdict : Identity.IdentityReply :=
  Identity.Reply (VObj (list_to_map
    [("confidence", VNum (Fin 40)); ("reason", VStr "Lighting differs")])).

Definition stored_scan : Identity.Scan :=
  {| Identity.frontPhotoUrl := VStr "data:image/jpeg;base64,AAAA" |}.

(** An exercise the plan provider returned with a single step, and one a
    stored plan holds with two. *)
Definition one_step_exercise : Plan.Exercise.t :=
  {| Plan.Exercise.id := "ex-1-1"; Plan.Exercise.name := "Back Squat";
     Plan.Exercise.sets := "4 x 8"; Plan.Exercise.note := "";
     Plan.Exercise.badge := ""; Plan.Exercise.badgeColor := "";
     Plan.Exercise.borderColor := ""; Plan.Exercise.completed := false;
     Plan.Exercise.steps :=
       Some [ {| Plan.Step.stepNumber := 1; Plan.Step.title := "Set 1";
                 Plan.Step.description := "Warm up"; Plan.Step.duration := 60 |} ] |}.

Definition two_step_exercise : Plan.Exercise.t :=
  {| Plan.Exercise.id := "ex-1-1"; Plan.Exercise.name := "Back Squat";
     Plan.Exercise.sets := "4 x 8"; Plan.Exercise.note := "";
     Plan.Exercise.badge := ""; Plan.Exercise.badgeColor := "";
     Plan.Exercise.borderColor := ""; Plan.Exercise.completed := false;
     Plan.Exercise.steps :=
       Some [ {| Plan.Step.stepNumber := 1; Plan.Step.title := "Set 1";
                 Plan.Step.description := "Warm up"; Plan.Step.duration := 60 |};
              {| Plan.Step.stepNumber := 2; Plan.Step.title := "Set 2";
                 Plan.Step.description := "Work"; Plan.Step.duration := 60 |} ] |}.

(** A training day with the given number, status and exercises. *)
Definition day_with (n : Z) (status : string) (exs : list Plan.Exercise.t) : Plan.Day.t :=
  {| Plan.Day.day := n; Plan.Day.title := "Legs"; Plan.Day.description := "";
     Plan.Day.type := "Strength"; Plan.Day.typeColor := "";
     Plan.Day.secondaryType := ""; Plan.Day.status := status;
     Plan.Day.duration := "45 min"; Plan.Day.caloriesBurn := 300;
     Plan.Day.targetMuscles := Some ["legs"];
     Plan.Day.exercises := Some exs;
     Plan.Day.completed := false; Plan.Day.completedAt := None |}.

(** A stored week of three days whose exercises have two steps each. *)
Definition two_step_days : list Plan.Day.t :=
  [day_with 1 "today" [two_step_exercise]; day_with 2 "upcoming" [two_step_exercise];
   day_with 3 "upcoming" [two_step_exercise]].

(** What the plan provider answers to the second call in the failing run:
    one day whose only exercise has a single step. *)
Definition short_plan : Plan.RawPlan :=
  {| Plan.raw_mission := "Legs first"; Plan.raw_expectedGain := 1;
     Plan.raw_targets := None;
     Plan.raw_days := Some [day_with 1 "today" [one_step_exercise]] |}.

(** An exercise that satisfies the invariant. *)
Definition squat : Plan.Exercise.t :=
  {| Plan.Exercise.id := "ex-1-1"; Plan.Exercise.name := "Back Squat";
     Plan.Exercise.sets := "4 x 8"; Plan.Exercise.note := "";
     Plan.Exercise.badge := ""; Plan.Exercise.badgeColor := "";
     Plan.Exercise.borderColor := ""; Plan.Exercise.completed := false;
     Plan.Exercise.steps := Some Plan.defaultSteps |}.

Definition week_of (days : list Plan.Day.t) : Server.WorkoutPlan.t :=
  {| Server.WorkoutPlan.weekId := "week-1"; Server.WorkoutPlan.mission := "Legs first";
     Server.WorkoutPlan.expectedGain := 1; Server.WorkoutPlan.targets := Some [];
     Server.WorkoutPlan.currentWeek := 1;
     Server.WorkoutPlan.weeklyPlan := days;
     Server.WorkoutPlan.completedHistory := Some [] |}.

Definition athlete : Server.User.t :=
  {| Server.User.mogScore := Double.ofZ 50; Server.User.totalWorkouts := 4;
     Server.User.lastWorkoutDate := None; Server.User.latestScan := true;
     Server.User.weeklyTrainingPlan := None |}.

Definition store_of (plan : Server.WorkoutPlan.t) (markers : gmap string Z)
  : Server.Store :=
  {| Server.plans := {[ "u1" := plan ]};
     Server.users := {[ "u1" := athlete ]};
     Server.regeneratingPlans := markers;
     Server.generations := [] |}.

(** Mid-week: day 1 done, day 2 today, day 3 upcoming. *)
Definition mid_week : Server.Store :=
  store_of (week_of [day_with 1 "done" [squat]; day_with 2 "today" [squat];
                     day_with 3 "upcoming" [squat]]) ∅.

(** The last open day of a week: day 1 done, day 2 today. *)
Definition last_day : Server.Store :=
  store_of (week_of [day_with 1 "done" [squat]; day_with 2 "today" [squat]]) ∅.

Definition clock : Z := 1700000000000.

(** The same, while a regeneration the weekly endpoint started one second
    ago still holds the marker of the user. *)
Definition last_day_guarded : Server.Store :=
  store_of (week_of [day_with 1 "done" [squat]; day_with 2 "today" [squat]])
    {[ "u1" := (clock - 1000)%Z ]}.

Definition complete (n : Z) : Server.Request :=
  {| Server.userId := "u1"; Server.dayNumber := n;
     Server.targetMuscles := None; Server.exerciseCount := Double.zero |}.

(** The provider answers the progressive call with [next]. *)
Definition answering (next : Plan.PlanReply) : Server.Env :=
  {| Server.now := clock; Server.openai := true;
     Server.coldFirst := Plan.CallFails; Server.coldFallback := Plan.CallFails;
     Server.nextFirst := next; Server.nextFallback := Plan.CallFails |}.

Definition next_week : Plan.RawPlan :=
  {| Plan.raw_mission := "Week 2"; Plan.raw_expectedGain := 1;
     Plan.raw_targets := None;
     Plan.raw_days :=
       Some [day_with 1 "today" [squat]; day_with 2 "upcoming" [squat];
             day_with 3 "upcoming" [squat]] |}.

(** A well-formed answer that lists no day. *)
Definition no_days : Plan.RawPlan :=
  {| Plan.raw_mission := "Week 2"; Plan.raw_expectedGain := 1;
     Plan.raw_targets := None; Plan.raw_days := Some [] |}.


(** The last day is completed and the provider lists no day for the next
    week: through the endpoint with the user id in its path, and through the
    legacy one. *)
Definition empty_week : Server.Store * Server.Response :=
  Server.run (Server.completeDay (answering (Plan.PlanJson no_days)) (complete 2))
    last_day.

Definition empty_week_legacy : Server.Store * Server.Response :=
  Server.run
    (Server.completeDayLegacy (answering (Plan.PlanJson no_days)) (complete 2))
    last_day.

(** The last day is completed while the marker of the user is held. *)
Definition guarded_rollover : Server.Store * Server.Response :=
  Server.run (Server.completeDay (answering (Plan.PlanJson next_week)) (complete 2))
    last_day_guarded.





(** A server whose cache holds the images of the squat. *)
Definition squat_images : list Assets.Image :=
  [ {| Assets.id := "ex-1-1"; Assets.url := "https://img/1"; Assets.phase := "start" |};
    {| Assets.id := "ex-1-2"; Assets.url := "https://img/2"; Assets.phase := "middle" |};
    {| Assets.id := "ex-1-3"; Assets.url := "https://img/3"; Assets.phase := "end" |} ].

Definition warm : Assets.State :=
  Assets.cacheSet "squat" squat_images Assets.fresh.

End Examples.

(** ** Values whose conversion to a number does not throw

    Converting an object to a primitive calls its [valueOf] and [toString].
    In data that came out of [JSON.parse] no property is callable, so the
    inherited methods are used unless the object has an own property of that
    name: [Object.prototype.valueOf] gives the object back, and the
    conversion ends with [Object.prototype.toString], or with [join] on an
    array, unless an own ["toString"] hides it - then a [TypeError] is
    thrown. [join] converts the elements of an array the same way. The
    coercion [ToPrimitive] of the embedding gives the string of the values
    for which nothing is thrown, which are these: *)

Module Conversion.

Fixpoint convertible (v : value) : bool :=
  match v with
  | VArr xs => forallb convertible xs
  | VObj fields => negb (bool_decide (is_Some (fields !! "toString")))
  | VUndefined | VNull | VBool _ | VNum _ | VStr _ => true
  end.

(** The reply of the vision provider carries a score that converts. *)
Definition scoreConverts (reply : Normalizer.VisionReply) : bool :=
  match reply with
  | Normalizer.Parsed analysis => convertible (get_opt analysis "mogScore")
  | Normalizer.HttpNotOk | Normalizer.NoContent | Normalizer.Unparsable => true
  end.

End Conversion.

(** ** Asset queue: the admin endpoint and the keys of the queue *)

Module AssetsAdmin.

Import Assets.

(** [POST /api/admin/clear-image-cache]: the cache and the queue are emptied;
    the answer reports how many entries the cache held. *)
Definition clearImageCache (st : State) : State * nat :=
  ({| clock := clock st; aiImageCache := ∅; backgroundImageQueue := [];
      isProcessingBackgroundQueue := isProcessingBackgroundQueue st;
      calls := calls st |},
   size (aiImageCache st)).

(** The normalised names waiting in the queue. *)
Definition queuedKeys (st : State) : list string :=
  map (fun q => cacheKey (fst q)) (backgroundImageQueue st).

(** The image ids [generateAIImagesForExercise] gives the three phases. *)
Definition phaseIds (exerciseId : string) (i n : nat) : list string :=
  map (fun j => exerciseId +:+ "-" +:+ pretty (S j)) (seq i n).

(** A provider that answers every call with an image. *)
Definition alwaysAnswers (provider : nat -> Outcome) : Prop :=
  forall n, exists latency u, provider n = Url latency u.

End AssetsAdmin.

(** ** Generated weeks: what is read off them *)

Module Weeks.

Import Plan.

Definition isJson (r : PlanReply) : bool :=
  match r with PlanJson _ => true | CallFails | EmptyContent | BadJson => false end.

(** The statuses of a week nobody has trained in yet. *)
Definition freshStatuses (n : nat) : list string :=
  match n with
  | O => []
  | S k => "today" :: replicate k "upcoming"
  end.

(** The day numbers 1, 2, ..., n. *)
Definition numbers (n : nat) : list Z := map Z.of_nat (seq 1 n).

Definition dayNumbers (ds : list Day.t) : list Z := map Day.day ds.
Definition dayStatuses (ds : list Day.t) : list string := map Day.status ds.

(** A week as the generators number it. *)
Definition numberedFresh (ds : list Day.t) : Prop :=
  dayNumbers ds = numbers (length ds) /\ dayStatuses ds = freshStatuses (length ds).

(** Nothing in the day is completed. *)
Definition untouched (d : Day.t) : bool :=
  negb (Day.completed d) &&
  match Day.completedAt d with None => true | Some _ => false end &&
  forallb (fun ex => negb (Exercise.completed ex)) (default [] (Day.exercises d)).


End Weeks.

(** ** A training week, one request after the other *)

Module Session.

Import Plan Weeks Server.

(** The statuses of a week whose first [k] days are done. *)
Definition progress (k n : nat) : list string :=
  (replicate k "done" ++ freshStatuses (n - k))%list.

(** A week of numbered days of which the first [k] are done, the next one is
    today and the others are upcoming. *)
Definition inProgress (k : nat) (ds : list Day.t) : Prop :=
  dayNumbers ds = numbers (length ds) /\ dayStatuses ds = progress k (length ds).

(** The body the client sends when day [k + 1] has been trained. *)
Definition dayRequest (uid : string) (k : nat) : Request :=
  {| userId := uid; dayNumber := Z.of_nat (S k);
     targetMuscles := None; exerciseCount := Double.zero |}.

(** The days [k + 1], [k + 2], ... completed one request after the other,
    each request running to its end in the environment it meets. *)
Fixpoint completeInOrder (envs : list Env) (uid : string) (k : nat) (db : Store)
  : Store * list Response :=
  match envs with
  | [] => (db, [])
  | env :: rest =>
      let '(db1, r) := run (completeDay env (dayRequest uid k)) db in
      let '(db2, rs) := completeInOrder rest uid (S k) db1 in
      (db2, r :: rs)
  end.

Definition weekGenerated (r : Response) : option bool :=
  newWeekGenerated <$> completed r.

(** Whether the progressive generator hands over a week that is accepted. *)
Definition accepted (env : Env) : bool :=
  match generateNextWeekPlan (openai env) (nextFirst env) (nextFallback env) with
  | Returns (_ :: _) => true
  | Returns [] | Throws => false
  end.

(** The plan copy synced to the user document. *)
Definition syncedDays (db : Store) (uid : string) : option (list Day.t) :=
  UserPlan.days <$> (users db !! uid ≫= User.weeklyTrainingPlan).

(** The days of a week that are not done. *)
Definition openDays (ds : list Day.t) : nat :=
  length (List.filter (fun d => negb (String.eqb (Day.status d) "done")) ds).

(** Requests of one user for the given day numbers through the endpoint
    without the user id in its path, one after the other; the handler reads
    the user id and the day number of the body and nothing else. *)
Definition legacyRequest (uid : string) (n : Z) : Request :=
  {| userId := uid; dayNumber := n;
     targetMuscles := None; exerciseCount := Double.zero |}.

Fixpoint legacyRequests (requests : list (Env * Z)) (uid : string) (db : Store)
  : Store * list Response :=
  match requests with
  | [] => (db, [])
  | (env, n) :: rest =>
      let '(db1, r) := run (completeDayLegacy env (legacyRequest uid n)) db in
      let '(db2, rs) := legacyRequests rest uid db1 in
      (db2, r :: rs)
  end.

(** An answer that does not say the week is finished: a 404, or a 200 with
    allDaysCompleted and newWeekGenerated false. *)
Definition weekStillOpen (r : Response) : bool :=
  match r with
  | NotFound _ => true
  | ServerError _ => false
  | Completed s => negb (allDaysCompleted s) && negb (newWeekGenerated s)
  end.

End Session.

(** ** The weekly-plan endpoints

    The handlers below run alone, so they are written with the store passed
    from one statement to the next; database calls are taken to succeed, as
    in the handlers above. *)

Module Weekly.

Import Plan Server.

(** The plan [GET /api/training/:userId/weekly] builds from a stored
    WorkoutPlan document. *)
Record ServedPlan := {
  weekId : string;
  mission : string;
  expectedGain : Q;
  targets : list (string * Q);
  days : list Day.t;
  currentWeek : Z;
  weekNumber : Z }.

Inductive WeeklyResponse :=
| Regenerating                             (* regenerating: true *)
| Stored (plan : ServedPlan)               (* the converted WorkoutPlan *)
| Regenerated (newPlan : TrainingPlan)     (* plan: newPlan *)
| UserCopy (plan : UserPlan.t)             (* plan: user.weeklyTrainingPlan *)
| Unsuccessful (message : string).         (* success: false *)

Definition setMarkers (m : gmap string Z) (db : Store) : Store :=
  {| plans := plans db; users := users db;
     regeneratingPlans := m; generations := generations db |}.

(** [regeneratingPlans.set(userId, Date.now())] and
    [regeneratingPlans.delete(userId)]. *)
Definition mark (uid : string) (t : Z) (db : Store) : Store :=
  setMarkers (<[uid := t]> (regeneratingPlans db)) db.

Definition unmark (uid : string) (db : Store) : Store :=
  setMarkers (delete uid (regeneratingPlans db)) db.

(** The [const plan = {...}] conversion. *)
Definition convert (workoutPlan : WorkoutPlan.t) : ServedPlan :=
  {| weekId :=
       orS (WorkoutPlan.weekId workoutPlan)
         ("week-" +:+ pretty (orZ (WorkoutPlan.currentWeek workoutPlan) 1));
     mission := orS (WorkoutPlan.mission workoutPlan) "Complete your training program";
     expectedGain := orQ (WorkoutPlan.expectedGain workoutPlan) 1;
     targets := default [] (WorkoutPlan.targets workoutPlan);
     days := servedDays workoutPlan;
     currentWeek := orZ (WorkoutPlan.currentWeek workoutPlan) 1;
     weekNumber := orZ (WorkoutPlan.currentWeek workoutPlan) 1 |}.

(** [workoutPlan.save()] after a regeneration: the five assigned paths. *)
Definition saveRegenerated (newPlan : TrainingPlan) (stored : WorkoutPlan.t)
  : WorkoutPlan.t :=
  {| WorkoutPlan.weekId := Plan.weekId newPlan;
     WorkoutPlan.mission := Plan.mission newPlan;
     WorkoutPlan.expectedGain := Plan.expectedGain newPlan;
     WorkoutPlan.targets := Plan.targets newPlan;
     WorkoutPlan.currentWeek := WorkoutPlan.currentWeek stored;
     WorkoutPlan.weeklyPlan := Plan.days newPlan;
     WorkoutPlan.completedHistory := WorkoutPlan.completedHistory stored |}.

(** The upsert of the branch that finds no plan at all. *)
Definition upsertFirst (newPlan : TrainingPlan) (stored : option WorkoutPlan.t)
  : option WorkoutPlan.t :=
  Some {| WorkoutPlan.weekId := Plan.weekId newPlan;
          WorkoutPlan.mission := Plan.mission newPlan;
          WorkoutPlan.expectedGain := orQ (Plan.expectedGain newPlan) 1;
          WorkoutPlan.targets := Some (default [] (Plan.targets newPlan));
          WorkoutPlan.currentWeek := 1;
          WorkoutPlan.weeklyPlan := Plan.days newPlan;
          WorkoutPlan.completedHistory :=
            match stored with
            | Some old => WorkoutPlan.completedHistory old
            | None => Some []
            end |}.

(** [user.weeklyTrainingPlan = newPlan; await user.save()]. *)
Definition syncUser (uid : string) (newPlan : TrainingPlan) (user : User.t)
    (db : Store) : Store :=
  withUsers (alter (saveUserPlan (setUserPlan (userPlanOfGenerated newPlan) user)) uid) db.

(** The part of the handler after [// Fallback to user's weeklyTrainingPlan field]. *)
Definition fromUser (env : Env) (markTime : Z) (uid : string) (db : Store)
  : Store * WeeklyResponse :=
  match users db !! uid with
  | None => (db, Unsuccessful "User not found")
  | Some user =>
      match User.weeklyTrainingPlan user with
      | Some userPlan =>
          if negb (isPlanComplete (UserPlan.days userPlan)) && User.latestScan user then
            match generateAITrainingPlan (openai env) (now env)
                    (coldFirst env) (coldFallback env) with
            | Returns newPlan => (syncUser uid newPlan user db, Regenerated newPlan)
            | Throws => (db, UserCopy userPlan)
            end
          else (db, UserCopy userPlan)
      | None =>
          if User.latestScan user then
            let db1 := mark uid markTime db in
            match generateAITrainingPlan (openai env) (now env)
                    (coldFirst env) (coldFallback env) with
            | Returns newPlan =>
                let db2 := withPlans (partial_alter (upsertFirst newPlan) uid) db1 in
                let db3 := syncUser uid newPlan user db2 in
                (unmark uid db3, Regenerated newPlan)
            | Throws => (unmark uid db1, Unsuccessful "Failed to generate plan")
            end
          else (db, Unsuccessful "No plan found - please complete a scan first")
      end
  end.

(** The part that serves a stored plan with at least one day. [scanDoc] says
    whether the Scan collection holds a scan of the user. *)
Definition fromStored (env : Env) (scanDoc : bool) (markTime : Z) (uid : string)
    (workoutPlan : WorkoutPlan.t) (db : Store) : Store * WeeklyResponse :=
  if isPlanComplete (WorkoutPlan.weeklyPlan workoutPlan)
  then (db, Stored (convert workoutPlan))
  else
    let db1 := mark uid markTime db in
    let user := users db1 !! uid in
    let scanData :=
      match user with
      | Some u => User.latestScan u || scanDoc
      | None => scanDoc
      end in
    if scanData then
      match generateAITrainingPlan (openai env) (now env)
              (coldFirst env) (coldFallback env) with
      | Returns newPlan =>
          let db2 := withPlans (alter (saveRegenerated newPlan) uid) db1 in
          let db3 :=
            match user with
            | Some u => syncUser uid newPlan u db2
            | None => db2
            end in
          (unmark uid db3, Regenerated newPlan)
      | Throws => (unmark uid db1, Stored (convert workoutPlan))
      end
    else (unmark uid db1, Stored (convert workoutPlan)).

(** [GET /api/training/:userId/weekly]. [now env] is the clock the guard
    reads, [markTime] the clock read when a marker is set. *)
Definition getWeekly (env : Env) (scanDoc : bool) (markTime : Z) (uid : string)
    (db : Store) : Store * WeeklyResponse :=
  match passGuard (now env) uid (regeneratingPlans db) with
  | None => (db, Regenerating)
  | Some markers =>
      let db0 := setMarkers markers db in
      match plans db0 !! uid with
      | Some workoutPlan =>
          match WorkoutPlan.weeklyPlan workoutPlan with
          | _ :: _ => fromStored env scanDoc markTime uid workoutPlan db0
          | [] => fromUser env markTime uid db0
          end
      | None => fromUser env markTime uid db0
      end
  end.

(** Every exercise of the days has at least two steps. *)
Definition stepsServed (ds : list Day.t) : bool :=
  forallb (fun d =>
    forallb (fun ex => (2 <=? length (default [] (Exercise.steps ex)))%nat)
      (default [] (Day.exercises d))) ds.

Definition isRegenerated (r : WeeklyResponse) : bool :=
  match r with Regenerated _ => true | _ => false end.

Definition isRegenerating (r : WeeklyResponse) : bool :=
  match r with Regenerating => true | _ => false end.

(** What an answer of the weekly endpoint says about the store [r] pairs it
    with, [db] being the store the request met. *)
Definition answerOk (uid : string) (db : Store) (r : Store * WeeklyResponse) : Prop :=
  match snd r with
  | Stored plan =>
      stepsServed (days plan) = true /\
      plans (fst r) = plans db /\ users (fst r) = users db
  | Regenerated newPlan =>
      Weeks.numberedFresh (Plan.days newPlan) /\
      match users db !! uid with
      | Some _ => Session.syncedDays (fst r) uid = Some (Plan.days newPlan)
      | None => users (fst r) = users db
      end
  | Regenerating | UserCopy _ | Unsuccessful _ =>
      plans (fst r) = plans db /\ users (fst r) = users db
  end.

End Weekly.

(** ** Saving a plan and patching a day *)

Module Saving.

Import Plan Server.

Inductive SaveResponse :=
| UserNotFound                             (* 404 *)
| Ignored (currentWeek : Z)                (* 200, 'Ignored - newer week already exists' *)
| Saved                                    (* 200, 'Plan saved' *)
| SaveFailed.                              (* 500 *)

(** [user.weeklyTrainingPlan = plan; await user.save()], for a body that may
    carry no plan. *)
Definition assignPlan (plan : option UserPlan.t) (stored : User.t) : User.t :=
  {| User.mogScore := User.mogScore stored;
     User.totalWorkouts := User.totalWorkouts stored;
     User.lastWorkoutDate := User.lastWorkoutDate stored;
     User.latestScan := User.latestScan stored;
     User.weeklyTrainingPlan := plan |}.

(** The upsert that syncs the posted plan to the WorkoutPlan collection. *)
Definition upsertPosted (plan : UserPlan.t) (stored : option WorkoutPlan.t)
  : option WorkoutPlan.t :=
  Some {| WorkoutPlan.weekId := UserPlan.weekId plan;
          WorkoutPlan.mission := UserPlan.mission plan;
          WorkoutPlan.expectedGain :=
            match stored with Some old => WorkoutPlan.expectedGain old | None => 1 end;
          WorkoutPlan.targets :=
            match stored with Some old => WorkoutPlan.targets old | None => Some [] end;
          WorkoutPlan.currentWeek := orZ (UserPlan.currentWeek plan) 1;
          WorkoutPlan.weeklyPlan := UserPlan.days plan;
          WorkoutPlan.completedHistory :=
            match stored with
            | Some old => WorkoutPlan.completedHistory old
            | None => Some []
            end |}.

(** [plan?.currentWeek || plan?.weekNumber || 1]. *)
Definition incomingWeek (plan : option UserPlan.t) : Z :=
  match plan with
  | Some p => orZ (UserPlan.currentWeek p) (orZ (UserPlan.weekNumber p) 1)
  | None => 1
  end.

(** [existingPlan?.currentWeek || 1]. *)
Definition existingWeek (existingPlan : option WorkoutPlan.t) : Z :=
  match existingPlan with
  | Some e => orZ (WorkoutPlan.currentWeek e) 1
  | None => 1
  end.

(** [POST /api/training/:userId/weekly]. A body without a plan gets past the
    safeguard, is assigned to the user, and then makes [plan.weekId] throw. *)
Definition postWeekly (uid : string) (plan : option UserPlan.t) (db : Store)
  : Store * SaveResponse :=
  match users db !! uid with
  | None => (db, UserNotFound)
  | Some user =>
      let existingPlan := plans db !! uid in
      if bool_decide (is_Some existingPlan) &&
         (incomingWeek plan <? existingWeek existingPlan)%Z
      then (db, Ignored (existingWeek existingPlan))
      else
        let db1 := withUsers (alter (assignPlan plan) uid) db in
        match plan with
        | Some p => (withPlans (partial_alter (upsertPosted p) uid) db1, Saved)
        | None => (db1, SaveFailed)
        end
  end.

Inductive PatchResponse :=
| NoPlan                                   (* 404, 'No plan found' *)
| NoDay                                    (* 404, 'Day not found' *)
| Patched (plan : UserPlan.t).             (* 200 *)

Definition withDays (days : list Day.t) (p : UserPlan.t) : UserPlan.t :=
  {| UserPlan.weekId := UserPlan.weekId p;
     UserPlan.weekNumber := UserPlan.weekNumber p;
     UserPlan.mission := UserPlan.mission p;
     UserPlan.days := days;
     UserPlan.currentWeek := UserPlan.currentWeek p |}.

(** [PATCH /api/training/:userId/day]: it works on the user's copy of the
    plan and on nothing else. *)
Definition patchDay (uid : string) (dayNumber : Z) (status : string) (db : Store)
  : Store * PatchResponse :=
  match users db !! uid ≫= User.weeklyTrainingPlan with
  | None => (db, NoPlan)
  | Some userPlan =>
      match findIndex (hasDay dayNumber) (UserPlan.days userPlan) with
      | None => (db, NoDay)
      | Some dayIndex =>
          let days1 := alter (setStatus status) dayIndex (UserPlan.days userPlan) in
          let days2 :=
            if String.eqb status "done" then advanceNext dayNumber days1 else days1 in
          let userPlan' := withDays days2 userPlan in
          (withUsers (alter (assignPlan (Some userPlan')) uid) db, Patched userPlan')
      end
  end.

Inductive GenerateResponse :=
| NoUser                                   (* 404, 'User not found' *)
| NoScan                                   (* 400 *)
| GenerateFailed                           (* 500 *)
| PlanReady (plan : TrainingPlan).         (* 200 *)

(** [user.weeklyTrainingPlan = trainingPlan; user.latestScan = scanData;
    await user.save()]. *)
Definition saveGenerated (trainingPlan : TrainingPlan) (stored : User.t) : User.t :=
  {| User.mogScore := User.mogScore stored;
     User.totalWorkouts := User.totalWorkouts stored;
     User.lastWorkoutDate := User.lastWorkoutDate stored;
     User.latestScan := true;
     User.weeklyTrainingPlan := Some (userPlanOfGenerated trainingPlan) |}.

(** [POST /api/training/:userId/generate]; [scanDoc] says whether the Scan
    collection holds a scan of the user. *)
Definition postGenerate (env : Env) (scanDoc : bool) (uid : string) (db : Store)
  : Store * GenerateResponse :=
  match users db !! uid with
  | None => (db, NoUser)
  | Some user =>
      if negb scanDoc then (db, NoScan)
      else
        match generateAITrainingPlan (openai env) (now env)
                (coldFirst env) (coldFallback env) with
        | Returns trainingPlan =>
            let db1 := withUsers (alter (saveGenerated trainingPlan) uid) db in
            (withPlans (partial_alter (upsertGenerated trainingPlan) uid) db1,
             PlanReady trainingPlan)
        | Throws => (db, GenerateFailed)
        end
  end.

End Saving.

(** ** More concrete inputs *)

Module MoreExamples.

Import Examples.

(** An image provider that answers every call, after two seconds. *)
Definition serving : nat -> Assets.Outcome :=
  fun n => Assets.Url 2000 ("https://img/" +:+ pretty n).

(** A server in the middle of a run, with the squat waiting in the queue. *)
Definition busy : Assets.State :=
  Assets.setProcessing true (Assets.setQueue [("Squat", "ex-1")] Assets.fresh).

(** A stored week nobody has trained in yet. *)
Definition fresh_week : Server.Store :=
  store_of (week_of [day_with 1 "today" [squat]; day_with 2 "upcoming" [squat];
                     day_with 3 "upcoming" [squat]]) ∅.

(** A user with a scan and no plan, and a provider that answers the
    cold-start call with a week of three days. *)
Definition newcomer : Server.Store :=
  {| Server.plans := ∅;
     Server.users := {[ "u1" := athlete ]};
     Server.regeneratingPlans := ∅;
     Server.generations := [] |}.

Definition cold : Server.Env :=
  {| Server.now := clock; Server.openai := true;
     Server.coldFirst := Plan.PlanJson next_week; Server.coldFallback := Plan.CallFails;
     Server.nextFirst := Plan.CallFails; Server.nextFallback := Plan.CallFails |}.

(** A plan as the client posts it: week 2, three days. *)
Definition posted : Server.UserPlan.t :=
  {| Server.UserPlan.weekId := "week-2"; Server.UserPlan.weekNumber := 2;
     Server.UserPlan.mission := "Week 2";
     Server.UserPlan.days :=
       [day_with 1 "today" [squat]; day_with 2 "upcoming" [squat];
        day_with 3 "upcoming" [squat]];
     Server.UserPlan.currentWeek := 2 |}.


End MoreExamples.

(** * Properties *)

(** ** Tier Resolver *)

Lemma Qle_bool_false (a b : Q) : Qle_bool a b = false -> (b < a)%Q.
Proof.
  intros E. apply Qnot_le_lt. intros H.
  apply Qle_bool_iff in H. congruence.
Qed.

(** Splits on every threshold test left in the goal and turns the outcome
    into an inequality for [lra]. *)
Ltac split_thresholds :=
  repeat match goal with
    | |- context [Qle_bool ?a ?b] =>
        let E := fresh "E" in
        destruct (Qle_bool a b) eqn:E;
        [apply Qle_bool_iff in E | apply Qle_bool_false in E]
    end.

(** Offers each row of a table in turn as the witness of the goal. *)
Ltac try_rows rows tac :=
  lazymatch rows with
  | ?t :: ?rest => first [ exists t; tac | try_rows rest tac ]
  end.

Section TierFacts.

Variable StringToNumber : string -> number.
Variable ToPrimitive : value -> string.

(** The loop only ever looks at the number the score converts to. *)
Lemma scanTiers_ToNumber (tiers : list Tier) (score : value) :
  scanTiers StringToNumber ToPrimitive tiers score =
  scanTiers StringToNumber ToPrimitive tiers
    (VNum (ToNumber StringToNumber ToPrimitive score)).
Proof.
  induction tiers as [|t rest IH]; [reflexivity|].
  cbn [scanTiers]. unfold JS.ge. cbn [ToNumber]. now rewrite IH.
Qed.

Lemma scanTiers_number (tiers : list Tier) (n : number) :
  scanTiers StringToNumber ToPrimitive tiers (VNum n) =
  scanTiers (fun _ => NaN) (fun _ => "") tiers (VNum n).
Proof.
  induction tiers as [|t rest IH]; [reflexivity|].
  cbn [scanTiers]. unfold JS.ge. cbn [ToNumber]. now rewrite IH.
Qed.

Lemma getTierFromScore_tierFor (score : Q) :
  getTierFromScore StringToNumber ToPrimitive (VNum (Fin score)) = tierFor score.
Proof. apply scanTiers_number. Qed.

(** Clamping into [0,100] never moves a score across a threshold of the
    table. *)
Lemma getTierFromScore_clamped (n : number) :
  getTierFromScore StringToNumber ToPrimitive
    (VNum (math_max (Fin 0) (math_min (Fin 100) n))) =
  getTierFromScore StringToNumber ToPrimitive (VNum n).
Proof.
  unfold getTierFromScore. rewrite !(scanTiers_number TIERS).
  destruct n as [| |q|]; try reflexivity.
  unfold math_min, math_max.
  destruct (Qle_bool 100 q) eqn:Hhi.
  - apply Qle_bool_iff in Hhi.
    change (Qle_bool 100 0) with false. cbv iota.
    cbn [scanTiers TIERS JS.ge ToNumber num_ge minScore name].
    split_thresholds; try reflexivity; lra.
  - apply Qle_bool_false in Hhi.
    destruct (Qle_bool q 0) eqn:Hlo.
    + apply Qle_bool_iff in Hlo.
      cbn [scanTiers TIERS JS.ge ToNumber num_ge minScore name].
      split_thresholds; try reflexivity; lra.
    + reflexivity.
Qed.

End TierFacts.

(** A larger score never skips more rows of the table, whatever the table. *)
Lemma scanIndex_antitone (tiers : list Tier) (a b : Q) :
  (a <= b)%Q -> scanIndex tiers (Fin b) <= scanIndex tiers (Fin a).
Proof.
  intros Hab. induction tiers as [|t rest IH]; [reflexivity|].
  cbn [scanIndex num_ge].
  destruct (Qle_bool (minScore t) a) eqn:Ea.
  - apply Qle_bool_iff in Ea.
    assert (Eb : Qle_bool (minScore t) b = true) by (apply Qle_bool_iff; lra).
    now rewrite Eb.
  - destruct (Qle_bool (minScore t) b); lia.
Qed.

(** On the table of the server the level of the resolved tier is read off
    the number of skipped rows; falling through the table gives the label of
    the last row. *)
Lemma tierLevel_scanIndex (score : Q) :
  tierLevel (tierFor score) = 9 - Nat.min (scanIndex TIERS (Fin score)) 8.
Proof.
  unfold tierFor, tierLevel.
  cbn [scanTiers scanIndex TIERS JS.ge ToNumber num_ge minScore name].
  split_thresholds; reflexivity.
Qed.

(** C5: tierFor is a total function whose result is always a label of the
    table; it is monotone on [0,100] (a lower score never gets a higher tier);
    the thresholds cover [0,100] without gaps (the last row has minScore 0 and
    every score in range gets the row with the greatest threshold it reaches);
    and tierFor(82) = Chad, tierFor(40) = tierFor(35) = Low-Tier Normie,
    tierFor(34) = Gym Bro. *)
Theorem C5_tierFor_total_monotone_partition :
  (forall score : Q, In (tierFor score) (map name TIERS)) /\
  (forall a b : Q, (0 <= a)%Q -> (a < b)%Q -> (b <= 100)%Q ->
     tierLevel (tierFor a) <= tierLevel (tierFor b)) /\
  minScore <$> last TIERS = Some 0%Q /\
  (forall score : Q, (0 <= score)%Q -> (score <= 100)%Q ->
     exists t, In t TIERS /\ tierFor score = name t /\
       (minScore t <= score)%Q /\
       forall t', In t' TIERS -> (minScore t' <= score)%Q ->
         (minScore t' <= minScore t)%Q) /\
  tierFor 82 = "Chad" /\
  tierFor 40 = "Low-Tier Normie" /\
  tierFor 35 = "Low-Tier Normie" /\
  tierFor 34 = "Gym Bro".
Proof.
  split; [|split; [|split; [|split]]].
  - intros score. unfold tierFor.
    cbn [scanTiers TIERS JS.ge ToNumber num_ge minScore name map].
    split_thresholds; cbn [In]; tauto.
  - intros a b _ Hab _. rewrite !tierLevel_scanIndex.
    pose proof (scanIndex_antitone TIERS a b) as H.
    assert (Hle : (a <= b)%Q) by lra. specialize (H Hle). lia.
  - reflexivity.
  - intros score Hlo Hhi. unfold tierFor.
    cbn [scanTiers TIERS JS.ge ToNumber num_ge minScore name].
    split_thresholds; try lra;
      let rows := eval cbv delta [TIERS] in TIERS in
      try_rows rows
        ltac:(split; [cbn [In TIERS]; tauto|];
              split; [reflexivity|]; cbn [minScore];
              split; [lra|];
              intros t' Ht'; cbn [In TIERS] in Ht';
              repeat (destruct Ht' as [<-|Ht']; [cbn [minScore]; intros; lra|]);
              destruct Ht').
  - repeat split; reflexivity.
Qed.

(** The monotonicity part of C5, used at two scores of neighbouring bands. *)
Lemma C5_witness :
  (0 <= 34)%Q /\ (34 < 35)%Q /\ (35 <= 100)%Q /\
  tierLevel (tierFor 34) <= tierLevel (tierFor 35).
Proof.
  repeat (split; [reflexivity || discriminate|]).
  refine (match C5_tierFor_total_monotone_partition with
          | conj _ (conj mono _) => mono 34%Q 35%Q _ _ _
          end); reflexivity || discriminate.
Defined.

(** ** Analysis Normalizer *)

Section NormalizerFacts.

Import Normalizer.

Variable StringToNumber : string -> number.
Variable ToPrimitive : value -> string.

Abbreviation analyze := (analyzePhysiqueWithAI StringToNumber ToPrimitive).
Abbreviation toNumber := (ToNumber StringToNumber ToPrimitive).

(** What an accepted analysis looks like, field by field. *)
Lemma analyze_Normalized (analysis : value) (n : NormalizedAnalysis) :
  analyze (Parsed analysis) = Normalized n ->
  normalizedAnalysis StringToNumber ToPrimitive analysis = Some n /\
  get analysis "mogScore" = Some (get_opt analysis "mogScore").
Proof.
  unfold analyzePhysiqueWithAI.
  destruct analysis; cbn [get get_opt]; try discriminate;
    destruct (strict_eq_bool _ false); try discriminate;
    destruct (normalizedAnalysis _ _ _) eqn:E; try discriminate;
    intros [= <-]; split; reflexivity.
Qed.

Lemma normalizedAnalysis_fields (analysis : value) (n : NormalizedAnalysis) :
  normalizedAnalysis StringToNumber ToPrimitive analysis = Some n ->
  mogScore n =
    math_max (Fin 0) (math_min (Fin 100)
      (toNumber (JS.orElse (get_opt analysis "mogScore") (VNum (Fin 50))))) /\
  tier n =
    getTierFromScore StringToNumber ToPrimitive
      (JS.orElse (get_opt analysis "mogScore") (VNum (Fin 50))) /\
  muscles (muscleBreakdown n) =
    map (fun k => coalesce (get_opt (get_opt analysis "muscleBreakdown") k) VNull)
      ["chest"; "shoulders"; "back"; "arms"; "legs"; "core"; "leanness"] /\
  symmetry n = JS.orElse (get_opt analysis "symmetry") (VNum (Fin 70)).
Proof.
  unfold normalizedAnalysis.
  destruct analysis; cbn [get get_opt mbind option_bind]; try discriminate;
    intros [= <-]; repeat split; reflexivity.
Qed.

(** Writing a [tier] property into the payload changes no property the
    normalizer reads. *)
Lemma get_insert_tier (fields : gmap string value) (suggestion : value) (k : string) :
  k <> "tier" ->
  get (VObj (<["tier" := suggestion]> fields)) k = get (VObj fields) k.
Proof.
  intros Hk. cbn [get]. rewrite lookup_insert_ne by congruence. reflexivity.
Qed.

Lemma get_opt_insert_tier (fields : gmap string value) (suggestion : value) (k : string) :
  k <> "tier" ->
  get_opt (VObj (<["tier" := suggestion]> fields)) k = get_opt (VObj fields) k.
Proof.
  intros Hk. cbn [get_opt]. rewrite lookup_insert_ne by congruence. reflexivity.
Qed.

Lemma clamp_in_range (x : number) :
  math_max (Fin 0) (math_min (Fin 100) x) = NaN /\ x = NaN \/
  in_0_100 (math_max (Fin 0) (math_min (Fin 100) x)).
Proof.
  destruct x as [| |q|]; [left; split; reflexivity| | |];
    right; unfold math_min, math_max, in_0_100; try (split; discriminate).
  destruct (Qle_bool 100 q) eqn:Hhi.
  - change (Qle_bool 100 0) with false. cbv iota. split; discriminate.
  - apply Qle_bool_false in Hhi.
    destruct (Qle_bool q 0) eqn:Hlo.
    + split; discriminate.
    + apply Qle_bool_false in Hlo. split; lra.
Qed.

(** C4: the tier of an accepted analysis is the Tier Resolver applied to the
    normalized score, and a tier the provider suggests in its payload has no
    effect: writing any [tier] property into the payload leaves the whole
    normalized analysis, its tier included, as it was. *)
Theorem C4_tier_is_resolver_of_normalized_score
    (analysis : value) (n : NormalizedAnalysis) :
  analyze (Parsed analysis) = Normalized n ->
  tier n = getTierFromScore StringToNumber ToPrimitive (VNum (mogScore n)) /\
  forall (fields : gmap string value) (suggestion : value),
    analysis = VObj fields ->
    analyze (Parsed (VObj (<["tier" := suggestion]> fields))) = Normalized n.
Proof.
  intros H. split.
  - apply analyze_Normalized in H as [H _].
    apply normalizedAnalysis_fields in H as (Hs & Ht & _).
    rewrite Hs, Ht, getTierFromScore_clamped.
    unfold getTierFromScore. apply scanTiers_ToNumber.
  - intros fields suggestion ->. rewrite <- H.
    unfold analyzePhysiqueWithAI, normalizedAnalysis.
    rewrite !get_insert_tier, !get_opt_insert_tier by discriminate. reflexivity.
Qed.

(** C10: when the provider reports a score of zero or leaves the score out,
    the accepted analysis carries score 50 and tier Normie. *)
Theorem C10_zero_or_missing_score_becomes_50_Normie
    (analysis : value) (n : NormalizedAnalysis) :
  analyze (Parsed analysis) = Normalized n ->
  (exists q, get analysis "mogScore" = Some (VNum (Fin q)) /\ (q == 0)%Q) \/
  get analysis "mogScore" = Some VUndefined ->
  mogScore n = Fin 50 /\ tier n = "Normie".
Proof.
  intros H Hraw.
  apply analyze_Normalized in H as [H Hget].
  apply normalizedAnalysis_fields in H as (Hs & Ht & _).
  rewrite Hs, Ht. rewrite Hget in Hraw.
  assert (Hor : JS.orElse (get_opt analysis "mogScore") (VNum (Fin 50)) = VNum (Fin 50)).
  { destruct Hraw as [(q & [= ->] & Hq)|[= ->]]; [|reflexivity].
    unfold JS.orElse. cbn [truthy].
    apply Qeq_bool_iff in Hq. now rewrite Hq. }
  rewrite Hor. split; reflexivity.
Qed.

(** C2 (as the code has it): of an accepted analysis only mogScore is
    clamped. It lies in [0,100] unless the provider's score (or the 50 that
    replaces a falsy one) does not convert to a number, in which case it is
    NaN. Every muscleBreakdown entry is the provider's own value, null when
    the provider gave null or nothing, and symmetry is the provider's own
    value, 70 when that is falsy; neither is clamped. *)
Theorem C2_only_mogScore_is_clamped
    (analysis : value) (n : NormalizedAnalysis) :
  analyze (Parsed analysis) = Normalized n ->
  (mogScore n = NaN /\
     toNumber (JS.orElse (get_opt analysis "mogScore") (VNum (Fin 50))) = NaN \/
   in_0_100 (mogScore n)) /\
  muscles (muscleBreakdown n) =
    map (fun k => coalesce (get_opt (get_opt analysis "muscleBreakdown") k) VNull)
      ["chest"; "shoulders"; "back"; "arms"; "legs"; "core"; "leanness"] /\
  symmetry n = JS.orElse (get_opt analysis "symmetry") (VNum (Fin 70)).
Proof.
  intros H.
  apply analyze_Normalized in H as [H _].
  apply normalizedAnalysis_fields in H as (Hs & _ & Hm & Hy).
  split; [|split; assumption].
  rewrite Hs. apply clamp_in_range.
Qed.

End NormalizerFacts.

Import Normalizer Examples.

Lemma C4_witness :
  exists n,
    analyzePhysiqueWithAI noStringToNumber noToPrimitive
      (Parsed overshooting_analysis) = Normalized n /\
    tier n = "Chad" /\
    tier n = getTierFromScore noStringToNumber noToPrimitive (VNum (mogScore n)).
Proof.
  eexists. split; [vm_compute; reflexivity|]. split; [reflexivity|].
  refine (proj1 (C4_tier_is_resolver_of_normalized_score
                   noStringToNumber noToPrimitive overshooting_analysis _ _)).
  vm_compute; reflexivity.
Defined.

Lemma C10_witness :
  exists n,
    analyzePhysiqueWithAI noStringToNumber noToPrimitive
      (Parsed zero_score_analysis) = Normalized n /\
    mogScore n = Fin 50 /\ tier n = "Normie".
Proof.
  eexists. split; [vm_compute; reflexivity|].
  apply (C10_zero_or_missing_score_becomes_50_Normie
           noStringToNumber noToPrimitive zero_score_analysis).
  - vm_compute; reflexivity.
  - left. exists 0%Q. split; [vm_compute; reflexivity | reflexivity].
Defined.

(** C2, as stated, fails: an accepted analysis with chest 150 and symmetry
    250 keeps both, in every runtime. *)
Lemma C2_counterexample :
  exists n,
    (forall S P, analyzePhysiqueWithAI S P (Parsed overshooting_analysis) = Normalized n) /\
    chest (muscleBreakdown n) = VNum (Fin 150) /\
    symmetry n = VNum (Fin 250) /\
    ~ numeric_in_0_100 (chest (muscleBreakdown n)) /\
    ~ numeric_in_0_100 (symmetry n).
Proof.
  eexists. split; [intros S P; vm_compute; reflexivity|].
  cbn. repeat split; try reflexivity; intros [_ H]; now apply H.
Qed.

Lemma C2_witness :
  exists n,
    analyzePhysiqueWithAI noStringToNumber noToPrimitive
      (Parsed overshooting_analysis) = Normalized n /\
    in_0_100 (mogScore n) /\
    symmetry n = VNum (Fin 250).
Proof.
  eexists. split; [vm_compute; reflexivity|].
  split; [cbn; split; discriminate|].
  refine (proj2 (proj2 (C2_only_mogScore_is_clamped
            noStringToNumber noToPrimitive overshooting_analysis _ _))).
  vm_compute; reflexivity.
Defined.

(** ** Identity Consistency Checker *)

Section IdentityFacts.

Import Identity.

(** No stored front image: the provider is not even asked. *)
Lemma identityGate_no_prior_image apiConfigured userId frontPhoto previousScan reply :
  previousScan = None \/
  (exists prev, previousScan = Some prev /\ truthy (frontPhotoUrl prev) = false) ->
  identityGate apiConfigured userId frontPhoto previousScan reply = Proceed.
Proof.
  unfold identityGate.
  intros [->|(prev & -> & Hp)]; destruct (truthy userId); try reflexivity.
  now rewrite Hp.
Qed.

(** No API key, a failed call or an unreadable reply: the check says same
    person and the submission proceeds. *)
Lemma verifyUserIdentity_fails_open apiConfigured newPhoto prevPhoto reply :
  apiConfigured = false \/ reply = CallThrows \/ reply = ReplyUnparsable ->
  isSamePerson (verifyUserIdentity apiConfigured newPhoto prevPhoto reply) = VBool true.
Proof.
  unfold verifyUserIdentity, compareWithProvider.
  intros [->|[->| ->]]; try reflexivity;
    destruct apiConfigured; cbn [negb]; try reflexivity;
    destruct (negb (truthy newPhoto) || negb (truthy prevPhoto)); try reflexivity;
    destruct (startsWith newPhoto), (startsWith prevPhoto); reflexivity.
Qed.

Lemma identityGate_fails_open apiConfigured userId frontPhoto previousScan reply :
  apiConfigured = false \/ reply = CallThrows \/ reply = ReplyUnparsable ->
  identityGate apiConfigured userId frontPhoto previousScan reply = Proceed.
Proof.
  intros H. unfold identityGate.
  destruct (truthy userId); [|reflexivity].
  destruct previousScan as [prev|]; [|reflexivity].
  destruct (truthy (frontPhotoUrl prev)); [|reflexivity].
  now rewrite (verifyUserIdentity_fails_open _ _ _ _ H).
Qed.

(** What a rejection does tell: the provider answered with a value whose
    [isSamePerson] is falsy, which an absent one is. *)
Lemma identityGate_rejects_on_falsy apiConfigured userId frontPhoto previousScan reply why conf :
  identityGate apiConfigured userId frontPhoto previousScan reply = DifferentUser why conf ->
  exists result same,
    reply = Reply result /\ get result "isSamePerson" = Some same /\ truthy same = false.
Proof.
  unfold identityGate.
  destruct (truthy userId); [|discriminate].
  destruct previousScan as [prev|]; [|discriminate].
  destruct (truthy (frontPhotoUrl prev)); [|discriminate].
  unfold verifyUserIdentity.
  destruct apiConfigured; cbn [negb]; [|discriminate].
  destruct (negb (truthy frontPhoto) || negb (truthy (frontPhotoUrl prev)));
    [discriminate|].
  unfold compareWithProvider.
  destruct (startsWith frontPhoto); cbn [mbind option_bind]; [|discriminate].
  destruct (startsWith (frontPhotoUrl prev)); cbn [mbind option_bind]; [|discriminate].
  destruct reply as [| |result]; try discriminate.
  destruct (get result "isSamePerson") as [same|] eqn:Es;
    cbn [mbind option_bind]; [|discriminate].
  destruct (get result "confidence"); cbn [mbind option_bind]; [|discriminate].
  destruct (get result "reason"); cbn [mbind option_bind isSamePerson]; [|discriminate].
  destruct (truthy same) eqn:Et; cbn [negb]; [discriminate|].
  intros _. now exists result, same.
Qed.

End IdentityFacts.

(** C8 (the code at the failing input): a user with a stored front image
    submits a new one, and the provider answers with a confidence and a
    reason but no isSamePerson. The provider gave no verdict that the subject
    differs, yet the submission is rejected as a different user. *)
Theorem C8_missing_verdict_is_rejected :
  ~ Identity.saysDifferent Examples.reply_without_verdict /\
  Identity.identityGate true (VStr "user-1") (VStr "data:image/jpeg;base64,BBBB")
    (Some Examples.stored_scan) Examples.reply_without_verdict
  = Identity.DifferentUser (VStr "Lighting differs") (VNum (Fin 40)).
Proof.
  split; [|vm_compute; reflexivity].
  intros (result & [= <-] & H). vm_compute in H. discriminate H.
Qed.

(** ** Plan Generator and the Exercise invariant *)

Section GeneratorFacts.

Import Plan.

Lemma repairSteps_length (steps : option (list Step.t)) :
  3 <= length (repairSteps steps).
Proof.
  unfold repairSteps. destruct steps as [l|]; [|cbn; lia].
  destruct (3 <=? length l)%nat eqn:E; [|cbn; lia].
  rewrite length_imap. now apply Nat.leb_le.
Qed.

Lemma formatExercise_ok (index exIndex : nat) (ex : Exercise.t) :
  exerciseOk (formatExercise index exIndex ex) = true.
Proof.
  unfold exerciseOk, formatExercise. cbn [Exercise.steps].
  apply Nat.leb_le, repairSteps_length.
Qed.

Lemma fallbackExercise_ok (index exIndex : nat) (ex : Exercise.t) :
  exerciseOk (fallbackExercise index exIndex ex) = true.
Proof. reflexivity. Qed.

(** A day all of whose exercises come out of a mapping that establishes the
    invariant satisfies it. *)
Lemma forallb_imap {A B} (p : B -> bool) (f : nat -> A -> B) (l : list A) :
  (forall i x, p (f i x) = true) -> forallb p (imap f l) = true.
Proof.
  intros Hp. apply forallb_forall. intros y Hy.
  apply list_elem_of_In, elem_of_lookup_imap in Hy as (i & x & -> & _).
  apply Hp.
Qed.

Lemma formatDay_ok (index : nat) (d : Day.t) :
  dayOk (formatDay index d) = true.
Proof.
  unfold dayOk, formatDay. cbn [Day.exercises from_option].
  apply forallb_imap, formatExercise_ok.
Qed.

Lemma fallbackDay_ok (index : nat) (d : Day.t) :
  dayOk (fallbackDay index d) = true.
Proof.
  unfold dayOk, fallbackDay. cbn [Day.exercises from_option].
  apply forallb_imap, fallbackExercise_ok.
Qed.

(** The repaired branch of the cold-start generator keeps the invariant. *)
Lemma generateAITrainingPlan_repaired (now : Z) (plan : RawPlan) (fallback : PlanReply) :
  exists generated,
    generateAITrainingPlan true now (PlanJson plan) fallback = Returns generated /\
    daysOk (days generated) = true.
Proof.
  eexists. split; [reflexivity|]. cbn [days]. apply forallb_imap, formatDay_ok.
Qed.

(** Both branches of the progressive generator keep it. *)
Lemma generateNextWeekPlan_ok (openai : bool) (first fallback : PlanReply)
    (nextWeek : list Day.t) :
  generateNextWeekPlan openai first fallback = Returns nextWeek ->
  daysOk nextWeek = true.
Proof.
  unfold generateNextWeekPlan.
  destruct openai; cbn [negb]; [|discriminate].
  destruct first; [destruct fallback; try discriminate ..|];
    intros [= <-]; apply forallb_imap; auto using formatDay_ok, fallbackDay_ok.
Qed.

End GeneratorFacts.

(** C6 (the code at the failing input): the first call of the cold-start
    generator fails and the call in its catch branch returns a day whose
    exercise has one step. The plan is returned with that exercise untouched,
    so it breaks the Exercise invariant. And a stored week whose exercises
    have two steps passes for complete in GET weekly and is served with its
    two-step exercises. *)
Theorem C6_fallback_plan_keeps_short_exercise :
  (exists generated,
     Plan.generateAITrainingPlan true 1700000000000 Plan.BadJson
       (Plan.PlanJson Examples.short_plan) = Plan.Returns generated /\
     Plan.days generated =
       [Examples.day_with 1 "today" [Examples.one_step_exercise]] /\
     Plan.daysOk (Plan.days generated) = false) /\
  (Server.isPlanComplete Examples.two_step_days = true /\
   Plan.stepCounts (Server.servedDays (Examples.week_of Examples.two_step_days)) =
     [[2]; [2]; [2]] /\
   Plan.daysOk (Server.servedDays (Examples.week_of Examples.two_step_days)) = false).
Proof.
  split.
  - eexists. split; [reflexivity|]. split; reflexivity.
  - repeat split; vm_compute; reflexivity.
Qed.

(** ** Plan State Machine *)

Section CompleteDayFacts.

Import Plan Server.

Variable env : Env.
Variable req : Request.

(** A day number the plan does not hold: both endpoints answer 404 and the
    store is what it was. *)
Lemma completeDay_unknown_day (db : Store) (plan : WorkoutPlan.t) :
  plans db !! userId req = Some plan ->
  findIndex (hasDay (dayNumber req)) (WorkoutPlan.weeklyPlan plan) = None ->
  run (completeDay env req) db = (db, NotFound "Day not found in plan") /\
  run (completeDayLegacy env req) db = (db, NotFound "Day not found in plan").
Proof.
  intros Hplan Hday. unfold completeDay, completeDayLegacy, completeFound.
  cbn [run id]. rewrite Hplan, Hday. split; reflexivity.
Qed.

Lemma run_saveUser uid paths (user : option User.t) (k : Prog) (db : Store) :
  run (saveUser uid paths user k) db =
  run k (match user with
         | Some u => withUsers (alter (paths u) uid) db
         | None => db
         end).
Proof. destruct user; reflexivity. Qed.

(** No new week: the days are still open, or the generator threw, or it
    returned no day. The store is left alone, but for the ghost log. *)
Lemma run_rollover_kept (plan : WorkoutPlan.t) points user (db : Store) :
  allDone plan = false \/
  generateNextWeekPlan (openai env) (nextFirst env) (nextFallback env) = Throws \/
  generateNextWeekPlan (openai env) (nextFirst env) (nextFallback env) = Returns [] ->
  run (rollover env req plan points user) db =
  ((if allDone plan
    then logGeneration (userId req) (orZ (WorkoutPlan.currentWeek plan) 1) db
    else db),
   summary req points user (allDone plan) false
     (orZ (WorkoutPlan.currentWeek plan) 1)).
Proof.
  unfold rollover. intros [H|[H|H]].
  - now rewrite H.
  - destruct (allDone plan); [|reflexivity]. cbn [run]. now rewrite H.
  - destruct (allDone plan); [|reflexivity]. cbn [run]. now rewrite H.
Qed.

(** Where the found day ends up right after the marking code. *)
Lemma findIndex_lookup {A} (p : A -> bool) (l : list A) (i : nat) :
  findIndex p l = Some i -> exists x, l !! i = Some x /\ p x = true.
Proof.
  revert i. induction l as [|y l IH]; intros i; cbn; [discriminate|].
  destruct (p y) eqn:Hy.
  - intros [= <-]. now exists y.
  - destruct (findIndex p l) as [j|]; [|discriminate].
    intros [= <-]. cbn. now apply IH.
Qed.



Lemma markedPlan_history (plan : WorkoutPlan.t) (i : nat) :
  WorkoutPlan.completedHistory (markedPlan (now env) req i plan) =
  Some (default [] (WorkoutPlan.completedHistory plan) ++
        [historyEntry (now env) (WorkoutPlan.currentWeek plan) (dayNumber req)
           (WorkoutPlan.weeklyPlan (markedPlan (now env) req i plan) !! i)
           (targetMuscles req)])%list.
Proof. reflexivity. Qed.

(** Everything a request for a day of the plan does to the store. *)
Lemma run_completeFound (db : Store) (plan : WorkoutPlan.t) (i : nat) :
  plans db !! userId req = Some plan ->
  findIndex (hasDay (dayNumber req)) (WorkoutPlan.weeklyPlan plan) = Some i ->
  let plan1 := markedPlan (now env) req i plan in
  let points := mogPoints (exerciseCount req) (WorkoutPlan.weeklyPlan plan1 !! i) in
  let next := generateNextWeekPlan (openai env) (nextFirst env) (nextFallback env) in
  exists db' s p',
    run (completeFound env req plan) db = (db', Completed s) /\
    dayCompleted s = dayNumber req /\
    plans db' !! userId req = Some p' /\
    WorkoutPlan.completedHistory p' = WorkoutPlan.completedHistory plan1 /\
    (newWeekGenerated s = false ->
       WorkoutPlan.weeklyPlan p' = WorkoutPlan.weeklyPlan plan1 /\
       WorkoutPlan.currentWeek p' = WorkoutPlan.currentWeek plan) /\
    (newWeekGenerated s = false <->
       allDone plan1 = false \/ next = Throws \/ next = Returns []) /\
    (newWeekGenerated s = true ->
       WorkoutPlan.currentWeek p' = (orZ (WorkoutPlan.currentWeek plan) 1 + 1)%Z /\
       next = Returns (WorkoutPlan.weeklyPlan p')) /\
    User.mogScore <$> users db' !! userId req =
      (fun u => Double.add (Double.orElse (User.mogScore u) Double.zero) points)
        <$> users db !! userId req /\
    regeneratingPlans db' = regeneratingPlans db /\
    generations db' =
      (generations db ++
       if allDone plan1
       then [(userId req, orZ (WorkoutPlan.currentWeek plan) 1)] else [])%list.
Proof.
  intros Hplan Hidx plan1 points next.
  unfold completeFound. rewrite Hidx. cbn [run id].
  fold plan1. fold points. rewrite run_saveUser.
  set (user := reward (now env) points <$> _).
  set (db2 := match user with Some _ => _ | None => _ end).
  assert (Hplans2 : plans db2 !! userId req = Some (saveProgress plan1 plan)).
  { subst db2. destruct user; cbn [plans withUsers withPlans];
      now rewrite lookup_alter_eq, Hplan. }
  assert (Husers2 : User.mogScore <$> users db2 !! userId req =
            (fun u => Double.add (Double.orElse (User.mogScore u) Double.zero) points)
        <$> users db !! userId req).
  { subst db2 user. cbn [users withPlans].
    destruct (users db !! userId req) as [u|] eqn:Hu; cbn [fmap option_fmap option_map].
    - cbn [users withUsers withPlans]. now rewrite lookup_alter_eq, Hu.
    - cbn [users withPlans]. now rewrite Hu. }
  assert (Hregen2 : regeneratingPlans db2 = regeneratingPlans db)
    by (subst db2; destruct user; reflexivity).
  assert (Hgens2 : generations db2 = generations db)
    by (subst db2; destruct user; reflexivity).
  clearbody db2.
  destruct (allDone plan1) eqn:Hall; cycle 1.
  { rewrite run_rollover_kept by (left; assumption). rewrite Hall.
    eexists _, _, _. split; [reflexivity|]. cbn [dayCompleted newWeekGenerated].
    repeat split; try eassumption; try reflexivity; try discriminate; auto.
    now rewrite Hgens2, app_nil_r. }
  destruct next as [|[|d ds]] eqn:Hnext; subst next.
  - rewrite run_rollover_kept by (right; left; assumption). rewrite Hall.
    eexists _, _, _. split; [reflexivity|]. cbn [dayCompleted newWeekGenerated].
    repeat split; try eassumption; try reflexivity; try discriminate; auto.
    cbn [generations logGeneration]. now rewrite Hgens2.
  - rewrite run_rollover_kept by (right; right; assumption). rewrite Hall.
    eexists _, _, _. split; [reflexivity|]. cbn [dayCompleted newWeekGenerated].
    repeat split; try eassumption; try reflexivity; try discriminate; auto.
    cbn [generations logGeneration]. now rewrite Hgens2.
  - unfold rollover. rewrite Hall. cbn [run]. rewrite Hnext. cbn [run].
    rewrite run_saveUser. cbn [run].
    eexists _, _, _. split; [reflexivity|]. cbn [dayCompleted newWeekGenerated].
    split; [reflexivity|]. split.
    { destruct user; cbn [fmap option_fmap option_map plans withUsers withPlans logGeneration];
        rewrite lookup_alter_eq; cbn [plans logGeneration]; rewrite Hplans2; reflexivity. }
    cbn [WorkoutPlan.completedHistory WorkoutPlan.weeklyPlan WorkoutPlan.currentWeek
         saveRollover saveProgress rolledPlan].
    split; [reflexivity|]. split; [discriminate|].
    split; [split; [discriminate|intros [H|[H|H]]; discriminate]|].
    split; [intros _; split; reflexivity|].
    split; [|split].
    + destruct user as [u|]; cbn [fmap option_fmap option_map users withUsers withPlans logGeneration];
        [|exact Husers2].
      rewrite lookup_alter_eq, <- Husers2.
      destruct (users db2 !! userId req); reflexivity.
    + destruct user; cbn; exact Hregen2.
    + destruct user; cbn [fmap option_fmap option_map generations withUsers withPlans logGeneration];
        now rewrite Hgens2.
Qed.

Lemma run_completeDay_found (db : Store) (plan : WorkoutPlan.t) :
  plans db !! userId req = Some plan ->
  run (completeDay env req) db = run (completeFound env req plan) db.
Proof. intros H. unfold completeDay. cbn [run id]. now rewrite H. Qed.


Lemma saveUnmarked_history (loaded local stored : WorkoutPlan.t) :
  WorkoutPlan.completedHistory loaded <> None ->
  saveUnmarked loaded local stored = stored.
Proof.
  intros H. unfold saveUnmarked.
  destruct (WorkoutPlan.completedHistory loaded); [reflexivity|congruence].
Qed.

(** A request for a day of the plan through the endpoint without the user id
    in its path, for a plan that has a history: the answer, and what is and
    what is not stored. *)
Lemma run_completeDayLegacy_found (db : Store) (plan : WorkoutPlan.t) (i : nat) :
  plans db !! userId req = Some plan ->
  findIndex (hasDay (dayNumber req)) (WorkoutPlan.weeklyPlan plan) = Some i ->
  WorkoutPlan.completedHistory plan <> None ->
  let plan1 := markedPlanLegacy (now env) req i plan in
  let points := mogPoints Double.zero (WorkoutPlan.weeklyPlan plan1 !! i) in
  exists db' s p',
    run (completeDayLegacy env req) db = (db', Completed s) /\
    dayCompleted s = dayNumber req /\
    mogPointsEarned s = points /\
    allDaysCompleted s = allDone plan1 /\
    plans db' !! userId req = Some p' /\
    WorkoutPlan.completedHistory p' = WorkoutPlan.completedHistory plan /\
    (allDone plan1 = false -> newWeekGenerated s = false) /\
    (newWeekGenerated s = false -> p' = plan) /\
    (forall other, other <> userId req -> plans db' !! other = plans db !! other) /\
    User.mogScore <$> users db' !! userId req =
      (fun u => Double.add (Double.orElse (User.mogScore u) Double.zero) points)
        <$> users db !! userId req /\
    newMogScore s = User.mogScore <$> users db' !! userId req.
Proof.
  intros Hplan Hidx Hhist plan1 points.
  unfold completeDayLegacy. cbn [run Datatypes.id]. rewrite Hplan, Hidx.
  cbn [run Datatypes.id users withPlans]. fold plan1. fold points.
  rewrite run_saveUser.
  set (user := reward (now env) points <$> _).
  set (db2 := match user with Some _ => _ | None => _ end).
  assert (Hplans2 : plans db2 = alter (saveUnmarked plan plan1) (userId req) (plans db))
    by (subst db2; destruct user; reflexivity).
  assert (Hsame : forall k, plans db2 !! k = plans db !! k).
  { intros k. rewrite Hplans2. destruct (decide (k = userId req)) as [->|Hk].
    - rewrite lookup_alter_eq, Hplan. cbn [fmap option_fmap option_map].
      now rewrite saveUnmarked_history.
    - now rewrite lookup_alter_ne by congruence. }
  assert (Husers2 : User.mogScore <$> users db2 !! userId req =
            (fun u => Double.add (Double.orElse (User.mogScore u) Double.zero) points)
              <$> users db !! userId req /\
            User.mogScore <$> user = User.mogScore <$> users db2 !! userId req).
  { subst db2 user.
    destruct (users db !! userId req) as [u|] eqn:Hu; cbn [fmap option_fmap option_map].
    - cbn [users withUsers withPlans]. rewrite lookup_alter_eq, Hu. split; reflexivity.
    - cbn [users withPlans]. rewrite Hu. split; reflexivity. }
  destruct Husers2 as [Hscore Hnew].
  clearbody db2. unfold rolloverLegacy.
  destruct (allDone plan1) eqn:Hall; cycle 1.
  { cbn [run]. eexists _, _, _. split; [reflexivity|].
    cbn [dayCompleted mogPointsEarned allDaysCompleted newWeekGenerated newMogScore summary].
    rewrite Hsame, Hplan.
    repeat split; try reflexivity; try assumption.
    intros other _. apply Hsame. }
  cbn [run].
  destruct (generateNextWeekPlan _ _ _) as [|nextWeek]; cbn [run].
  { eexists _, _, _. split; [reflexivity|].
    cbn [dayCompleted mogPointsEarned allDaysCompleted newWeekGenerated newMogScore summary
         plans users logGeneration].
    rewrite Hsame, Hplan.
    repeat split; try reflexivity; try assumption; try discriminate.
    intros other _. apply Hsame. }
  rewrite run_saveUser. cbn [run].
  eexists _, _, _. split; [reflexivity|].
  cbn [dayCompleted mogPointsEarned allDaysCompleted newWeekGenerated newMogScore summary].
  split; [reflexivity|]. split; [reflexivity|]. split; [reflexivity|].
  split.
  { destruct user; cbn [fmap option_fmap option_map plans withUsers withPlans logGeneration];
      rewrite lookup_alter_eq, Hsame, Hplan; reflexivity. }
  split; [reflexivity|]. split; [discriminate|]. split; [discriminate|].
  split; [|split].
  - intros other Hother.
    destruct user; cbn [fmap option_fmap option_map plans withUsers withPlans logGeneration];
      rewrite lookup_alter_ne by congruence; apply Hsame.
  - destruct user as [u|];
      cbn [fmap option_fmap option_map users withUsers withPlans logGeneration];
      [|exact Hscore].
    rewrite lookup_alter_eq, <- Hscore.
    destruct (users db2 !! userId req); reflexivity.
  - destruct user as [u|];
      cbn [fmap option_fmap option_map users withUsers withPlans logGeneration];
      [|exact Hnew].
    rewrite lookup_alter_eq. cbn [fmap option_fmap option_map] in Hnew.
    destruct (users db2 !! userId req) as [u2|]; [|discriminate].
    cbn [fmap option_fmap option_map] in Hnew |- *. exact Hnew.
Qed.


Lemma allDone_statuses (plan : WorkoutPlan.t) :
  allDone plan = true ->
  forallb (String.eqb "done") (map Day.status (WorkoutPlan.weeklyPlan plan)) = true.
Proof.
  unfold allDone. induction (WorkoutPlan.weeklyPlan plan) as [|x l IH];
    [reflexivity|].
  cbn [forallb map]. rewrite String.eqb_sym.
  destruct (String.eqb "done" (Day.status x)); [exact IH|discriminate].
Qed.

(** Generation that throws or lists no day, in the endpoint with the user id
    in its path: the week stays as marked, every day done, and the week
    number stays. *)
Lemma completeDay_failed_generation_keeps_week (db : Store) (plan : WorkoutPlan.t) (i : nat) :
  plans db !! userId req = Some plan ->
  findIndex (hasDay (dayNumber req)) (WorkoutPlan.weeklyPlan plan) = Some i ->
  allDone (markedPlan (now env) req i plan) = true ->
  generateNextWeekPlan (openai env) (nextFirst env) (nextFallback env) = Throws \/
  generateNextWeekPlan (openai env) (nextFirst env) (nextFallback env) = Returns [] ->
  exists db' s,
    run (completeDay env req) db = (db', Completed s) /\
    newWeekGenerated s = false /\
    storedWeek db' (userId req) = Some (WorkoutPlan.currentWeek plan) /\
    storedDays db' (userId req) =
      Some (WorkoutPlan.weeklyPlan (markedPlan (now env) req i plan)) /\
    forallb (String.eqb "done") (default [] (storedStatuses db' (userId req))) = true.
Proof.
  intros Hplan Hidx Hall Hgen.
  destruct (run_completeFound db plan i Hplan Hidx)
    as (db' & s & p' & Hrun & _ & Hp' & _ & Hkept & Hiff & _).
  assert (Hs : newWeekGenerated s = false) by (apply Hiff; tauto).
  destruct (Hkept Hs) as [Hdays Hweek].
  exists db', s. rewrite (run_completeDay_found db plan Hplan).
  unfold storedWeek, storedStatuses, storedDays. rewrite Hp'.
  cbn [fmap option_fmap option_map from_option]. rewrite Hdays, Hweek.
  repeat split; try assumption.
  now apply allDone_statuses.
Qed.

(** The handler never reads or writes the regeneration markers. *)
Lemma completeDay_leaves_markers (db : Store) (plan : WorkoutPlan.t) (i : nat) :
  plans db !! userId req = Some plan ->
  findIndex (hasDay (dayNumber req)) (WorkoutPlan.weeklyPlan plan) = Some i ->
  regeneratingPlans (fst (run (completeDay env req) db)) = regeneratingPlans db.
Proof.
  intros Hplan Hidx.
  destruct (run_completeFound db plan i Hplan Hidx)
    as (db' & s & p' & Hrun & _ & _ & _ & _ & _ & _ & _ & Hregen & _).
  now rewrite (run_completeDay_found db plan Hplan), Hrun.
Qed.

End CompleteDayFacts.

Import Plan Server Examples.



(** C7 (the code at the failing input): the last open day is completed and
    the generator returns a well-formed answer that lists no day. The
    endpoint with the user id in its path keeps the week (every day done,
    week 1); the legacy endpoint takes the empty array for a new week, moves
    to week 2 and replaces the days by none. *)
Theorem C7_legacy_rollover_accepts_an_empty_week :
  storedStatuses last_day "u1" = Some ["done"; "today"] /\
  storedWeek last_day "u1" = Some 1%Z /\
  generateNextWeekPlan true (PlanJson no_days) CallFails = Returns [] /\
  (newWeekGenerated <$> completed (snd empty_week) = Some false /\
   storedWeek (fst empty_week) "u1" = Some 1%Z /\
   storedStatuses (fst empty_week) "u1" = Some ["done"; "done"]) /\
  (newWeekGenerated <$> completed (snd empty_week_legacy) = Some true /\
   storedWeek (fst empty_week_legacy) "u1" = Some 2%Z /\
   storedDays (fst empty_week_legacy) "u1" = Some []).
Proof. repeat split; vm_compute; reflexivity. Qed.

(** C3 (the code at the failing input): the last day is completed while the
    user's regeneration marker is live (the weekly endpoint would answer
    "regenerating"). The generator is called all the same, the week rolls
    over, and the marker is neither consulted nor touched. *)
Theorem C3_rollover_runs_outside_the_guard :
  passGuard clock "u1" (regeneratingPlans last_day_guarded) = None /\
  newWeekGenerated <$> completed (snd guarded_rollover) = Some true /\
  generations (fst guarded_rollover) = [("u1", 1%Z)] /\
  storedWeek (fst guarded_rollover) "u1" = Some 2%Z /\
  regeneratingPlans (fst guarded_rollover) = regeneratingPlans last_day_guarded.
Proof. repeat split; vm_compute; reflexivity. Qed.

(** ** Background Asset Queue *)

Section QueueFacts.

Import Assets.

Variable apiKey : bool.
Variable provider : nat -> Outcome.


Lemma spaced_per_exercise (gap : Z) (log : list Call) :
  spaced gap log -> spacedPerExercise gap log.
Proof. intros H i j c1 c2 Hij H1 H2 _. exact (H i j c1 c2 Hij H1 H2). Qed.








End QueueFacts.

Import Assets.



(** ** More on the Background Asset Queue *)

Section QueueMore.

Import Assets AssetsAdmin.

Variable apiKey : bool.
Variable provider : nat -> Outcome.

(** What the loop over the phases does to the state and what it returns. *)
Lemma generatePhases_spec (name exId : string) (todo : list string) :
  forall (i : nat) (images : list Image) (st : State),
    let r := generatePhases provider name exId i todo images st in
    aiImageCache (fst r) = aiImageCache st /\
    backgroundImageQueue (fst r) = backgroundImageQueue st /\
    isProcessingBackgroundQueue (fst r) = isProcessingBackgroundQueue st /\
    length (calls (fst r)) <= length (calls st) + length todo /\
    forall imgs, snd r = Some imgs ->
      exists new, imgs = (images ++ new)%list /\
        map phase new = todo /\
        map Assets.id new = phaseIds exId i (length todo) /\
        length (calls (fst r)) = length (calls st) + length todo.
Proof.
  induction todo as [|phaseId rest IH]; intros i images st; cbn zeta.
  - cbn [generatePhases fst snd length]. repeat split; try lia.
    intros imgs [= <-]. exists []. rewrite app_nil_r. repeat split; lia.
  - cbn [generatePhases]. unfold providerCall.
    destruct (provider (length (calls st))) as [l u|l|l];
      cbn [fst snd aiImageCache backgroundImageQueue isProcessingBackgroundQueue calls length];
      try (repeat split; try rewrite length_app; cbn [length]; try lia; discriminate).
    match goal with
    | |- context [generatePhases provider name exId (S i) rest ?im ?s] =>
        specialize (IH (S i) im s); cbn zeta in IH;
        destruct (generatePhases provider name exId (S i) rest im s) as [st' r] eqn:E
    end.
    cbn [fst snd] in IH |- *.
    destruct IH as (Hc & Hq & Hp & Hn & Hi).
    assert (Hlog : forall s0, calls (if (i <? length phases - 1)%nat then wait 20000 s0 else s0) = calls s0)
      by (intros s0; destruct (i <? length phases - 1)%nat; reflexivity).
    rewrite Hlog in Hn. cbn [calls] in Hn. rewrite length_app in Hn. cbn [length] in Hn.
    repeat split.
    + rewrite Hc. destruct (i <? length phases - 1)%nat; reflexivity.
    + rewrite Hq. destruct (i <? length phases - 1)%nat; reflexivity.
    + rewrite Hp. destruct (i <? length phases - 1)%nat; reflexivity.
    + lia.
    + intros imgs Himgs. destruct (Hi imgs Himgs) as (new & -> & Hph & Hid & Hlen).
      eexists (_ :: new). rewrite <- app_assoc. split; [reflexivity|].
      cbn [map phase Assets.id]. rewrite Hph, Hid.
      rewrite Hlog in Hlen. cbn [calls] in Hlen. rewrite length_app in Hlen.
      cbn [length] in Hlen. repeat split; lia.
Qed.

(** Generating the images of one exercise is all or nothing. It never
    touches the queue and makes at most three provider calls. When it returns
    nothing the cache is what it was. When it returns images they are the
    cache entry of the exercise; and if the exercise was not cached before,
    the entry is new, made of exactly three images for the phases start,
    middle and end, in that order, after exactly three calls. *)
Lemma generateAIImagesForExercise_spec
    (exerciseName exerciseId : string) (st : State) :
  let r := generateAIImagesForExercise apiKey provider exerciseName exerciseId st in
  backgroundImageQueue (fst r) = backgroundImageQueue st /\
  length (calls (fst r)) <= length (calls st) + 3 /\
  match snd r with
  | None => aiImageCache (fst r) = aiImageCache st
  | Some images =>
      aiImageCache (fst r) !! cacheKey exerciseName = Some images /\
      (aiImageCache st !! cacheKey exerciseName = None ->
       aiImageCache (fst r) = <[cacheKey exerciseName := images]> (aiImageCache st) /\
       map phase images = ["start"; "middle"; "end"] /\
       map Assets.id images = phaseIds exerciseId 0 3 /\
       length (calls (fst r)) = length (calls st) + 3)
  end.
Proof.
  cbn zeta. unfold generateAIImagesForExercise.
  destruct (negb apiKey); [cbn; repeat split; lia|].
  destruct (aiImageCache st !! cacheKey exerciseName) as [cached|] eqn:Hhit.
  { cbn [fst snd]. repeat split; try lia; try assumption; discriminate. }
  pose proof (generatePhases_spec exerciseName exerciseId phases 0 [] st) as H.
  cbn zeta in H.
  destruct (generatePhases provider exerciseName exerciseId 0 phases [] st)
    as [st' [images|]]; cbn [fst snd length phases] in H |- *;
    destruct H as (Hc & Hq & _ & Hn & Hi); [|repeat split; assumption || lia].
  destruct (Hi images eq_refl) as (new & -> & Hph & Hid & Hlen).
  cbn [app] in *.
  assert (Hthree : length new = 3) by (rewrite <- (length_map phase), Hph; reflexivity).
  rewrite Hthree. cbn [Nat.eqb fst snd aiImageCache backgroundImageQueue calls cacheSet].
  rewrite Hc. repeat split; try assumption; try lia.
  apply lookup_insert_eq.
Qed.

(** X1: generating the images of one exercise is all or nothing. It never
    touches the queue and makes at most three provider calls. When it returns
    nothing the cache is what it was. When it returns images they are the
    cache entry of the exercise; and if the exercise was not cached before,
    the entry is new, made of exactly three images for the phases start,
    middle and end, in that order, after exactly three calls. *)
Theorem generateAIImagesForExercise_all_or_nothing
    (exerciseName exerciseId : string) (st : State) :
  let r := generateAIImagesForExercise apiKey provider exerciseName exerciseId st in
  backgroundImageQueue (fst r) = backgroundImageQueue st /\
  length (calls (fst r)) <= length (calls st) + 3 /\
  match snd r with
  | None => aiImageCache (fst r) = aiImageCache st
  | Some images =>
      aiImageCache (fst r) !! cacheKey exerciseName = Some images /\
      (aiImageCache st !! cacheKey exerciseName = None ->
       aiImageCache (fst r) = <[cacheKey exerciseName := images]> (aiImageCache st) /\
       map phase images = ["start"; "middle"; "end"] /\
       map Assets.id images = phaseIds exerciseId 0 3 /\
       length (calls (fst r)) = length (calls st) + 3)
  end.
Proof. exact (generateAIImagesForExercise_spec exerciseName exerciseId st). Qed.

(** The cache only ever grows, and an entry that is there stays as it is. *)
Lemma generateAIImagesForExercise_keeps (name exId : string) (st : State)
    (k : string) (imgs : list Image) :
  aiImageCache st !! k = Some imgs ->
  aiImageCache (fst (generateAIImagesForExercise apiKey provider name exId st)) !! k
    = Some imgs.
Proof.
  intros Hk.
  pose proof (generateAIImagesForExercise_spec name exId st) as H.
  cbn zeta in H. destruct H as (_ & _ & H).
  destruct (snd (generateAIImagesForExercise apiKey provider name exId st)) as [images|].
  - destruct H as [Hnew Hfresh].
    destruct (aiImageCache st !! cacheKey name) as [old|] eqn:Hold.
    + unfold generateAIImagesForExercise in *.
      destruct (negb apiKey); [assumption|]. now rewrite Hold.
    + destruct (Hfresh eq_refl) as (-> & _).
      rewrite lookup_insert_ne; [assumption|]. intros <-. congruence.
  - now rewrite H.
Qed.

Lemma drain_keeps (queue : list (string * string)) :
  forall (st : State) (k : string) (imgs : list Image),
    aiImageCache st !! k = Some imgs ->
    aiImageCache (drain apiKey provider queue st) !! k = Some imgs.
Proof.
  induction queue as [|[name exId] rest IH]; intros st k imgs Hk; [assumption|].
  cbn [drain].
  destruct (aiImageCache (setQueue rest st) !! cacheKey name); [now apply IH|].
  apply IH.
  assert (H : aiImageCache
                (fst (generateAIImagesForExercise apiKey provider name exId (setQueue rest st)))
              !! k = Some imgs) by now apply generateAIImagesForExercise_keeps.
  destruct rest; assumption.
Qed.

(** X2: the asset cache is write-once. An entry that is in the cache is still
    there, unchanged, after a request for any exercise and the queue run that
    request starts. *)
Theorem cache_entry_is_write_once
    (exerciseName exerciseId : string) (st : State) (k : string) (imgs : list Image) :
  aiImageCache st !! k = Some imgs ->
  aiImageCache (fst (generateExerciseImage apiKey provider exerciseName exerciseId st)) !! k
    = Some imgs.
Proof.
  intros Hk. unfold generateExerciseImage.
  destruct (String.eqb exerciseName ""); [assumption|].
  destruct (aiImageCache st !! cacheKey exerciseName); [assumption|].
  destruct (apiKey && negb _); [|assumption].
  cbn [fst]. unfold processBackgroundQueue.
  cbn [isProcessingBackgroundQueue backgroundImageQueue setQueue].
  destruct (isProcessingBackgroundQueue st); [assumption|].
  destruct (backgroundImageQueue st ++ [(exerciseName, exerciseId)])%list eqn:E;
    [assumption|].
  cbn [aiImageCache setProcessing]. now apply drain_keeps.
Qed.

Lemma drain_queue_flag (queue : list (string * string)) :
  forall st : State,
    isProcessingBackgroundQueue (drain apiKey provider queue st)
      = isProcessingBackgroundQueue st /\
    (queue <> [] -> backgroundImageQueue (drain apiKey provider queue st) = []).
Proof.
  induction queue as [|[name exId] rest IH]; intros st; [split; [reflexivity|congruence]|].
  cbn [drain].
  assert (Hgen : forall s,
    isProcessingBackgroundQueue (fst (generateAIImagesForExercise apiKey provider name exId s))
      = isProcessingBackgroundQueue s /\
    backgroundImageQueue (fst (generateAIImagesForExercise apiKey provider name exId s))
      = backgroundImageQueue s).
  { intros s. unfold generateAIImagesForExercise.
    destruct (negb apiKey); [now split|].
    destruct (aiImageCache s !! cacheKey name); [now split|].
    pose proof (generatePhases_spec name exId phases 0 [] s) as H. cbn zeta in H.
    destruct (generatePhases provider name exId 0 phases [] s) as [s' [images|]];
      cbn [fst] in *; destruct H as (_ & Hq & Hp & _); [|now split].
    destruct (length images =? 3)%nat; now split. }
  destruct (aiImageCache (setQueue rest st) !! cacheKey name).
  - destruct (IH (setQueue rest st)) as [Hflag Hq]. split; [exact Hflag|].
    intros _. destruct rest; [reflexivity|]. now apply Hq.
  - destruct (Hgen (setQueue rest st)) as [Hflag1 Hq1].
    destruct rest as [|next rest'].
    + cbn [drain]. split; [exact Hflag1|]. intros _. exact Hq1.
    + match goal with |- context [drain _ _ _ ?s] => destruct (IH s) as [Hflag Hq] end.
      split; [now rewrite Hflag|]. intros _. now apply Hq.
Qed.

(** The queue consumer is not re-entrant and runs the queue dry. While a
    run is in progress a second call does nothing; otherwise the call leaves
    the queue empty and the in-progress flag down. *)
Lemma processBackgroundQueue_spec (st : State) :
  (isProcessingBackgroundQueue st = true ->
   processBackgroundQueue apiKey provider st = st) /\
  (isProcessingBackgroundQueue st = false ->
   backgroundImageQueue (processBackgroundQueue apiKey provider st) = [] /\
   isProcessingBackgroundQueue (processBackgroundQueue apiKey provider st) = false).
Proof.
  unfold processBackgroundQueue. split; intros Hp; rewrite Hp; [reflexivity|].
  destruct (backgroundImageQueue st) as [|q queue] eqn:Hq; [now split|].
  cbn [backgroundImageQueue isProcessingBackgroundQueue setProcessing].
  split; [|reflexivity].
  now apply drain_queue_flag.
Qed.

(** X3: the queue consumer is not re-entrant and runs the queue dry. While a
    run is in progress a second call does nothing; otherwise the call leaves
    the queue empty and the in-progress flag down. *)
Theorem processBackgroundQueue_runs_dry (st : State) :
  (isProcessingBackgroundQueue st = true ->
   processBackgroundQueue apiKey provider st = st) /\
  (isProcessingBackgroundQueue st = false ->
   backgroundImageQueue (processBackgroundQueue apiKey provider st) = [] /\
   isProcessingBackgroundQueue (processBackgroundQueue apiKey provider st) = false).
Proof. exact (processBackgroundQueue_spec st). Qed.

Lemma existsb_queued (key : string) (queue : list (string * string)) :
  existsb (fun q => String.eqb (cacheKey (fst q)) key) queue = false ->
  key ∉ map (fun q => cacheKey (fst q)) queue.
Proof.
  induction queue as [|q queue IH]; cbn [existsb map]; [intros _; apply not_elem_of_nil|].
  intros H. apply orb_false_iff in H as [Hq Hrest].
  apply not_elem_of_cons. split; [|now apply IH].
  apply String.eqb_neq in Hq. congruence.
Qed.

(** X4: the queue never holds the same exercise twice. If no two entries of
    the queue share a normalised name, none do after a request, whatever the
    request and whether or not a run is in progress. *)
Theorem queue_has_no_duplicate_names
    (exerciseName exerciseId : string) (st : State) :
  NoDup (queuedKeys st) ->
  NoDup (queuedKeys (fst (generateExerciseImage apiKey provider exerciseName exerciseId st))).
Proof.
  intros Hnd. unfold generateExerciseImage.
  destruct (String.eqb exerciseName ""); [assumption|].
  destruct (aiImageCache st !! cacheKey exerciseName); [assumption|].
  destruct (existsb _ (backgroundImageQueue st)) eqn:Hq;
    [rewrite andb_false_r; assumption|].
  cbn [negb]. rewrite andb_true_r.
  destruct apiKey eqn:Hkey; [|assumption]. rewrite <- Hkey. cbn [fst].
  set (st1 := setQueue (backgroundImageQueue st ++ [(exerciseName, exerciseId)])%list st).
  destruct (processBackgroundQueue_spec st1) as [Hbusy Hidle].
  destruct (isProcessingBackgroundQueue st) eqn:Hp.
  - rewrite (Hbusy Hp).
    unfold queuedKeys, st1. cbn [backgroundImageQueue setQueue].
    rewrite map_app. cbn [map fst]. apply NoDup_app. split; [exact Hnd|].
    split; [|apply NoDup_singleton].
    intros k Hk Hk'. apply list_elem_of_singleton in Hk' as ->.
    now apply (existsb_queued _ _ Hq).
  - unfold queuedKeys. rewrite (proj1 (Hidle Hp)). apply NoDup_nil_2.
Qed.

Lemma backgroundPhases_spec (exId name : string) (todo : list string) :
  forall (i : nat) (images : list Image) (st : State),
    let r := backgroundPhases provider exId name i todo images st in
    aiImageCache (fst r) = aiImageCache st /\
    backgroundImageQueue (fst r) = backgroundImageQueue st /\
    length (calls (fst r)) = length (calls st) + length todo /\
    length (snd r) <= length images + length todo.
Proof.
  induction todo as [|phaseId rest IH]; intros i images st; cbn zeta.
  - cbn [backgroundPhases fst snd length]. repeat split; lia.
  - cbn [backgroundPhases]. unfold providerCall.
    destruct (provider (length (calls st))) as [l u|l|l];
      match goal with
      | |- context [backgroundPhases provider exId name (S i) rest ?im ?s] =>
          specialize (IH (S i) im s); cbn zeta in IH;
          destruct (backgroundPhases provider exId name (S i) rest im s) as [st' r]
      end;
      cbn [fst snd length] in IH |- *; destruct IH as (Hc & Hq & Hn & Hl);
      try (destruct (i <? length phases - 1)%nat;
           cbn [wait setClock aiImageCache backgroundImageQueue calls] in * );
      cbn [aiImageCache backgroundImageQueue calls] in *;
      rewrite ?length_app in *; cbn [length] in *; repeat split; try assumption; lia.
Qed.

(** X6: the start-up job's image generator never writes the asset cache. With
    an API key it calls the provider exactly three times, whatever the
    provider answers, and returns at most three images; the cache and the
    queue are left as they were. *)
Theorem generateExerciseImagesForBackground_never_caches
    (exerciseId exerciseName : string) (st : State) :
  let r := generateExerciseImagesForBackground apiKey provider exerciseId exerciseName st in
  aiImageCache (fst r) = aiImageCache st /\
  backgroundImageQueue (fst r) = backgroundImageQueue st /\
  (if apiKey
   then length (calls (fst r)) = length (calls st) + 3 /\
        exists images, snd r = Some images /\ length images <= 3
   else fst r = st /\ snd r = None).
Proof.
  cbn zeta. unfold generateExerciseImagesForBackground.
  destruct apiKey; cbn [negb]; [|repeat split; reflexivity].
  pose proof (backgroundPhases_spec exerciseId exerciseName phases 0 [] st) as H.
  cbn zeta in H.
  destruct (backgroundPhases provider exerciseId exerciseName 0 phases [] st) as [st' images].
  cbn [fst snd length phases] in *. destruct H as (Hc & Hq & Hn & Hl).
  repeat split; try assumption. exists images. split; [reflexivity|lia].
Qed.

End QueueMore.

(** ** The keys of the asset cache *)

Section CacheKeys.

Import Assets.

Lemma append_cons (a : ascii) (s1 s2 : string) :
  String a s1 +:+ s2 = String a (s1 +:+ s2).
Proof. reflexivity. Qed.

Lemma append_assoc (s1 s2 s3 : string) : (s1 +:+ s2) +:+ s3 = s1 +:+ (s2 +:+ s3).
Proof.
  induction s1 as [|a s1 IH]; [reflexivity|]. rewrite !append_cons. now f_equal.
Qed.

Lemma append_empty_r (s : string) : s +:+ "" = s.
Proof.
  induction s as [|a s IH]; [reflexivity|]. rewrite append_cons. now f_equal.
Qed.

Lemma rev_app_append (s1 s2 : string) : String.rev_app s1 s2 = String.rev s1 +:+ s2.
Proof.
  revert s2. induction s1 as [|a s1 IH]; intros s2; [reflexivity|].
  unfold String.rev. cbn [String.rev_app].
  rewrite (IH (String a s2)), (IH (String a "")), append_assoc. reflexivity.
Qed.

Lemma rev_cons (a : ascii) (s : string) :
  String.rev (String a s) = String.rev s +:+ String a "".
Proof. unfold String.rev at 1. cbn [String.rev_app]. apply rev_app_append. Qed.

Lemma rev_append (s1 s2 : string) :
  String.rev (s1 +:+ s2) = String.rev s2 +:+ String.rev s1.
Proof.
  induction s1 as [|a s1 IH].
  - change ("" +:+ s2) with s2. now rewrite append_empty_r.
  - now rewrite append_cons, !rev_cons, IH, append_assoc.
Qed.

Lemma rev_involutive (s : string) : String.rev (String.rev s) = s.
Proof.
  induction s as [|a s IH]; [reflexivity|].
  now rewrite rev_cons, rev_append, IH.
Qed.

Lemma lowerAscii_idem (c : ascii) : lowerAscii (lowerAscii c) = lowerAscii c.
Proof. destruct c as [[] [] [] [] [] [] [] []]; reflexivity. Qed.

Lemma is_space_lowerAscii (c : ascii) : Ascii.is_space (lowerAscii c) = Ascii.is_space c.
Proof. destruct c as [[] [] [] [] [] [] [] []]; reflexivity. Qed.

Lemma toLowerCase_idem (s : string) : toLowerCase (toLowerCase s) = toLowerCase s.
Proof.
  induction s as [|a s IH]; cbn; [reflexivity|now rewrite IH, lowerAscii_idem].
Qed.

Lemma toLowerCase_append (s1 s2 : string) :
  toLowerCase (s1 +:+ s2) = toLowerCase s1 +:+ toLowerCase s2.
Proof.
  induction s1 as [|a s1 IH]; [reflexivity|].
  rewrite append_cons. cbn [toLowerCase]. rewrite append_cons. now f_equal.
Qed.

Lemma toLowerCase_rev (s : string) :
  toLowerCase (String.rev s) = String.rev (toLowerCase s).
Proof.
  induction s as [|a s IH]; [reflexivity|].
  cbn [toLowerCase]. now rewrite !rev_cons, toLowerCase_append, IH.
Qed.

Lemma toLowerCase_trimStart (s : string) :
  toLowerCase (trimStart s) = trimStart (toLowerCase s).
Proof.
  induction s as [|a s IH]; [reflexivity|].
  cbn [trimStart toLowerCase]. rewrite is_space_lowerAscii.
  destruct (Ascii.is_space a); [exact IH|reflexivity].
Qed.

Lemma toLowerCase_trim (s : string) : toLowerCase (trim s) = trim (toLowerCase s).
Proof.
  unfold trim.
  now rewrite toLowerCase_rev, toLowerCase_trimStart, toLowerCase_rev,
    toLowerCase_trimStart.
Qed.

Lemma trimStart_idem (s : string) : trimStart (trimStart s) = trimStart s.
Proof.
  induction s as [|a s IH]; [reflexivity|].
  cbn [trimStart]. destruct (Ascii.is_space a) eqn:Ha; [exact IH|].
  cbn [trimStart]. now rewrite Ha.
Qed.

(** [trimStart] on a concatenation. *)
Lemma trimStart_append (s1 s2 : string) :
  trimStart (s1 +:+ s2) =
  match trimStart s1 with
  | EmptyString => trimStart s2
  | String _ _ => trimStart s1 +:+ s2
  end.
Proof.
  induction s1 as [|a s1 IH]; [reflexivity|].
  rewrite append_cons. cbn [trimStart].
  destruct (Ascii.is_space a); [exact IH|reflexivity].
Qed.

(** A string with no white space at its head keeps that after its tail has
    been trimmed. *)
Lemma trimStart_trimEnd (s : string) :
  trimStart s = s ->
  trimStart (String.rev (trimStart (String.rev s))) =
    String.rev (trimStart (String.rev s)).
Proof.
  destruct s as [|a s]; [reflexivity|].
  cbn [trimStart]. destruct (Ascii.is_space a) eqn:Ha.
  { intros H. exfalso.
    pose proof (f_equal String.length H) as Hl. cbn [String.length] in Hl.
    assert (Hle : forall t, String.length (trimStart t) <= String.length t).
    { induction t as [|b t IHt]; cbn [trimStart String.length]; [lia|].
      destruct (Ascii.is_space b); cbn [String.length]; lia. }
    specialize (Hle s). lia. }
  intros _. rewrite rev_cons, trimStart_append.
  destruct (trimStart (String.rev s)) as [|b t] eqn:Ht.
  - cbn [trimStart]. rewrite Ha.
    change (String.rev (String a "")) with (String a ""). cbn [trimStart].
    now rewrite Ha.
  - rewrite rev_append.
    change (String.rev (String a "") +:+ String.rev (String b t))
      with (String a (String.rev (String b t))).
    cbn [trimStart]. now rewrite Ha.
Qed.

Lemma trim_idem (s : string) : trim (trim s) = trim s.
Proof.
  unfold trim.
  rewrite (trimStart_trimEnd (trimStart s) (trimStart_idem s)).
  now rewrite rev_involutive, trimStart_idem.
Qed.

Lemma trim_space_r (s : string) : trim (s +:+ " ") = trim s.
Proof.
  unfold trim. rewrite trimStart_append.
  destruct (trimStart s) as [|a t] eqn:Hs; [reflexivity|].
  now rewrite rev_append.
Qed.

(** X7: the cache key of an exercise name is a normal form. Taking the key of
    a key changes nothing, and a name with a space added in front or behind,
    or given in lower case, has the key of the name. *)
Theorem cacheKey_is_a_normal_form (exerciseName : string) :
  cacheKey (cacheKey exerciseName) = cacheKey exerciseName /\
  cacheKey (" " +:+ exerciseName) = cacheKey exerciseName /\
  cacheKey (exerciseName +:+ " ") = cacheKey exerciseName /\
  cacheKey (toLowerCase exerciseName) = cacheKey exerciseName.
Proof.
  unfold cacheKey. split; [|split; [reflexivity|split]].
  - now rewrite toLowerCase_trim, toLowerCase_idem, trim_idem.
  - rewrite toLowerCase_append. change (toLowerCase " ") with " ".
    apply trim_space_r.
  - now rewrite toLowerCase_idem.
Qed.

End CacheKeys.

Section Refill.

Import Assets AssetsAdmin.

Variable provider : nat -> Outcome.
Hypothesis answers : alwaysAnswers provider.

Lemma generatePhases_succeeds (name exId : string) (todo : list string) :
  forall (i : nat) (images : list Image) (st : State),
    exists imgs, snd (generatePhases provider name exId i todo images st) = Some imgs.
Proof.
  induction todo as [|phaseId rest IH]; intros i images st.
  - now exists images.
  - cbn [generatePhases]. unfold providerCall.
    destruct (answers (length (calls st))) as (latency & u & ->). apply IH.
Qed.

Lemma generateAIImagesForExercise_succeeds (name exId : string) (st : State) :
  aiImageCache st !! cacheKey name = None ->
  exists images,
    snd (generateAIImagesForExercise true provider name exId st) = Some images /\
    aiImageCache (fst (generateAIImagesForExercise true provider name exId st))
      = <[cacheKey name := images]> (aiImageCache st) /\
    backgroundImageQueue (fst (generateAIImagesForExercise true provider name exId st))
      = backgroundImageQueue st /\
    map phase images = ["start"; "middle"; "end"].
Proof.
  intros Hmiss.
  pose proof (generateAIImagesForExercise_spec true provider name exId st) as Hspec.
  cbn zeta in Hspec. destruct Hspec as (Hq & _ & Hres).
  assert (Hsome : exists images,
            snd (generateAIImagesForExercise true provider name exId st) = Some images).
  { unfold generateAIImagesForExercise. cbn [negb]. rewrite Hmiss.
    pose proof (generatePhases_spec provider name exId phases 0 [] st) as H.
    cbn zeta in H. destruct H as (_ & _ & _ & _ & Hi).
    destruct (generatePhases_succeeds name exId phases 0 [] st) as [imgs Himgs].
    destruct (generatePhases provider name exId 0 phases [] st) as [st' o].
    cbn [snd] in *. subst o.
    destruct (Hi imgs eq_refl) as (new & -> & Hph & _).
    assert (Hthree : length new = 3)
      by (rewrite <- (length_map phase), Hph; reflexivity).
    cbn [app]. rewrite Hthree. now exists new. }
  destruct Hsome as [images Himages]. exists images. rewrite Himages in Hres.
  destruct Hres as [_ Hfresh]. destruct (Hfresh Hmiss) as (Hcache & Hph & _).
  repeat split; assumption.
Qed.

(** X5: clearing the image cache and filling it again. After the cache has
    been cleared, the next request for a named exercise is answered with
    stock images whatever was cached before; when the API key is set, no run
    is in progress and the provider answers every call, that request leaves
    the exercise as the only cache entry, with one image for each of the
    phases start, middle and end, the queue is empty again, and a second
    request for the exercise is answered from the cache. *)
Theorem cleared_cache_is_refilled (exerciseName exerciseId : string) (st : State) :
  String.eqb exerciseName "" = false ->
  isProcessingBackgroundQueue st = false ->
  let first :=
    generateExerciseImage true provider exerciseName exerciseId
      (fst (clearImageCache st)) in
  snd first = Stock /\
  exists images,
    aiImageCache (fst first) = {[ cacheKey exerciseName := images ]} /\
    map phase images = ["start"; "middle"; "end"] /\
    backgroundImageQueue (fst first) = [] /\
    snd (generateExerciseImage true provider exerciseName exerciseId (fst first))
      = AiCached images.
Proof.
  intros Hname Hidle. cbn zeta.
  assert (Hfirst : exists images st1,
    generateExerciseImage true provider exerciseName exerciseId
      (fst (clearImageCache st)) = (st1, Stock) /\
    aiImageCache st1 = {[ cacheKey exerciseName := images ]} /\
    map phase images = ["start"; "middle"; "end"] /\
    backgroundImageQueue st1 = []).
  { unfold generateExerciseImage. rewrite Hname.
    cbn [clearImageCache fst aiImageCache backgroundImageQueue]. rewrite lookup_empty.
    cbn [existsb negb andb app]. unfold processBackgroundQueue.
    cbn [isProcessingBackgroundQueue backgroundImageQueue setQueue]. rewrite Hidle.
    cbn [drain setQueue setProcessing aiImageCache]. rewrite lookup_empty.
    match goal with
    | |- context [generateAIImagesForExercise true provider exerciseName exerciseId ?s] =>
        destruct (generateAIImagesForExercise_succeeds exerciseName exerciseId s
                    (lookup_empty _)) as (images & _ & Hcache & Hqueue & Hph)
    end.
    cbn [aiImageCache backgroundImageQueue setQueue setProcessing] in Hcache, Hqueue.
    rewrite insert_empty in Hcache.
    exists images. eexists. split; [reflexivity|].
    cbn [aiImageCache backgroundImageQueue setProcessing].
    now rewrite Hcache, Hqueue. }
  destruct Hfirst as (images & st1 & -> & Hcache & Hph & Hqueue). cbn [fst snd].
  split; [reflexivity|]. exists images. repeat split; try assumption.
  unfold generateExerciseImage. rewrite Hname, Hcache, lookup_singleton_eq. reflexivity.
Qed.

End Refill.

(** ** More on the Plan Generator *)

Section GeneratorMore.

Import Plan Weeks.

(** A mapping over the indices that numbers the days and marks the first one
    gives a fresh, numbered week. *)
Lemma imap_numberedFresh (f : nat -> Day.t -> Day.t) (l : list Day.t) :
  (forall i d, Day.day (f i d) = Z.of_nat (S i)) ->
  (forall i d, Day.status (f i d) = if Nat.eqb i 0 then "today" else "upcoming") ->
  numberedFresh (imap f l).
Proof.
  intros Hday Hstatus. unfold numberedFresh, dayNumbers, dayStatuses, numbers.
  rewrite length_imap. split.
  - assert (H : forall k (g : nat -> Day.t -> Day.t),
               (forall i d, Day.day (g i d) = Z.of_nat (S (k + i))) ->
               map Day.day (imap g l) = map Z.of_nat (seq (S k) (length l))).
    { induction l as [|x l IH]; intros k g Hg; [reflexivity|].
      rewrite imap_cons. cbn [map length seq]. f_equal.
      - rewrite Hg. f_equal. lia.
      - apply (IH (S k)). intros i d. unfold compose. rewrite Hg. f_equal. lia. }
    apply (H 0%nat). intros i d. now rewrite Hday.
  - destruct l as [|x l]; [reflexivity|].
    rewrite imap_cons. cbn [map length freshStatuses]. f_equal; [apply Hstatus|].
    assert (H : forall (g : nat -> Day.t -> Day.t),
               (forall i d, Day.status (g i d) = "upcoming") ->
               map Day.status (imap g l) = replicate (length l) "upcoming").
    { induction l as [|y l IH]; intros g Hg; [reflexivity|].
      rewrite imap_cons. cbn [map length replicate]. f_equal; [apply Hg|].
      apply IH. intros i d. apply Hg. }
    apply H. intros i d. unfold compose. apply Hstatus.
Qed.

(** The days of a returned plan are numbered and fresh. *)
Lemma generateAITrainingPlan_returns_numbered
    (openai : bool) (now : Z) (first fallback : PlanReply) (plan : TrainingPlan) :
  generateAITrainingPlan openai now first fallback = Returns plan ->
  numberedFresh (days plan).
Proof.
  unfold generateAITrainingPlan.
  destruct openai; cbn [negb]; [|discriminate].
  destruct first; [destruct fallback; try discriminate ..|];
    intros [= <-]; cbn [days]; apply imap_numberedFresh; reflexivity.
Qed.

(** X8: a plan the cold-start generator returns. It can only return one when
    the client is configured and one of its two provider calls gave a parsed
    plan. The plan, from the first call or from the one in the catch branch,
    has its days numbered 1, 2, ... in order, the first one today and all
    others upcoming, whatever numbers and statuses the provider sent; its
    week id and its generation time are made from the clock. *)
Theorem generateAITrainingPlan_numbers_the_week
    (openai : bool) (now : Z) (first fallback : PlanReply) (plan : TrainingPlan) :
  generateAITrainingPlan openai now first fallback = Returns plan ->
  openai = true /\
  (isJson first = true \/ isJson fallback = true) /\
  numberedFresh (days plan) /\
  weekId plan = "week-" +:+ pretty now /\
  generatedAt plan = now.
Proof.
  intros H. pose proof (generateAITrainingPlan_returns_numbered _ _ _ _ _ H) as Hdays.
  revert H. unfold generateAITrainingPlan.
  destruct openai; cbn [negb]; [|discriminate].
  destruct first; [destruct fallback; try discriminate ..|];
    intros [= <-]; cbn [isJson weekId generatedAt];
    (split; [reflexivity|]); (split; [auto|]); (split; [exact Hdays|]);
    repeat split.
Qed.

Lemma untouched_formatDay (index : nat) (d : Day.t) : untouched (formatDay index d) = true.
Proof.
  unfold untouched, formatDay. cbn [Day.completed Day.completedAt Day.exercises
    negb andb from_option].
  apply forallb_imap. reflexivity.
Qed.

Lemma untouched_fallbackDay (index : nat) (d : Day.t) :
  untouched (fallbackDay index d) = true.
Proof.
  unfold untouched, fallbackDay. cbn [Day.completed Day.completedAt Day.exercises
    negb andb from_option].
  apply forallb_imap. reflexivity.
Qed.

Lemma generateNextWeekPlan_returns_numbered
    (openai : bool) (first fallback : PlanReply) (nextWeek : list Day.t) :
  generateNextWeekPlan openai first fallback = Returns nextWeek ->
  numberedFresh nextWeek.
Proof.
  unfold generateNextWeekPlan.
  destruct openai; cbn [negb]; [|discriminate].
  destruct first; [destruct fallback; try discriminate ..|];
    intros [= <-]; apply imap_numberedFresh; reflexivity.
Qed.

(** X9: a week the progressive generator returns. It can only return one when
    the client is configured and one of its two provider calls gave a parsed
    plan. The week is numbered 1, 2, ... with the first day today and the
    others upcoming, holds no completed day or exercise, and every exercise
    in it has at least three steps. *)
Theorem generateNextWeekPlan_returns_a_fresh_week
    (openai : bool) (first fallback : PlanReply) (nextWeek : list Day.t) :
  generateNextWeekPlan openai first fallback = Returns nextWeek ->
  openai = true /\
  (isJson first = true \/ isJson fallback = true) /\
  numberedFresh nextWeek /\
  forallb untouched nextWeek = true /\
  daysOk nextWeek = true.
Proof.
  intros H. pose proof (generateNextWeekPlan_returns_numbered _ _ _ _ H) as Hdays.
  pose proof (generateNextWeekPlan_ok _ _ _ _ H) as Hok.
  revert H. unfold generateNextWeekPlan.
  destruct openai; cbn [negb]; [|discriminate].
  destruct first; [destruct fallback; try discriminate ..|];
    intros [= <-]; cbn [isJson];
    (split; [reflexivity|]); (split; [auto|]); (split; [exact Hdays|]);
    (split; [|exact Hok]); apply forallb_imap;
    auto using untouched_formatDay, untouched_fallbackDay.
Qed.




End GeneratorMore.

(** ** More on the Plan State Machine *)

Section StateMore.

Import Plan Weeks Server Session.

Variable env : Env.
Variable req : Request.

(** X11: a completed week rolls over. When the request completes the last
    open day and the progressive generator returns at least one day, the
    answer announces the new week, the stored week number is the old one plus
    one, the stored days are exactly the generated ones, the completed day
    has been appended to the history, the user's copy of the plan holds the
    new days, and the generator was called once. *)
Theorem completeDay_rolls_the_week_over
    (db : Store) (plan : WorkoutPlan.t) (i : nat) (d : Day.t) (ds : list Day.t) :
  plans db !! userId req = Some plan ->
  findIndex (hasDay (dayNumber req)) (WorkoutPlan.weeklyPlan plan) = Some i ->
  allDone (markedPlan (now env) req i plan) = true ->
  generateNextWeekPlan (openai env) (nextFirst env) (nextFallback env) = Returns (d :: ds) ->
  exists db' s,
    run (completeDay env req) db = (db', Completed s) /\
    allDaysCompleted s = true /\ newWeekGenerated s = true /\
    currentWeek s = (orZ (WorkoutPlan.currentWeek plan) 1 + 1)%Z /\
    storedWeek db' (userId req) = Some (orZ (WorkoutPlan.currentWeek plan) 1 + 1)%Z /\
    storedDays db' (userId req) = Some (d :: ds) /\
    storedHistory db' (userId req) =
      (default [] (WorkoutPlan.completedHistory plan) ++
       [historyEntry (now env) (WorkoutPlan.currentWeek plan) (dayNumber req)
          (WorkoutPlan.weeklyPlan (markedPlan (now env) req i plan) !! i)
          (targetMuscles req)])%list /\
    syncedDays db' (userId req) = (fun _ => d :: ds) <$> users db !! userId req /\
    generations db' =
      (generations db ++ [(userId req, orZ (WorkoutPlan.currentWeek plan) 1)])%list.
Proof.
  intros Hplan Hidx Hall Hnext.
  rewrite (run_completeDay_found env req db plan Hplan).
  unfold completeFound. rewrite Hidx. cbn [run Datatypes.id users withPlans].
  rewrite run_saveUser. unfold rollover. rewrite Hall. cbn [run]. rewrite Hnext.
  cbn [run]. rewrite run_saveUser. cbn [run].
  eexists _, _. split; [reflexivity|].
  cbn [allDaysCompleted newWeekGenerated currentWeek summary].
  unfold storedWeek, storedDays, storedHistory, syncedDays.
  destruct (users db !! userId req) as [u|] eqn:Hu;
    cbn [fmap option_fmap option_map plans users generations withUsers withPlans
         logGeneration];
    rewrite ?lookup_alter_eq, ?Hplan, ?Hu;
    cbn [fmap option_fmap option_map mbind option_bind from_option
         WorkoutPlan.currentWeek WorkoutPlan.weeklyPlan WorkoutPlan.completedHistory
         saveRollover saveProgress rolledPlan markedPlan
         User.weeklyTrainingPlan saveUserPlan saveReward setUserPlan reward
         UserPlan.days];
    repeat split; reflexivity.
Qed.

(** X12: a rollover that cannot get a new week changes nothing but the day.
    When the request completes the last open day and the progressive
    generator throws or returns no day, the request still succeeds, says that
    no week was generated, and leaves the stored week number as it was with
    every day of the week done. *)
Theorem completeDay_keeps_the_week_when_generation_fails
    (db : Store) (plan : WorkoutPlan.t) (i : nat) :
  plans db !! userId req = Some plan ->
  findIndex (hasDay (dayNumber req)) (WorkoutPlan.weeklyPlan plan) = Some i ->
  allDone (markedPlan (now env) req i plan) = true ->
  generateNextWeekPlan (openai env) (nextFirst env) (nextFallback env) = Throws \/
  generateNextWeekPlan (openai env) (nextFirst env) (nextFallback env) = Returns [] ->
  exists db' s,
    run (completeDay env req) db = (db', Completed s) /\
    newWeekGenerated s = false /\
    storedWeek db' (userId req) = Some (WorkoutPlan.currentWeek plan) /\
    storedDays db' (userId req) =
      Some (WorkoutPlan.weeklyPlan (markedPlan (now env) req i plan)) /\
    forallb (String.eqb "done") (default [] (storedStatuses db' (userId req))) = true.
Proof. exact (completeDay_failed_generation_keeps_week env req db plan i). Qed.

End StateMore.

(** ** The days of a week under a complete-day request *)

Section WeekProgress.

Import Plan Weeks Server Session.

Lemma findIndex_alter {A} (p : A -> bool) (f : A -> A) (i : nat) (l : list A) :
  (forall x, p (f x) = p x) -> findIndex p (alter f i l) = findIndex p l.
Proof.
  intros Hp. revert i. induction l as [|x l IH]; intros [|i]; cbn; try reflexivity.
  - now rewrite Hp.
  - change (list_alter f i l) with (alter f i l). now rewrite IH.
Qed.

Lemma findIndex_none_lookup {A} (p : A -> bool) (l : list A) (i : nat) (x : A) :
  findIndex p l = None -> l !! i = Some x -> p x = false.
Proof.
  revert i. induction l as [|y l IH]; intros i; cbn; [discriminate|].
  destruct (p y) eqn:Hy; [discriminate|].
  destruct (findIndex p l); [discriminate|]. intros _.
  destruct i as [|i]; cbn; [now intros [= <-]|]. now apply IH.
Qed.

Lemma map_alter_same {A B} (g : A -> B) (f : A -> A) (i : nat) (l : list A) :
  (forall x, g (f x) = g x) -> map g (alter f i l) = map g l.
Proof.
  intros Hg. revert i. induction l as [|x l IH]; intros [|i]; cbn; try reflexivity.
  - now rewrite Hg.
  - change (list_alter f i l) with (alter f i l). now rewrite IH.
Qed.

Lemma map_alter_const {A B} (g : A -> B) (f : A -> A) (b : B) (i : nat) (l : list A) :
  (forall x, g (f x) = b) -> i < length l -> map g (alter f i l) = <[i := b]> (map g l).
Proof.
  intros Hg. revert i. induction l as [|x l IH]; intros [|i]; cbn; try lia.
  - now rewrite Hg.
  - intros Hi. change (list_alter f i l) with (alter f i l).
    change (list_insert i b (map g l)) with (<[i := b]> (map g l)).
    rewrite IH by lia. reflexivity.
Qed.

(** The day the request names, the next one when it is upcoming, and nothing
    else, are what the marking code writes. *)
Lemma markedPlan_days (now : Z) (req : Request) (plan : WorkoutPlan.t) (i : nat) :
  WorkoutPlan.weeklyPlan (markedPlan now req i plan) =
  let days := WorkoutPlan.weeklyPlan plan in
  let days1 := alter (markDone now) i days in
  alter completeExercises i
    match findIndex (hasDay (dayNumber req + 1)) days with
    | Some j =>
        match days1 !! j with
        | Some next =>
            if String.eqb (Day.status next) "upcoming"
            then alter (setStatus "today") j days1 else days1
        | None => days1
        end
    | None => days1
    end.
Proof.
  unfold markedPlan, advanceNext. cbn [WorkoutPlan.weeklyPlan].
  now rewrite (findIndex_alter _ (markDone now)).
Qed.

Lemma different_days (n : Z) (days : list Day.t) (i j : nat) :
  findIndex (hasDay n) days = Some i ->
  findIndex (hasDay (n + 1)) days = Some j ->
  i <> j.
Proof.
  intros Hi Hj ->.
  apply findIndex_lookup in Hi as (x & Hx & Hn), Hj as (y & Hy & Hn').
  rewrite Hx in Hy. injection Hy as <-.
  unfold hasDay in *. apply Z.eqb_eq in Hn, Hn'. lia.
Qed.

Lemma allDone_false (plan : WorkoutPlan.t) (j : nat) (d : Day.t) :
  WorkoutPlan.weeklyPlan plan !! j = Some d ->
  String.eqb (Day.status d) "done" = false ->
  allDone plan = false.
Proof.
  intros Hj Hd. unfold allDone.
  destruct (forallb _ _) eqn:E; [|reflexivity].
  rewrite forallb_forall in E.
  rewrite <- Hd. symmetry. apply E, list_elem_of_In.
  eapply list_elem_of_lookup_2, Hj.
Qed.

End WeekProgress.

Section NextDay.

Import Plan Weeks Server Session.

Variable env : Env.
Variable req : Request.

(** X13: completing a day opens the next one. When the plan holds the day
    after the completed one and that day is upcoming, the request rolls
    nothing over and stores the week with the completed day done, the day
    after it set to today, and every other day as it was. *)
Theorem completeDay_opens_the_next_day
    (db : Store) (plan : WorkoutPlan.t) (i j : nat) (next : Day.t) :
  plans db !! userId req = Some plan ->
  findIndex (hasDay (dayNumber req)) (WorkoutPlan.weeklyPlan plan) = Some i ->
  findIndex (hasDay (dayNumber req + 1)) (WorkoutPlan.weeklyPlan plan) = Some j ->
  WorkoutPlan.weeklyPlan plan !! j = Some next ->
  Day.status next = "upcoming" ->
  exists db' s days',
    run (completeDay env req) db = (db', Completed s) /\
    newWeekGenerated s = false /\
    storedDays db' (userId req) = Some days' /\
    days' !! j = Some (setStatus "today" next) /\
    days' !! i =
      (fun d => completeExercises (markDone (now env) d)) <$>
        WorkoutPlan.weeklyPlan plan !! i /\
    forall k, k <> i -> k <> j ->
      days' !! k = WorkoutPlan.weeklyPlan plan !! k.
Proof.
  intros Hplan Hi Hj Hnext Hup.
  pose proof (different_days _ _ _ _ Hi Hj) as Hij.
  assert (Hdays : WorkoutPlan.weeklyPlan (markedPlan (now env) req i plan) =
            alter completeExercises i
              (alter (setStatus "today") j
                 (alter (markDone (now env)) i (WorkoutPlan.weeklyPlan plan)))).
  { rewrite markedPlan_days. cbn zeta. rewrite Hj.
    rewrite list_lookup_alter_ne by exact Hij. rewrite Hnext, Hup. reflexivity. }
  assert (Hopen : WorkoutPlan.weeklyPlan (markedPlan (now env) req i plan) !! j =
            Some (setStatus "today" next)).
  { rewrite Hdays, list_lookup_alter_ne by exact Hij.
    rewrite list_lookup_alter_eq, list_lookup_alter_ne by exact Hij.
    now rewrite Hnext. }
  destruct (run_completeFound env req db plan i Hplan Hi)
    as (db' & s & p' & Hrun & _ & Hp' & _ & Hkept & Hiff & _).
  cbn zeta in Hkept, Hiff.
  assert (Hno : newWeekGenerated s = false).
  { apply Hiff. left. eapply allDone_false; [exact Hopen|reflexivity]. }
  destruct (Hkept Hno) as [Hsame _].
  exists db', s, (WorkoutPlan.weeklyPlan p').
  rewrite (run_completeDay_found env req db plan Hplan).
  split; [exact Hrun|]. split; [exact Hno|].
  split; [unfold storedDays; now rewrite Hp'|].
  rewrite Hsame. split; [exact Hopen|]. split.
  - rewrite Hdays, list_lookup_alter_eq, list_lookup_alter_ne by (intros ->; now apply Hij).
    rewrite list_lookup_alter_eq.
    destruct (WorkoutPlan.weeklyPlan plan !! i); reflexivity.
  - intros k Hki Hkj. rewrite Hdays.
    rewrite !list_lookup_alter_ne by congruence. reflexivity.
Qed.

End NextDay.

Section InOrder.

Import Plan Weeks Server Session.

Lemma lookup_map {A B} (f : A -> B) (l : list A) (i : nat) :
  map f l !! i = f <$> l !! i.
Proof.
  revert i. induction l as [|x l IH]; intros [|i]; cbn; try reflexivity. apply IH.
Qed.

Lemma progress_S (k n : nat) : progress (S k) (S n) = "done" :: progress k n.
Proof. reflexivity. Qed.

Lemma progress_next (k n : nat) : S k < n -> progress k n !! S k = Some "upcoming".
Proof.
  revert n. induction k as [|k IH]; intros n Hn.
  - destruct n as [|[|n]]; try lia. reflexivity.
  - destruct n as [|n]; [lia|]. rewrite progress_S. cbn. apply IH. lia.
Qed.

Lemma progress_today (k n : nat) : k < n -> progress k n !! k = Some "today".
Proof.
  revert n. induction k as [|k IH]; intros n Hn.
  - destruct n as [|n]; [lia|]. reflexivity.
  - destruct n as [|n]; [lia|]. rewrite progress_S. cbn. apply IH. lia.
Qed.

Lemma progress_step (k n : nat) :
  k < n ->
  (if (S k <? n)%nat
   then <[S k := "today"]> (<[k := "done"]> (progress k n))
   else <[k := "done"]> (progress k n)) = progress (S k) n.
Proof.
  revert n. induction k as [|k IH]; intros n Hn.
  - destruct n as [|[|n]]; try lia; reflexivity.
  - destruct n as [|n]; [lia|]. rewrite !progress_S.
    specialize (IH n ltac:(lia)).
    change (S (S k) <? S n)%nat with (S k <? n)%nat.
    destruct (S k <? n)%nat; rewrite <- IH; reflexivity.
Qed.

Lemma progress_full (n : nat) : progress n n = replicate n "done".
Proof. unfold progress. now rewrite Nat.sub_diag, app_nil_r. Qed.

Lemma findIndex_numbers (ds : list Day.t) (k : nat) :
  dayNumbers ds = numbers (length ds) ->
  findIndex (hasDay (Z.of_nat (S k))) ds =
    if (k <? length ds)%nat then Some k else None.
Proof.
  unfold dayNumbers, numbers.
  assert (H : forall o k,
    map Day.day ds = map Z.of_nat (seq (S o) (length ds)) ->
    findIndex (hasDay (Z.of_nat (S (o + k)))) ds =
      if (k <? length ds)%nat then Some k else None).
  { induction ds as [|x l IH]; intros o n; [reflexivity|].
    cbn [map length seq findIndex]. intros [= Hx Hl]. unfold hasDay at 1. rewrite Hx.
    destruct n as [|n].
    - rewrite Nat.add_0_r, Z.eqb_refl. reflexivity.
    - destruct (Z.eqb_spec (Z.of_nat (S o)) (Z.of_nat (S (o + S n)))) as [E|_]; [lia|].
      replace (S (o + S n)) with (S (S o + n)) by lia.
      rewrite (IH (S o) n Hl).
      change (S n <? S (length l))%nat with (n <? length l)%nat.
      destruct (n <? length l)%nat; reflexivity. }
  intros Hds. apply (H 0%nat k Hds).
Qed.

(** Marking the day that is today moves the week one day on. *)
Lemma markedPlan_inProgress (now : Z) (req : Request) (plan : WorkoutPlan.t) (k : nat) :
  inProgress k (WorkoutPlan.weeklyPlan plan) ->
  k < length (WorkoutPlan.weeklyPlan plan) ->
  dayNumber req = Z.of_nat (S k) ->
  inProgress (S k) (WorkoutPlan.weeklyPlan (markedPlan now req k plan)) /\
  length (WorkoutPlan.weeklyPlan (markedPlan now req k plan)) =
    length (WorkoutPlan.weeklyPlan plan).
Proof.
  intros [Hnum Hst] Hk Hreq. rewrite markedPlan_days. cbn zeta. rewrite Hreq.
  replace (Z.of_nat (S k) + 1)%Z with (Z.of_nat (S (S k))) by lia.
  rewrite (findIndex_numbers _ _ Hnum).
  set (days := WorkoutPlan.weeklyPlan plan) in *.
  pose proof (progress_step k (length days) Hk) as Hstep.
  assert (Hdone : dayStatuses (alter (markDone now) k days) =
            <[k := "done"]> (progress k (length days))).
  { unfold dayStatuses. rewrite map_alter_const with (b := "done") by (auto; lia).
    unfold dayStatuses in Hst. now rewrite Hst. }
  destruct (S k <? length days)%nat eqn:Hlt.
  - apply Nat.ltb_lt in Hlt.
    destruct (lookup_lt_is_Some_2 (alter (markDone now) k days) (S k)) as [next Hnext].
    { rewrite length_alter. exact Hlt. }
    rewrite Hnext.
    assert (Hup : Day.status next = "upcoming").
    { pose proof (lookup_map Day.status (alter (markDone now) k days) (S k)) as Hl.
      fold (dayStatuses (alter (markDone now) k days)) in Hl.
      rewrite Hdone, Hnext, list_lookup_insert_ne, progress_next in Hl by lia.
      now injection Hl. }
    rewrite Hup. cbn [String.eqb Ascii.eqb Bool.eqb].
    split; [split|].
    + unfold dayNumbers. rewrite !map_alter_same by reflexivity.
      rewrite !length_alter. exact Hnum.
    + unfold dayStatuses. rewrite map_alter_same by reflexivity.
      rewrite map_alter_const with (b := "today") by (rewrite ?length_alter; auto; lia).
      fold (dayStatuses (alter (markDone now) k days)). rewrite Hdone.
      rewrite !length_alter. exact Hstep.
    + now rewrite !length_alter.
  - split; [split|].
    + unfold dayNumbers. rewrite !map_alter_same by reflexivity.
      rewrite !length_alter. exact Hnum.
    + unfold dayStatuses. rewrite map_alter_same by reflexivity.
      fold (dayStatuses (alter (markDone now) k days)). rewrite Hdone.
      rewrite !length_alter. exact Hstep.
    + now rewrite !length_alter.
Qed.

Lemma allDone_replicate (plan : WorkoutPlan.t) (n : nat) :
  dayStatuses (WorkoutPlan.weeklyPlan plan) = replicate n "done" ->
  allDone plan = true.
Proof.
  unfold allDone, dayStatuses. revert n.
  induction (WorkoutPlan.weeklyPlan plan) as [|x l IH]; intros [|n]; cbn;
    try reflexivity; try discriminate.
  intros [= -> Hl]. cbn. now apply (IH n).
Qed.

End InOrder.

Section WholeWeek.

Import Plan Weeks Server Session.

Variable uid : string.

Lemma storedHistory_plan (db : Store) (plan : WorkoutPlan.t) :
  plans db !! uid = Some plan ->
  storedHistory db uid = default [] (WorkoutPlan.completedHistory plan).
Proof. intros H. unfold storedHistory. now rewrite H. Qed.

(** The last open day of a week. *)
Lemma completeDay_last (env : Env) (k : nat) (db : Store) (plan : WorkoutPlan.t) :
  plans db !! uid = Some plan ->
  inProgress k (WorkoutPlan.weeklyPlan plan) ->
  length (WorkoutPlan.weeklyPlan plan) = S k ->
  exists db' s days',
    run (completeDay env (dayRequest uid k)) db = (db', Completed s) /\
    newWeekGenerated s = accepted env /\
    generations db' =
      (generations db ++ [(uid, orZ (WorkoutPlan.currentWeek plan) 1)])%list /\
    length (storedHistory db' uid) = S (length (storedHistory db uid)) /\
    storedWeek db' uid =
      Some (if accepted env then (orZ (WorkoutPlan.currentWeek plan) 1 + 1)%Z
            else WorkoutPlan.currentWeek plan) /\
    storedDays db' uid = Some days' /\
    if accepted env then numberedFresh days' /\ days' <> []
    else dayStatuses days' = replicate (S k) "done".
Proof.
  intros Hplan Hprog Hlen.
  set (req := dayRequest uid k).
  assert (Hidx : findIndex (hasDay (dayNumber req)) (WorkoutPlan.weeklyPlan plan) = Some k).
  { cbn [dayNumber req dayRequest]. rewrite (findIndex_numbers _ _ (proj1 Hprog)), Hlen.
    now rewrite (proj2 (Nat.ltb_lt k (S k))) by lia. }
  destruct (markedPlan_inProgress (now env) req plan k Hprog ltac:(lia) eq_refl)
    as [[_ Hst] Hlen1].
  rewrite Hlen1, Hlen, progress_full in Hst.
  pose proof (allDone_replicate _ _ Hst) as Hall.
  destruct (run_completeFound env req db plan k Hplan Hidx)
    as (db' & s & p' & Hrun & _ & Hp' & Hhist & Hkept & Hiff & Hnew & _ & _ & Hgen).
  cbn zeta in Hkept, Hiff, Hnew, Hgen. rewrite Hall in Hgen.
  rewrite markedPlan_history in Hhist.
  exists db', s, (WorkoutPlan.weeklyPlan p').
  rewrite (run_completeDay_found env req db plan Hplan).
  split; [exact Hrun|].
  assert (Hacc : newWeekGenerated s = accepted env).
  { unfold accepted.
    destruct (generateNextWeekPlan _ _ _) as [|[|d ds]] eqn:Hnext.
    - apply Hiff. auto.
    - apply Hiff. auto.
    - destruct (newWeekGenerated s) eqn:Hs; [reflexivity|].
      destruct (proj1 Hiff eq_refl) as [H|[H|H]]; congruence. }
  split; [exact Hacc|]. split; [exact Hgen|]. split.
  { rewrite (storedHistory_plan db' p' Hp'), (storedHistory_plan db plan Hplan), Hhist.
    cbn [from_option Datatypes.id]. rewrite length_app. cbn [length]. lia. }
  unfold storedWeek, storedDays.
  rewrite (Hp' : plans db' !! uid = Some p'). cbn [fmap option_fmap option_map].
  rewrite <- Hacc. destruct (newWeekGenerated s) eqn:Hs.
  - destruct (Hnew eq_refl) as [Hweek Hnext]. rewrite Hweek.
    split; [reflexivity|]. split; [reflexivity|].
    split; [exact (generateNextWeekPlan_returns_numbered _ _ _ _ Hnext)|].
    unfold accepted in Hacc. rewrite Hnext in Hacc.
    destruct (WorkoutPlan.weeklyPlan p'); [discriminate|congruence].
  - destruct (Hkept eq_refl) as [Hdays Hweek]. rewrite Hweek, Hdays.
    split; [reflexivity|]. split; [reflexivity|]. exact Hst.
Qed.

(** A day that is not the last open one. *)
Lemma completeDay_inner (env : Env) (k : nat) (db : Store) (plan : WorkoutPlan.t) :
  plans db !! uid = Some plan ->
  inProgress k (WorkoutPlan.weeklyPlan plan) ->
  S k < length (WorkoutPlan.weeklyPlan plan) ->
  exists db' s p',
    run (completeDay env (dayRequest uid k)) db = (db', Completed s) /\
    newWeekGenerated s = false /\
    plans db' !! uid = Some p' /\
    inProgress (S k) (WorkoutPlan.weeklyPlan p') /\
    length (WorkoutPlan.weeklyPlan p') = length (WorkoutPlan.weeklyPlan plan) /\
    WorkoutPlan.currentWeek p' = WorkoutPlan.currentWeek plan /\
    generations db' = generations db /\
    length (storedHistory db' uid) = S (length (storedHistory db uid)).
Proof.
  intros Hplan Hprog Hlen.
  set (req := dayRequest uid k).
  assert (Hidx : findIndex (hasDay (dayNumber req)) (WorkoutPlan.weeklyPlan plan) = Some k).
  { cbn [dayNumber req dayRequest]. rewrite (findIndex_numbers _ _ (proj1 Hprog)).
    now rewrite (proj2 (Nat.ltb_lt k _)) by lia. }
  destruct (markedPlan_inProgress (now env) req plan k Hprog ltac:(lia) eq_refl)
    as [Hprog1 Hlen1].
  assert (Hopen : allDone (markedPlan (now env) req k plan) = false).
  { destruct (lookup_lt_is_Some_2
                (WorkoutPlan.weeklyPlan (markedPlan (now env) req k plan)) (S k))
      as [d Hd]; [lia|].
    apply (allDone_false _ (S k) d Hd).
    pose proof (lookup_map Day.status
                  (WorkoutPlan.weeklyPlan (markedPlan (now env) req k plan)) (S k)) as Hl.
    fold (dayStatuses (WorkoutPlan.weeklyPlan (markedPlan (now env) req k plan))) in Hl.
    rewrite (proj2 Hprog1), Hd, Hlen1, progress_today in Hl by lia.
    injection Hl as <-. reflexivity. }
  destruct (run_completeFound env req db plan k Hplan Hidx)
    as (db' & s & p' & Hrun & _ & Hp' & Hhist & Hkept & Hiff & _ & _ & _ & Hgen).
  cbn zeta in Hkept, Hiff, Hgen. rewrite Hopen, app_nil_r in Hgen.
  rewrite markedPlan_history in Hhist.
  assert (Hs : newWeekGenerated s = false) by (apply Hiff; auto).
  destruct (Hkept Hs) as [Hdays Hweek].
  exists db', s, p'. rewrite (run_completeDay_found env req db plan Hplan).
  rewrite Hdays. repeat split; try assumption; try apply Hprog1.
  rewrite (storedHistory_plan db' p' Hp'), (storedHistory_plan db plan Hplan), Hhist.
  cbn [from_option Datatypes.id]. rewrite length_app. cbn [length]. lia.
Qed.

Lemma completeInOrder_spec (envs : list Env) (last : Env) :
  forall (k : nat) (db : Store) (plan : WorkoutPlan.t),
    plans db !! uid = Some plan ->
    inProgress k (WorkoutPlan.weeklyPlan plan) ->
    length (WorkoutPlan.weeklyPlan plan) = k + S (length envs) ->
    let r := completeInOrder (envs ++ [last]) uid k db in
    map weekGenerated (snd r) =
      (replicate (length envs) (Some false) ++ [Some (accepted last)])%list /\
    generations (fst r) =
      (generations db ++ [(uid, orZ (WorkoutPlan.currentWeek plan) 1)])%list /\
    length (storedHistory (fst r) uid) =
      length (storedHistory db uid) + S (length envs) /\
    storedWeek (fst r) uid =
      Some (if accepted last then (orZ (WorkoutPlan.currentWeek plan) 1 + 1)%Z
            else WorkoutPlan.currentWeek plan) /\
    exists days',
      storedDays (fst r) uid = Some days' /\
      if accepted last then numberedFresh days' /\ days' <> []
      else dayStatuses days' = replicate (length (WorkoutPlan.weeklyPlan plan)) "done".
Proof.
  induction envs as [|env envs IH]; intros k db plan Hplan Hprog Hlen; cbn zeta.
  - cbn [app completeInOrder length] in *.
    destruct (completeDay_last last k db plan Hplan Hprog ltac:(lia))
      as (db' & s & days' & Hrun & Hs & Hgen & Hhist & Hweek & Hdays & Hfin).
    rewrite Hrun. cbn [fst snd map replicate app weekGenerated completed fmap
                       option_fmap option_map].
    rewrite Hs. repeat split; try assumption; [lia|].
    exists days'. split; [exact Hdays|].
    replace (length (WorkoutPlan.weeklyPlan plan)) with (S k) by lia. exact Hfin.
  - cbn [length] in Hlen.
    change ((env :: envs) ++ [last])%list with (env :: (envs ++ [last]))%list.
    cbn [completeInOrder].
    destruct (completeDay_inner env k db plan Hplan Hprog ltac:(lia))
      as (db1 & s & p1 & Hrun & Hs & Hp1 & Hprog1 & Hlen1 & Hweek1 & Hgen1 & Hhist1).
    rewrite Hrun.
    specialize (IH (S k) db1 p1 Hp1 Hprog1 ltac:(lia)). cbn zeta in IH.
    destruct (completeInOrder (envs ++ [last]) uid (S k) db1) as [db2 rs].
    cbn [fst snd] in IH |- *.
    destruct IH as (Hrs & Hgen & Hhist & Hweek & days' & Hdays & Hfin).
    cbn [map length replicate app weekGenerated completed fmap option_fmap option_map].
    rewrite Hs, Hrs, Hgen, Hgen1, Hhist, Hhist1, Hweek, Hweek1.
    repeat split; try reflexivity; [lia|].
    exists days'. split; [exact Hdays|]. now rewrite <- Hlen1.
Qed.

(** X14: a whole week, trained in order. Starting from a stored week of
    n >= 1 numbered days with day 1 today and the others upcoming, the
    requests for days 1, 2, ..., n, one after the other, all succeed. Only
    the last one reports a new week, and it does so exactly when the
    generator hands over a week with at least one day. The generator is
    called once, the history grows by n entries, and at the end either the
    week number is one higher and the stored week is again numbered with day 1
    today, or the week number is unchanged and all n days are done. *)
Theorem training_a_week_in_order
    (envs : list Env) (last : Env) (db : Store) (plan : WorkoutPlan.t) :
  plans db !! uid = Some plan ->
  numberedFresh (WorkoutPlan.weeklyPlan plan) ->
  length (WorkoutPlan.weeklyPlan plan) = S (length envs) ->
  let r := completeInOrder (envs ++ [last]) uid 0 db in
  map weekGenerated (snd r) =
    (replicate (length envs) (Some false) ++ [Some (accepted last)])%list /\
  generations (fst r) =
    (generations db ++ [(uid, orZ (WorkoutPlan.currentWeek plan) 1)])%list /\
  length (storedHistory (fst r) uid) =
    length (storedHistory db uid) + S (length envs) /\
  storedWeek (fst r) uid =
    Some (if accepted last then (orZ (WorkoutPlan.currentWeek plan) 1 + 1)%Z
          else WorkoutPlan.currentWeek plan) /\
  exists days',
    storedDays (fst r) uid = Some days' /\
    if accepted last then numberedFresh days' /\ days' <> []
    else dayStatuses days' = replicate (length (WorkoutPlan.weeklyPlan plan)) "done".
Proof.
  intros Hplan [Hnum Hst] Hlen.
  apply (completeInOrder_spec envs last 0 db plan Hplan); [|lia].
  split; [exact Hnum|]. unfold progress. cbn [replicate app].
  now rewrite Nat.sub_0_r.
Qed.

End WholeWeek.

Section ColdStart.

Import Plan Weeks Server Session.

Variable env : Env.
Variable req : Request.

(** X15: a complete-day request for a user who has no stored plan. Without a
    user document or without scan data the answer is 404; when the cold-start
    generator throws it is 500; in both cases the store is untouched.
    Otherwise the generated plan is stored as week 1 before the day is looked
    up: a day number the new plan does not hold is answered 404 with the new
    plan left in the store, and a day it holds is completed and becomes the
    only entry of the history. *)
Theorem completeDay_without_a_plan (db : Store) :
  plans db !! userId req = None ->
  let missing := NotFound "No workout plan found - please complete a scan first" in
  match users db !! userId req with
  | None => run (completeDay env req) db = (db, missing)
  | Some user =>
      if User.latestScan user then
        match generateAITrainingPlan (openai env) (now env)
                (coldFirst env) (coldFallback env) with
        | Throws =>
            run (completeDay env req) db =
              (db, ServerError "Failed to generate workout plan")
        | Returns newPlan =>
            match findIndex (hasDay (dayNumber req)) (days newPlan) with
            | None =>
                exists db',
                  run (completeDay env req) db = (db', NotFound "Day not found in plan") /\
                  storedDays db' (userId req) = Some (days newPlan) /\
                  storedWeek db' (userId req) = Some 1%Z /\
                  syncedDays db' (userId req) = Some (days newPlan)
            | Some i =>
                exists db' s,
                  run (completeDay env req) db = (db', Completed s) /\
                  length (storedHistory db' (userId req)) = 1
            end
        end
      else run (completeDay env req) db = (db, missing)
  end.
Proof.
  intros Hnone. cbn zeta. unfold completeDay. cbn [run Datatypes.id]. rewrite Hnone.
  cbn [run Datatypes.id].
  destruct (users db !! userId req) as [user|] eqn:Hu; [|reflexivity].
  destruct (User.latestScan user); [|reflexivity]. cbn [run Datatypes.id].
  destruct (generateAITrainingPlan _ _ _ _) as [|newPlan]; [reflexivity|].
  cbn [run plans withPlans]. rewrite lookup_partial_alter_eq, Hnone.
  cbn [upsertGenerated].
  set (db2 := withUsers _ (withPlans _ db)).
  assert (Hplan2 : plans db2 !! userId req = Some (planFromGenerated newPlan)).
  { subst db2. cbn [plans withUsers withPlans].
    now rewrite lookup_partial_alter_eq, Hnone. }
  destruct (findIndex (hasDay (dayNumber req)) (days newPlan)) as [i|] eqn:Hidx.
  - destruct (run_completeFound env req db2 (planFromGenerated newPlan) i Hplan2 Hidx)
      as (db' & s & p' & Hrun & _ & Hp' & Hhist & _).
    exists db', s. split; [exact Hrun|].
    unfold storedHistory. rewrite Hp'. cbn [mbind option_bind]. rewrite Hhist.
    reflexivity.
  - exists db2. unfold completeFound.
    change (WorkoutPlan.weeklyPlan (planFromGenerated newPlan)) with (days newPlan).
    rewrite Hidx. split; [reflexivity|].
    unfold storedDays, storedWeek, syncedDays. rewrite Hplan2.
    repeat split. subst db2. cbn [users withUsers withPlans].
    now rewrite lookup_alter_eq, Hu.
Qed.

End ColdStart.

(** ** The weekly-plan endpoint *)

Section GetWeekly.

Import Plan Weeks Server Session Weekly.

Variable env : Env.
Variable scanDoc : bool.
Variable markTime : Z.
Variable uid : string.

Lemma unmark_mark (t : Z) (db : Store) (f : Store -> Store) :
  (forall s, regeneratingPlans (f s) = regeneratingPlans s) ->
  regeneratingPlans (unmark uid (f (mark uid t db))) = delete uid (regeneratingPlans db).
Proof.
  intros Hf. unfold unmark, mark. cbn [regeneratingPlans setMarkers].
  rewrite Hf. cbn [regeneratingPlans setMarkers]. apply delete_insert_eq.
Qed.

(** What the two parts of the handler leave in [regeneratingPlans]. *)
Lemma fromUser_markers (db : Store) :
  regeneratingPlans db !! uid = None ->
  regeneratingPlans (fst (fromUser env markTime uid db)) = regeneratingPlans db /\
  isRegenerating (snd (fromUser env markTime uid db)) = false.
Proof.
  intros Hfree. unfold fromUser.
  destruct (users db !! uid) as [user|]; [|now split].
  destruct (User.weeklyTrainingPlan user) as [userPlan|].
  - destruct (negb _ && _); [|now split].
    destruct (generateAITrainingPlan _ _ _ _); now split.
  - destruct (User.latestScan user); [|now split].
    destruct (generateAITrainingPlan _ _ _ _) as [|newPlan]; cbn [fst snd]; split;
      try reflexivity.
    + rewrite (unmark_mark markTime db (fun s => s)) by reflexivity.
      now apply delete_id.
    + rewrite (unmark_mark markTime db
                 (fun s => syncUser uid newPlan user
                             (withPlans (partial_alter (upsertFirst newPlan) uid) s)))
        by reflexivity.
      now apply delete_id.
Qed.

Lemma fromStored_markers (workoutPlan : WorkoutPlan.t) (db : Store) :
  regeneratingPlans db !! uid = None ->
  regeneratingPlans (fst (fromStored env scanDoc markTime uid workoutPlan db))
    = regeneratingPlans db /\
  isRegenerating (snd (fromStored env scanDoc markTime uid workoutPlan db)) = false.
Proof.
  intros Hfree. unfold fromStored.
  destruct (isPlanComplete _); [now split|]. cbn zeta.
  change (users (mark uid markTime db)) with (users db).
  destruct (users db !! uid) as [u|].
  - destruct (User.latestScan u || scanDoc);
      [destruct (generateAITrainingPlan _ _ _ _) as [|newPlan]|]; cbn [fst snd]; split;
      try reflexivity.
    + rewrite (unmark_mark markTime db (fun s => s)) by reflexivity. now apply delete_id.
    + rewrite (unmark_mark markTime db
                 (fun s => syncUser uid newPlan u
                             (withPlans (alter (saveRegenerated newPlan) uid) s)))
        by reflexivity.
      now apply delete_id.
    + rewrite (unmark_mark markTime db (fun s => s)) by reflexivity. now apply delete_id.
  - destruct scanDoc;
      [destruct (generateAITrainingPlan _ _ _ _) as [|newPlan]|]; cbn [fst snd]; split;
      try reflexivity.
    + rewrite (unmark_mark markTime db (fun s => s)) by reflexivity. now apply delete_id.
    + rewrite (unmark_mark markTime db
                 (fun s => withPlans (alter (saveRegenerated newPlan) uid) s))
        by reflexivity.
      now apply delete_id.
    + rewrite (unmark_mark markTime db (fun s => s)) by reflexivity. now apply delete_id.
Qed.

Lemma passGuard_free (db : Store) (markers : gmap string Z) :
  passGuard (now env) uid (regeneratingPlans db) = Some markers ->
  markers = delete uid (regeneratingPlans db) /\ markers !! uid = None.
Proof.
  unfold passGuard.
  destruct (regeneratingPlans db !! uid) as [startTime|] eqn:Hm.
  - destruct (120000 <? now env - startTime)%Z; [|discriminate].
    intros [= <-]. split; [reflexivity|apply lookup_delete_eq].
  - intros [= <-]. split; [|exact Hm]. symmetry. now apply delete_id.
Qed.

(** X16: the regeneration guard of the weekly endpoint. While the user's
    marker is at most two minutes old, the request is answered "regenerating"
    and the store is left alone. In every other case the answer is not
    "regenerating" and, when the handler returns, the user has no marker any
    more while the markers of other users are as they were: a marker set by
    the handler is released on every path (database calls taken to succeed). *)
Theorem getWeekly_guard (db : Store) :
  let r := getWeekly env scanDoc markTime uid db in
  match regeneratingPlans db !! uid with
  | Some startTime =>
      if (now env - startTime <=? 120000)%Z
      then r = (db, Regenerating)
      else isRegenerating (snd r) = false /\
           regeneratingPlans (fst r) = delete uid (regeneratingPlans db)
  | None =>
      isRegenerating (snd r) = false /\
      regeneratingPlans (fst r) = delete uid (regeneratingPlans db)
  end.
Proof.
  cbn zeta.
  assert (Hpass : forall markers,
    passGuard (now env) uid (regeneratingPlans db) = Some markers ->
    isRegenerating (snd (getWeekly env scanDoc markTime uid db)) = false /\
    regeneratingPlans (fst (getWeekly env scanDoc markTime uid db))
      = delete uid (regeneratingPlans db)).
  { intros markers Hguard. unfold getWeekly. rewrite Hguard. cbn zeta.
    destruct (passGuard_free db markers Hguard) as [-> Hfree].
    set (db0 := setMarkers _ db).
    assert (H0 : regeneratingPlans db0 !! uid = None) by exact Hfree.
    destruct (plans db0 !! uid) as [workoutPlan|].
    - destruct (WorkoutPlan.weeklyPlan workoutPlan).
      + destruct (fromUser_markers db0 H0) as [-> ->]. now split.
      + destruct (fromStored_markers workoutPlan db0 H0) as [-> ->]. now split.
    - destruct (fromUser_markers db0 H0) as [-> ->]. now split. }
  destruct (regeneratingPlans db !! uid) as [startTime|] eqn:Hm.
  - destruct (Z.leb_spec (now env - startTime) 120000) as [Hlive|Hstale].
    + unfold getWeekly, passGuard. rewrite Hm.
      now rewrite (proj2 (Z.ltb_ge 120000 (now env - startTime))) by lia.
    + apply (Hpass (delete uid (regeneratingPlans db))).
      unfold passGuard. rewrite Hm.
      now rewrite (proj2 (Z.ltb_lt 120000 (now env - startTime))) by lia.
  - apply (Hpass (regeneratingPlans db)). unfold passGuard. now rewrite Hm.
Qed.

End GetWeekly.

Section GetWeeklyAnswer.

Import Plan Weeks Server Session Weekly.

Variable env : Env.
Variable scanDoc : bool.
Variable markTime : Z.
Variable uid : string.

Lemma stepsServed_servedDays (workoutPlan : WorkoutPlan.t) :
  stepsServed (servedDays workoutPlan) = true.
Proof.
  unfold stepsServed, servedDays. apply forallb_forall. intros d Hd.
  apply in_map_iff in Hd as (d0 & <- & _).
  cbn [servedDay Day.exercises from_option Datatypes.id].
  apply forallb_forall. intros ex Hex.
  apply in_map_iff in Hex as (ex0 & <- & _).
  cbn [servedExercise Exercise.steps from_option Datatypes.id].
  destruct (Exercise.steps ex0) as [steps|]; [|reflexivity].
  destruct (2 <=? length steps)%nat eqn:E; [exact E|reflexivity].
Qed.

Lemma generated_numberedFresh (newPlan : TrainingPlan) :
  generateAITrainingPlan (openai env) (now env) (coldFirst env) (coldFallback env)
    = Returns newPlan ->
  numberedFresh (Plan.days newPlan).
Proof.
  apply generateAITrainingPlan_returns_numbered.
Qed.

Lemma syncedDays_syncUser (newPlan : TrainingPlan) (user : User.t) (db : Store)
    (f : Store -> Store) :
  (forall s, users (f s) = users s) ->
  users db !! uid = Some user ->
  syncedDays (f (syncUser uid newPlan user db)) uid = Some (Plan.days newPlan).
Proof.
  intros Hf Hu. unfold syncedDays, syncUser. rewrite Hf. cbn [users withUsers].
  now rewrite lookup_alter_eq, Hu.
Qed.

Lemma fromUser_answerOk (db0 db : Store) :
  plans db0 = plans db -> users db0 = users db ->
  answerOk uid db (fromUser env markTime uid db0).
Proof.
  intros Hp Hu. unfold fromUser, answerOk. rewrite Hu.
  destruct (users db !! uid) as [user|] eqn:Huser; [|now split].
  destruct (User.weeklyTrainingPlan user) as [userPlan|].
  - destruct (negb _ && _); [|now split].
    destruct (generateAITrainingPlan _ _ _ _) as [|newPlan] eqn:Hgen; [now split|].
    cbn [fst snd]. split; [now apply generated_numberedFresh|].
    apply (syncedDays_syncUser newPlan user db0 (fun s => s)); [reflexivity|].
    now rewrite Hu.
  - destruct (User.latestScan user); [|now split].
    destruct (generateAITrainingPlan _ _ _ _) as [|newPlan] eqn:Hgen; [now split|].
    cbn [fst snd]. split; [now apply generated_numberedFresh|].
    apply (syncedDays_syncUser newPlan user _ (unmark uid)); [reflexivity|].
    cbn [users withPlans mark setMarkers]. now rewrite Hu.
Qed.

Lemma fromStored_answerOk (workoutPlan : WorkoutPlan.t) (db0 db : Store) :
  plans db0 = plans db -> users db0 = users db ->
  answerOk uid db (fromStored env scanDoc markTime uid workoutPlan db0).
Proof.
  intros Hp Hu. unfold fromStored, answerOk.
  destruct (isPlanComplete _).
  { cbn [fst snd convert days]. split; [apply stepsServed_servedDays|now split]. }
  cbn zeta. change (users (mark uid markTime db0)) with (users db0). rewrite Hu.
  destruct (users db !! uid) as [u|] eqn:Huser.
  - destruct (User.latestScan u || scanDoc);
      [destruct (generateAITrainingPlan _ _ _ _) as [|newPlan] eqn:Hgen|];
      cbn [fst snd convert days];
      try (split; [apply stepsServed_servedDays|now split]).
    split; [now apply generated_numberedFresh|].
    apply (syncedDays_syncUser newPlan u _ (unmark uid)); [reflexivity|].
    cbn [users withPlans mark setMarkers]. now rewrite Hu.
  - destruct scanDoc;
      [destruct (generateAITrainingPlan _ _ _ _) as [|newPlan] eqn:Hgen|];
      cbn [fst snd convert days];
      try (split; [apply stepsServed_servedDays|now split]).
    split; [now apply generated_numberedFresh|]. exact Hu.
Qed.

(** X17: what the weekly endpoint answers and writes. A plan served from the
    stored document has at least two steps in every exercise. A newly
    generated plan that is served is numbered 1, 2, ... with day 1 today, and
    is also the user's copy when the user document exists. Plan and user
    documents are written only when the answer is a newly generated plan. *)
Theorem getWeekly_answer (db : Store) :
  answerOk uid db (getWeekly env scanDoc markTime uid db).
Proof.
  unfold getWeekly.
  destruct (passGuard _ _ _) as [markers|]; [|now split]. cbn zeta.
  change (plans (setMarkers markers db)) with (plans db).
  destruct (plans db !! uid) as [workoutPlan|].
  - destruct (WorkoutPlan.weeklyPlan workoutPlan) eqn:Hdays.
    + now apply fromUser_answerOk.
    + now apply fromStored_answerOk.
  - now apply fromUser_answerOk.
Qed.

(** X18: regenerating an incomplete stored week resets it. When the guard
    lets the request through, the stored week has days but is incomplete, a
    scan document exists and the cold-start generator returns, the stored
    days are replaced by the generated ones - numbered, day 1 today, nothing
    done - while the week number and the history stay as they were. *)
Theorem getWeekly_regeneration_resets_the_week
    (db : Store) (workoutPlan : WorkoutPlan.t) (newPlan : TrainingPlan) :
  regeneratingPlans db !! uid = None ->
  plans db !! uid = Some workoutPlan ->
  WorkoutPlan.weeklyPlan workoutPlan <> [] ->
  isPlanComplete (WorkoutPlan.weeklyPlan workoutPlan) = false ->
  scanDoc = true ->
  generateAITrainingPlan (openai env) (now env) (coldFirst env) (coldFallback env)
    = Returns newPlan ->
  let r := getWeekly env scanDoc markTime uid db in
  snd r = Regenerated newPlan /\
  storedDays (fst r) uid = Some (Plan.days newPlan) /\
  numberedFresh (Plan.days newPlan) /\
  storedWeek (fst r) uid = storedWeek db uid /\
  storedHistory (fst r) uid = storedHistory db uid.
Proof.
  intros Hfree Hplan Hdays Hinc Hscan Hgen. cbn zeta.
  unfold getWeekly, passGuard. rewrite Hfree. cbn zeta.
  change (plans (setMarkers (regeneratingPlans db) db)) with (plans db).
  rewrite Hplan.
  destruct (WorkoutPlan.weeklyPlan workoutPlan) as [|d ds] eqn:Hwp; [congruence|].
  unfold fromStored. rewrite Hwp, Hinc. cbn zeta.
  assert (Hdata : match users (mark uid markTime (setMarkers (regeneratingPlans db) db))
                          !! uid with
                  | Some u => User.latestScan u || scanDoc
                  | None => scanDoc
                  end = true).
  { rewrite Hscan. destruct (users _ !! uid); [apply orb_true_r|reflexivity]. }
  rewrite Hdata, Hgen. cbn [fst snd].
  split; [reflexivity|].
  unfold storedDays, storedWeek, storedHistory.
  destruct (users (mark uid markTime (setMarkers (regeneratingPlans db) db)) !! uid);
    cbn [plans unmark syncUser withUsers withPlans mark setMarkers];
    rewrite lookup_alter_eq, Hplan; cbn [fmap option_fmap option_map];
    (split; [reflexivity|]); (split; [now apply generated_numberedFresh|]);
    split; reflexivity.
Qed.

End GetWeeklyAnswer.

(** ** Saving a plan and patching a day *)

Section SaveAndPatch.

Import Plan Weeks Server Session Weekly Saving.

Variable uid : string.

(** X19: the safeguard of the save endpoint. For a known user, a posted plan
    is ignored, the store left alone, exactly when a stored plan exists whose
    week is greater than the posted plan's currentWeek (or, when that is
    absent, its weekNumber, or 1). Otherwise the plan is saved: the stored
    days and the user's copy are the posted ones, the history is kept, and
    the stored week is the posted currentWeek, or 1 when the plan carries
    none. So a plan that carries a currentWeek never lowers the stored week. *)
Theorem postWeekly_safeguard (plan : UserPlan.t) (db : Store) (user : User.t) :
  users db !! uid = Some user ->
  let r := postWeekly uid (Some plan) db in
  let saved :=
    snd r = Saved /\
    storedWeek (fst r) uid = Some (orZ (UserPlan.currentWeek plan) 1) /\
    storedDays (fst r) uid = Some (UserPlan.days plan) /\
    storedHistory (fst r) uid = storedHistory db uid /\
    users (fst r) !! uid ≫= User.weeklyTrainingPlan = Some plan in
  match plans db !! uid with
  | Some existing =>
      if (incomingWeek (Some plan) <? orZ (WorkoutPlan.currentWeek existing) 1)%Z
      then r = (db, Ignored (orZ (WorkoutPlan.currentWeek existing) 1))
      else saved /\
           (UserPlan.currentWeek plan <> 0%Z ->
            (orZ (WorkoutPlan.currentWeek existing) 1 <= orZ (UserPlan.currentWeek plan) 1)%Z)
  | None => saved
  end.
Proof.
  intros Hu. cbn zeta. unfold postWeekly. rewrite Hu.
  assert (Hsaved : forall existingPlan,
    plans db !! uid = existingPlan ->
    let r := (withPlans (partial_alter (upsertPosted plan) uid)
                (withUsers (alter (assignPlan (Some plan)) uid) db), Saved) in
    snd r = Saved /\
    storedWeek (fst r) uid = Some (orZ (UserPlan.currentWeek plan) 1) /\
    storedDays (fst r) uid = Some (UserPlan.days plan) /\
    storedHistory (fst r) uid = storedHistory db uid /\
    users (fst r) !! uid ≫= User.weeklyTrainingPlan = Some plan).
  { intros existingPlan He. cbn zeta. cbn [fst snd].
    unfold storedWeek, storedDays, storedHistory.
    cbn [plans users withPlans withUsers].
    rewrite lookup_partial_alter_eq, lookup_alter_eq, Hu, He.
    repeat split. destruct existingPlan; reflexivity. }
  destruct (plans db !! uid) as [existing|] eqn:He.
  - rewrite bool_decide_eq_true_2 by eauto. cbn [andb existingWeek].
    destruct (Z.ltb_spec (incomingWeek (Some plan)) (orZ (WorkoutPlan.currentWeek existing) 1))
      as [Hlt|Hge]; [reflexivity|].
    split; [now apply (Hsaved (Some existing))|].
    intros Hcw. unfold incomingWeek, orZ in Hge |- *.
    destruct (Z.eqb_spec (UserPlan.currentWeek plan) 0); [contradiction|exact Hge].
  - rewrite bool_decide_eq_false_2 by (intros [? ?]; discriminate).
    now apply (Hsaved None).
Qed.

Lemma getWeekly_complete (env : Env) (scanDoc : bool) (markTime : Z) (db : Store)
    (workoutPlan : WorkoutPlan.t) :
  regeneratingPlans db !! uid = None ->
  plans db !! uid = Some workoutPlan ->
  isPlanComplete (WorkoutPlan.weeklyPlan workoutPlan) = true ->
  snd (getWeekly env scanDoc markTime uid db) = Stored (convert workoutPlan).
Proof.
  intros Hfree Hplan Hok. unfold getWeekly, passGuard. rewrite Hfree. cbn zeta.
  change (plans (setMarkers (regeneratingPlans db) db)) with (plans db). rewrite Hplan.
  destruct (WorkoutPlan.weeklyPlan workoutPlan) as [|d ds] eqn:Hdays; [discriminate|].
  unfold fromStored. now rewrite Hdays, Hok.
Qed.

(** X20: the day endpoint works on the user's copy only. A PATCH leaves the
    plan documents, the markers and every other user as they were; it answers
    404 without writing when the user has no copy or the copy has no such
    day. So when the stored week is complete, the weekly endpoint serves
    after the PATCH exactly what it served before it. *)
Theorem patchDay_touches_only_the_user_copy
    (env : Env) (scanDoc : bool) (markTime : Z)
    (dayNumber : Z) (status : string) (db : Store) :
  let r := patchDay uid dayNumber status db in
  plans (fst r) = plans db /\
  regeneratingPlans (fst r) = regeneratingPlans db /\
  (forall other, other <> uid -> users (fst r) !! other = users db !! other) /\
  match snd r with
  | Patched userPlan => users (fst r) !! uid ≫= User.weeklyTrainingPlan = Some userPlan
  | NoPlan | NoDay => fst r = db
  end /\
  (forall workoutPlan,
     plans db !! uid = Some workoutPlan ->
     isPlanComplete (WorkoutPlan.weeklyPlan workoutPlan) = true ->
     regeneratingPlans db !! uid = None ->
     snd (getWeekly env scanDoc markTime uid (fst r))
       = snd (getWeekly env scanDoc markTime uid db)).
Proof.
  cbn zeta.
  assert (Hplans : plans (fst (patchDay uid dayNumber status db)) = plans db /\
                   regeneratingPlans (fst (patchDay uid dayNumber status db))
                     = regeneratingPlans db).
  { unfold patchDay. destruct (users db !! uid ≫= User.weeklyTrainingPlan); [|now split].
    destruct (findIndex _ _); now split. }
  destruct Hplans as [Hplans Hmarkers].
  split; [exact Hplans|]. split; [exact Hmarkers|]. split; [|split].
  - intros other Hother. unfold patchDay.
    destruct (users db !! uid ≫= User.weeklyTrainingPlan); [|reflexivity].
    destruct (findIndex _ _); [|reflexivity].
    cbn [fst users withUsers]. now rewrite lookup_alter_ne by congruence.
  - unfold patchDay.
    destruct (users db !! uid ≫= User.weeklyTrainingPlan) as [userPlan|] eqn:Hcopy;
      [|reflexivity].
    destruct (findIndex _ _); [|reflexivity].
    cbn [fst snd users withUsers]. rewrite lookup_alter_eq.
    destruct (users db !! uid); [reflexivity|discriminate].
  - intros workoutPlan Hplan Hok Hfree.
    rewrite (getWeekly_complete env scanDoc markTime db workoutPlan Hfree Hplan Hok).
    apply getWeekly_complete; [now rewrite Hmarkers|now rewrite Hplans|exact Hok].
Qed.

(** X21: what is saved is what is served. After a plan with a complete week
    has been saved for a known user with no marker, the weekly endpoint
    serves that week: the posted days in the served format, under the week
    number the plan was stored with. *)
Theorem postWeekly_then_getWeekly
    (env : Env) (scanDoc : bool) (markTime : Z)
    (plan : UserPlan.t) (db : Store) (user : User.t) :
  users db !! uid = Some user ->
  regeneratingPlans db !! uid = None ->
  isPlanComplete (UserPlan.days plan) = true ->
  snd (postWeekly uid (Some plan) db) = Saved ->
  exists served,
    snd (getWeekly env scanDoc markTime uid (fst (postWeekly uid (Some plan) db)))
      = Stored served /\
    Weekly.days served = map servedDay (UserPlan.days plan) /\
    Weekly.currentWeek served = orZ (UserPlan.currentWeek plan) 1 /\
    stepsServed (Weekly.days served) = true.
Proof.
  intros Hu Hfree Hok. unfold postWeekly. rewrite Hu. cbn zeta.
  destruct (bool_decide _ && _); [discriminate|]. intros _. cbn [fst].
  set (db' := withPlans _ _).
  assert (Hplan : exists e, plans db' !! uid = Some e /\
            WorkoutPlan.weeklyPlan e = UserPlan.days plan /\
            WorkoutPlan.currentWeek e = orZ (UserPlan.currentWeek plan) 1).
  { subst db'. cbn [plans withPlans withUsers]. rewrite lookup_partial_alter_eq.
    eexists. split; [reflexivity|]. split; reflexivity. }
  destruct Hplan as (e & He & Hdays & Hweek).
  exists (convert e).
  rewrite (getWeekly_complete env scanDoc markTime db' e Hfree He) by now rewrite Hdays.
  split; [reflexivity|]. cbn [Weekly.days Weekly.currentWeek convert].
  unfold servedDays. rewrite Hdays, Hweek. repeat split.
  - unfold orZ at 1. destruct (Z.eqb_spec (orZ (UserPlan.currentWeek plan) 1) 0) as [E|E];
      [|reflexivity].
    unfold orZ in E. destruct (Z.eqb_spec (UserPlan.currentWeek plan) 0); congruence.
  - rewrite <- Hdays. apply stepsServed_servedDays.
Qed.

End SaveAndPatch.

(** ** More on the scan pipeline: tiers, the normalizer and the identity gate *)

Section ScanMore.

Import Normalizer Identity Conversion.

Variable StringToNumber : string -> number.
Variable ToPrimitive : value -> string.

(** X22: the tier resolver on any value that converts. Whatever JSON value
    it is given, provided the conversion of the value to a number does not
    throw, and however the runtime converts strings, the result is a label of
    the tier table. A value that converts to NaN or to minus infinity, among
    them undefined, and any number below 35, negative ones included, gets
    "Gym Bro"; plus infinity and any number from 97 up, also above 100, gets
    "Final Boss Mogger"; null, which converts to 0, gets "Gym Bro". *)
Theorem getTierFromScore_any_value (score : value) :
  convertible score = true ->
  In (getTierFromScore StringToNumber ToPrimitive score) (map name TIERS) /\
  match ToNumber StringToNumber ToPrimitive score with
  | NaN | NegInf => getTierFromScore StringToNumber ToPrimitive score = "Gym Bro"
  | PosInf => getTierFromScore StringToNumber ToPrimitive score = "Final Boss Mogger"
  | Fin q =>
      getTierFromScore StringToNumber ToPrimitive score = tierFor q /\
      ((q < 35)%Q -> tierFor q = "Gym Bro") /\
      ((97 <= q)%Q -> tierFor q = "Final Boss Mogger")
  end /\
  getTierFromScore StringToNumber ToPrimitive VUndefined = "Gym Bro" /\
  getTierFromScore StringToNumber ToPrimitive VNull = "Gym Bro".
Proof.
  intros _. unfold getTierFromScore.
  rewrite (scanTiers_ToNumber StringToNumber ToPrimitive TIERS score).
  rewrite (scanTiers_number StringToNumber ToPrimitive TIERS).
  split; [|split; [|split; reflexivity]].
  - destruct (ToNumber StringToNumber ToPrimitive score) as [| |q|];
      cbn [scanTiers TIERS JS.ge ToNumber num_ge minScore name map In];
      split_thresholds; repeat (first [left; reflexivity | right]).
  - destruct (ToNumber StringToNumber ToPrimitive score) as [| |q|]; try reflexivity.
    split; [reflexivity|]. unfold tierFor.
    cbn [scanTiers TIERS JS.ge ToNumber num_ge minScore name].
    split; intros Hq; split_thresholds; try reflexivity; lra.
Qed.

Lemma truthy_orElse (a b : value) : truthy b = true -> truthy (JS.orElse a b) = true.
Proof. intros Hb. unfold JS.orElse. destruct (truthy a) eqn:Ha; assumption. Qed.

Lemma coalesce_defined (a : value) : coalesce a VNull <> VUndefined.
Proof. destruct a; discriminate. Qed.

(** X23: what becomes of a provider reply whose mogScore, if any, converts to
    a number without throwing. The analysis is simulated when the call
    failed, the reply had no content or did not parse, or parsed to null. It
    is rejected only when the parsed object carries isValidPhysique with the
    boolean false, and the rejection always has a message. Every other such
    reply - isValidPhysique absent or of any other value, even a reply that
    is no object - is accepted as a valid, AI-powered analysis in which the
    defaulted fields are never empty and a muscle score is never undefined. *)
Theorem analyzePhysiqueWithAI_outcomes (reply : VisionReply) :
  scoreConverts reply = true ->
  match analyzePhysiqueWithAI StringToNumber ToPrimitive reply with
  | Simulated =>
      match reply with
      | Parsed analysis => nullish analysis = true
      | HttpNotOk | NoContent | Unparsable => True
      end
  | Invalid message =>
      truthy message = true /\
      exists fields,
        reply = Parsed (VObj fields) /\
        fields !! "isValidPhysique" = Some (VBool false)
  | Normalized n =>
      isValidPhysique n = true /\ aiPowered n = true /\
      (exists analysis,
         reply = Parsed analysis /\ nullish analysis = false /\
         get_opt analysis "isValidPhysique" <> VBool false) /\
      forallb truthy
        [notVisible n; weakPoints n; strongPoints n; symmetry n;
         overallAssessment n; improvementTips n; scanSteps n] = true /\
      Forall (fun v => v <> VUndefined) (muscles (muscleBreakdown n))
  end.
Proof.
  intros _. destruct reply as [| | |analysis]; try exact I.
  unfold analyzePhysiqueWithAI.
  destruct analysis as [| |b|n|s|xs|fields]; try reflexivity;
    cbn [get get_opt strict_eq_bool];
    try (cbn [normalizedAnalysis get get_opt mbind option_bind isValidPhysique
              aiPowered notVisible weakPoints strongPoints symmetry
              overallAssessment improvementTips scanSteps muscleBreakdown muscles
              chest shoulders back arms legs core leanness];
         split; [reflexivity|]; split; [reflexivity|];
         split; [eexists; repeat split; discriminate|];
         split; [reflexivity|]; repeat constructor; discriminate).
  destruct (fields !! "isValidPhysique") as [valid|] eqn:Hvalid;
    cbn [from_option Datatypes.id].
  - destruct valid as [| |[|]| | | |]; cbn [strict_eq_bool Bool.eqb];
      try (split; [apply truthy_orElse; reflexivity|];
           exists fields; split; [reflexivity|exact Hvalid]);
      cbn [normalizedAnalysis get get_opt mbind option_bind isValidPhysique
           aiPowered notVisible weakPoints strongPoints symmetry
           overallAssessment improvementTips scanSteps muscleBreakdown muscles
           chest shoulders back arms legs core leanness];
      (split; [reflexivity|]); (split; [reflexivity|]);
      (split; [eexists; split; [reflexivity|]; split; [reflexivity|];
               cbn [get_opt]; rewrite ?Hvalid; discriminate|]);
      (split; [cbn [forallb]; rewrite !truthy_orElse by reflexivity; reflexivity|]);
      repeat constructor; apply coalesce_defined.
  - cbn [strict_eq_bool normalizedAnalysis get get_opt mbind option_bind isValidPhysique
         aiPowered notVisible weakPoints strongPoints symmetry
         overallAssessment improvementTips scanSteps muscleBreakdown muscles
         chest shoulders back arms legs core leanness].
    (split; [reflexivity|]); (split; [reflexivity|]).
    split; [eexists; split; [reflexivity|]; split; [reflexivity|];
            cbn [get_opt]; rewrite ?Hvalid; discriminate|].
    split; [cbn [forallb]; rewrite !truthy_orElse by reflexivity; reflexivity|].
    repeat constructor; apply coalesce_defined.
Qed.


End ScanMore.

Section LegacyAndReward.

Import Plan Weeks Server Session.

Lemma openDays_alter (f : Day.t -> Day.t) (i : nat) (ds : list Day.t) :
  openDays ds <= S (openDays (alter f i ds)).
Proof.
  unfold openDays. revert i. induction ds as [|d ds IH]; intros [|i]; cbn [List.filter].
  - cbn. lia.
  - cbn. lia.
  - change (alter f 0 (d :: ds)) with (f d :: ds). cbn [List.filter].
    destruct (negb _), (negb _); cbn [length]; lia.
  - change (alter f (S i) (d :: ds)) with (d :: alter f i ds). cbn [List.filter].
    specialize (IH i). destruct (negb _); cbn [length]; lia.
Qed.

Lemma allDone_openDays (plan : WorkoutPlan.t) :
  1 <= openDays (WorkoutPlan.weeklyPlan plan) -> allDone plan = false.
Proof.
  unfold allDone, openDays.
  induction (WorkoutPlan.weeklyPlan plan) as [|d ds IH]; cbn [List.filter forallb length];
    [lia|].
  destruct (String.eqb (Day.status d) "done"); cbn [negb andb length]; [exact IH|reflexivity].
Qed.

Lemma legacy_week_stays_open (env : Env) (uid : string) (n : Z)
    (db : Store) (plan : WorkoutPlan.t) :
  plans db !! uid = Some plan ->
  WorkoutPlan.completedHistory plan <> None ->
  2 <= openDays (WorkoutPlan.weeklyPlan plan) ->
  plans (fst (run (completeDayLegacy env (legacyRequest uid n)) db)) = plans db /\
  weekStillOpen (snd (run (completeDayLegacy env (legacyRequest uid n)) db)) = true.
Proof.
  intros Hplan Hhist Hopen.
  destruct (findIndex (hasDay n) (WorkoutPlan.weeklyPlan plan)) as [i|] eqn:Hidx.
  - assert (Hstill : allDone (markedPlanLegacy (now env) (legacyRequest uid n) i plan)
                     = false).
    { apply allDone_openDays. unfold markedPlanLegacy. cbn [WorkoutPlan.weeklyPlan].
      rewrite list_alter_alter_eq.
      pose proof (openDays_alter (completeExercises ∘ markDone (now env)) i
                    (WorkoutPlan.weeklyPlan plan)). lia. }
    destruct (run_completeDayLegacy_found env (legacyRequest uid n) db plan i
                Hplan Hidx Hhist)
      as (db' & s & p' & Hrun & _ & _ & Hall & Hp' & _ & Hno & Hkept & Hother & _).
    cbn zeta in Hall, Hno. rewrite Hrun. cbn [fst snd weekStillOpen].
    rewrite Hall, Hstill, (Hno Hstill). split; [|reflexivity].
    apply map_eq. intros k. destruct (decide (k = uid)) as [->|Hk].
    + change (userId (legacyRequest uid n)) with uid in Hp'.
      now rewrite Hp', (Hkept (Hno Hstill)), Hplan.
    + now apply Hother.
  - destruct (completeDay_unknown_day env (legacyRequest uid n) db plan Hplan Hidx)
      as [_ ->]. now split.
Qed.

(** X25: the endpoint without the user id in its path cannot finish a week
    that has two open days. Its handler marks the day in memory only, so for
    a stored plan that has a history and at least two days not done, any
    series of requests for days of that user, one after the other, leaves
    every plan document exactly as it was, and every answer is a 404 or a 200
    that reports allDaysCompleted and newWeekGenerated false. *)
Theorem completeDayLegacy_never_finishes_a_week
    (uid : string) (requests : list (Env * Z)) (db : Store) (plan : WorkoutPlan.t) :
  plans db !! uid = Some plan ->
  WorkoutPlan.completedHistory plan <> None ->
  2 <= openDays (WorkoutPlan.weeklyPlan plan) ->
  plans (fst (legacyRequests requests uid db)) = plans db /\
  forallb weekStillOpen (snd (legacyRequests requests uid db)) = true /\
  length (snd (legacyRequests requests uid db)) = length requests.
Proof.
  intros Hplan Hhist Hopen. revert db Hplan.
  induction requests as [|[env n] rest IH]; intros db Hplan; [now split|].
  cbn [legacyRequests].
  destruct (legacy_week_stays_open env uid n db plan Hplan Hhist Hopen) as [Hsame Hanswer].
  destruct (run (completeDayLegacy env (legacyRequest uid n)) db) as [db1 r].
  cbn [fst snd] in Hsame, Hanswer.
  specialize (IH db1 ltac:(now rewrite Hsame)).
  destruct (legacyRequests rest uid db1) as [db2 rs]. cbn [fst snd] in IH |- *.
  destruct IH as (Hplans & Hanswers & Hlen).
  cbn [forallb length]. rewrite Hplans, Hsame, Hanswer, Hanswers, Hlen. now split.
Qed.

Variable env : Env.
Variable req : Request.


End LegacyAndReward.

Section GenerateEndpoint.

Import Plan Weeks Server Session Weekly Saving.

Variable env : Env.
Variable scanDoc : bool.
Variable uid : string.

(** X27: the generate endpoint starts the user over at week 1. When it
    answers with a plan, that plan is what the cold-start generator returned:
    its days, numbered with day 1 today, are the stored days and the user's
    copy, the stored week number is 1 whatever it was, and the history is
    kept. When it answers anything else - unknown user, no scan, generator
    failure - nothing has been written. *)
Theorem postGenerate_restarts_at_week_one (db : Store) :
  let r := postGenerate env scanDoc uid db in
  match snd r with
  | PlanReady plan =>
      generateAITrainingPlan (openai env) (now env) (coldFirst env) (coldFallback env)
        = Returns plan /\
      numberedFresh (Plan.days plan) /\
      storedDays (fst r) uid = Some (Plan.days plan) /\
      syncedDays (fst r) uid = Some (Plan.days plan) /\
      storedWeek (fst r) uid = Some 1%Z /\
      storedHistory (fst r) uid = storedHistory db uid
  | NoUser | NoScan | GenerateFailed => fst r = db
  end.
Proof.
  cbn zeta. unfold postGenerate.
  destruct (users db !! uid) as [user|] eqn:Hu; [|reflexivity].
  destruct scanDoc; [|reflexivity]. cbn [negb].
  destruct (generateAITrainingPlan _ _ _ _) as [|plan] eqn:Hgen; [reflexivity|].
  cbn [fst snd]. split; [reflexivity|].
  split; [now apply (generated_numberedFresh env)|].
  unfold storedDays, syncedDays, storedWeek, storedHistory.
  cbn [plans users withPlans withUsers].
  rewrite lookup_partial_alter_eq, lookup_alter_eq, Hu.
  cbn [upsertGenerated fmap option_fmap option_map mbind option_bind].
  split; [destruct (plans db !! uid); reflexivity|].
  split; [reflexivity|].
  split; destruct (plans db !! uid); reflexivity.
Qed.

End GenerateEndpoint.

(** ** The theorems above at concrete inputs *)

Import Plan Weeks Server Session Weekly Saving Examples MoreExamples.

Lemma cache_entry_is_write_once_witness :
  Assets.aiImageCache warm !! "squat" = Some squat_images /\
  Assets.aiImageCache
    (fst (Assets.generateExerciseImage true serving "Lunge" "ex-2" warm)) !! "squat"
    = Some squat_images.
Proof.
  split; [reflexivity|].
  apply (cache_entry_is_write_once true serving "Lunge" "ex-2" warm "squat" squat_images).
  reflexivity.
Defined.

Lemma queue_has_no_duplicate_names_witness :
  NoDup (AssetsAdmin.queuedKeys busy) /\
  NoDup (AssetsAdmin.queuedKeys
           (fst (Assets.generateExerciseImage true serving "Lunge" "ex-2" busy))).
Proof.
  assert (H : NoDup (AssetsAdmin.queuedKeys busy))
    by (apply NoDup_singleton).
  split; [exact H|].
  exact (queue_has_no_duplicate_names true serving "Lunge" "ex-2" busy H).
Defined.

Lemma cleared_cache_is_refilled_witness :
  AssetsAdmin.alwaysAnswers serving /\
  exists images,
    Assets.aiImageCache
      (fst (Assets.generateExerciseImage true serving "Lunge" "ex-2"
              (fst (AssetsAdmin.clearImageCache warm))))
      = {[ Assets.cacheKey "Lunge" := images ]} /\
    map Assets.phase images = ["start"; "middle"; "end"].
Proof.
  assert (H : AssetsAdmin.alwaysAnswers serving)
    by (intros n; eexists _, _; reflexivity).
  split; [exact H|].
  destruct (cleared_cache_is_refilled serving H "Lunge" "ex-2" warm eq_refl eq_refl)
    as (_ & images & Hcache & Hphases & _).
  exists images. split; [exact Hcache|exact Hphases].
Defined.

Lemma completeDay_rolls_the_week_over_witness :
  exists db' s,
    run (completeDay (answering (PlanJson next_week)) (complete 2)) last_day
      = (db', Completed s) /\
    newWeekGenerated s = true /\
    storedWeek db' "u1" = Some 2%Z.
Proof.
  destruct (completeDay_rolls_the_week_over
              (answering (PlanJson next_week)) (complete 2) last_day
              (week_of [day_with 1 "done" [squat]; day_with 2 "today" [squat]])
              1%nat _ _ eq_refl eq_refl eq_refl eq_refl)
    as (db' & s & Hrun & _ & Hnew & _ & Hweek & _).
  exists db', s. split; [exact Hrun|]. split; [exact Hnew|exact Hweek].
Defined.

Lemma completeDay_keeps_the_week_when_generation_fails_witness :
  exists db' s,
    run (completeDay (answering CallFails) (complete 2)) last_day = (db', Completed s) /\
    newWeekGenerated s = false /\
    storedWeek db' "u1" = Some 1%Z.
Proof.
  destruct (completeDay_keeps_the_week_when_generation_fails
              (answering CallFails) (complete 2) last_day
              (week_of [day_with 1 "done" [squat]; day_with 2 "today" [squat]])
              1%nat eq_refl eq_refl eq_refl (or_introl eq_refl))
    as (db' & s & Hrun & Hnew & Hweek & _).
  exists db', s. split; [exact Hrun|]. split; [exact Hnew|exact Hweek].
Defined.

Lemma completeDay_opens_the_next_day_witness :
  exists db' s days',
    run (completeDay (answering CallFails) (complete 2)) mid_week = (db', Completed s) /\
    storedDays db' "u1" = Some days' /\
    days' !! 2%nat = Some (setStatus "today" (day_with 3 "upcoming" [squat])).
Proof.
  destruct (completeDay_opens_the_next_day
              (answering CallFails) (complete 2) mid_week
              (week_of [day_with 1 "done" [squat]; day_with 2 "today" [squat];
                        day_with 3 "upcoming" [squat]])
              1%nat 2%nat (day_with 3 "upcoming" [squat])
              eq_refl eq_refl eq_refl eq_refl eq_refl)
    as (db' & s & days' & Hrun & _ & Hdays & Hnext & _).
  exists db', s, days'. split; [exact Hrun|]. split; [exact Hdays|exact Hnext].
Defined.

Lemma training_a_week_in_order_witness :
  numberedFresh
    [day_with 1 "today" [squat]; day_with 2 "upcoming" [squat];
     day_with 3 "upcoming" [squat]] /\
  map weekGenerated
    (snd (completeInOrder
            ([answering CallFails; answering CallFails] ++
             [answering (PlanJson next_week)]) "u1" 0 fresh_week))
    = [Some false; Some false; Some true] /\
  storedWeek
    (fst (completeInOrder
            ([answering CallFails; answering CallFails] ++
             [answering (PlanJson next_week)]) "u1" 0 fresh_week)) "u1"
    = Some 2%Z.
Proof.
  assert (H : numberedFresh
                [day_with 1 "today" [squat]; day_with 2 "upcoming" [squat];
                 day_with 3 "upcoming" [squat]])
    by (split; reflexivity).
  split; [exact H|].
  destruct (training_a_week_in_order "u1"
              [answering CallFails; answering CallFails]
              (answering (PlanJson next_week)) fresh_week
              (week_of [day_with 1 "today" [squat]; day_with 2 "upcoming" [squat];
                        day_with 3 "upcoming" [squat]])
              eq_refl H eq_refl)
    as (Hanswers & _ & _ & Hweek & _).
  split; [exact Hanswers|exact Hweek].
Defined.

Lemma completeDay_without_a_plan_witness :
  plans newcomer !! "u1" = None /\
  exists db' s,
    run (completeDay cold (complete 1)) newcomer = (db', Completed s) /\
    length (storedHistory db' "u1") = 1.
Proof.
  split; [reflexivity|].
  exact (completeDay_without_a_plan cold (complete 1) newcomer eq_refl).
Defined.

Lemma getWeekly_regeneration_resets_the_week_witness :
  isPlanComplete [day_with 1 "done" [squat]; day_with 2 "today" [squat]] = false /\
  storedStatuses (fst (getWeekly cold true clock "u1" last_day)) "u1"
    = Some ["today"; "upcoming"; "upcoming"] /\
  storedWeek (fst (getWeekly cold true clock "u1" last_day)) "u1" = Some 1%Z.
Proof.
  split; [reflexivity|].
  destruct (getWeekly_regeneration_resets_the_week cold true clock "u1" last_day
              (week_of [day_with 1 "done" [squat]; day_with 2 "today" [squat]]) _
              eq_refl eq_refl ltac:(discriminate) eq_refl eq_refl eq_refl)
    as (_ & Hdays & _ & Hweek & _).
  split; [|exact Hweek].
  unfold storedStatuses. rewrite Hdays. reflexivity.
Defined.

Lemma postWeekly_safeguard_witness :
  users mid_week !! "u1" = Some athlete /\
  snd (postWeekly "u1" (Some posted) mid_week) = Saved /\
  storedWeek (fst (postWeekly "u1" (Some posted) mid_week)) "u1" = Some 2%Z.
Proof.
  split; [reflexivity|].
  pose proof (postWeekly_safeguard "u1" posted mid_week athlete eq_refl) as H.
  change (let r := postWeekly "u1" (Some posted) mid_week in
          (snd r = Saved /\
           storedWeek (fst r) "u1" = Some 2%Z /\
           storedDays (fst r) "u1" = Some (UserPlan.days posted) /\
           storedHistory (fst r) "u1" = storedHistory mid_week "u1" /\
           users (fst r) !! "u1" ≫= User.weeklyTrainingPlan = Some posted) /\
          (UserPlan.currentWeek posted <> 0%Z -> (1 <= 2)%Z)) in H.
  destruct H as [(Hsaved & Hweek & _) _]. split; [exact Hsaved|exact Hweek].
Defined.

Lemma postWeekly_then_getWeekly_witness :
  isPlanComplete (UserPlan.days posted) = true /\
  exists served,
    snd (getWeekly cold false clock "u1" (fst (postWeekly "u1" (Some posted) mid_week)))
      = Stored served /\
    Weekly.currentWeek served = 2%Z.
Proof.
  split; [reflexivity|].
  destruct (postWeekly_then_getWeekly "u1" cold false clock posted mid_week athlete
              eq_refl eq_refl eq_refl eq_refl)
    as (served & Hserved & _ & Hweek & _).
  exists served. split; [exact Hserved|exact Hweek].
Defined.

Lemma completeDayLegacy_never_finishes_a_week_witness :
  2 <= openDays [day_with 1 "done" [squat]; day_with 2 "today" [squat];
                 day_with 3 "upcoming" [squat]] /\
  storedStatuses
    (fst (legacyRequests [(answering CallFails, 2%Z); (answering CallFails, 3%Z)]
            "u1" mid_week)) "u1"
    = Some ["done"; "today"; "upcoming"] /\
  length (snd (legacyRequests [(answering CallFails, 2%Z); (answering CallFails, 3%Z)]
                 "u1" mid_week)) = 2.
Proof.
  assert (H : 2 <= openDays [day_with 1 "done" [squat]; day_with 2 "today" [squat];
                             day_with 3 "upcoming" [squat]])
    by (vm_compute; lia).
  split; [exact H|].
  destruct (completeDayLegacy_never_finishes_a_week "u1"
              [(answering CallFails, 2%Z); (answering CallFails, 3%Z)] mid_week
              (week_of [day_with 1 "done" [squat]; day_with 2 "today" [squat];
                        day_with 3 "upcoming" [squat]])
              eq_refl ltac:(discriminate) H)
    as (Hplans & _ & Hlen).
  split; [|exact Hlen].
  unfold storedStatuses, storedDays. rewrite Hplans. reflexivity.
Defined.


Lemma generateAITrainingPlan_numbers_the_week_witness :
  exists plan,
    generateAITrainingPlan true clock (PlanJson next_week) CallFails = Returns plan /\
    numberedFresh (Plan.days plan) /\
    Plan.generatedAt plan = clock.
Proof.
  eexists. split; [reflexivity|].
  destruct (generateAITrainingPlan_numbers_the_week true clock (PlanJson next_week)
              CallFails _ eq_refl)
    as (_ & _ & Hdays & _ & Htime).
  split; [exact Hdays|exact Htime].
Defined.

Lemma generateNextWeekPlan_returns_a_fresh_week_witness :
  exists nextWeek,
    generateNextWeekPlan true CallFails (PlanJson next_week) = Returns nextWeek /\
    numberedFresh nextWeek /\ daysOk nextWeek = true.
Proof.
  eexists. split; [reflexivity|].
  destruct (generateNextWeekPlan_returns_a_fresh_week true CallFails (PlanJson next_week)
              _ eq_refl)
    as (_ & _ & Hdays & _ & Hok).
  split; [exact Hdays|exact Hok].
Defined.

Lemma getTierFromScore_any_value_witness :
  Conversion.convertible (VArr [VNum (Fin 99); VObj ∅]) = true /\
  In (getTierFromScore noStringToNumber noToPrimitive (VArr [VNum (Fin 99); VObj ∅]))
     (map name TIERS).
Proof.
  split; [reflexivity|].
  exact (proj1 (getTierFromScore_any_value noStringToNumber noToPrimitive
                  (VArr [VNum (Fin 99); VObj ∅]) eq_refl)).
Defined.

Lemma analyzePhysiqueWithAI_outcomes_witness :
  Conversion.scoreConverts (Normalizer.Parsed overshooting_analysis) = true /\
  exists n,
    Normalizer.analyzePhysiqueWithAI noStringToNumber noToPrimitive
      (Normalizer.Parsed overshooting_analysis) = Normalizer.Normalized n /\
    Normalizer.aiPowered n = true.
Proof.
  split; [vm_compute; reflexivity|].
  pose proof (analyzePhysiqueWithAI_outcomes noStringToNumber noToPrimitive
                (Normalizer.Parsed overshooting_analysis) ltac:(vm_compute; reflexivity))
    as H.
  destruct (Normalizer.analyzePhysiqueWithAI noStringToNumber noToPrimitive
              (Normalizer.Parsed overshooting_analysis)) as [|message|n] eqn:E;
    [discriminate E|discriminate E|].
  exists n. split; [reflexivity|]. exact (proj1 (proj2 H)).
Defined.
